(** * id-verify-ai: the document text-matching engine

    A shallow embedding of [textMatching] ([src/unnamed/part_000], which
    [DocumentUpload.tsx] imports as [@/lib/textMatching]: normalisation, the
    four field matchers, the Aadhaar document classifier) and of
    [validateDocumentData] in [DocumentUpload.tsx], followed by the
    properties established about them.  The handlers of the other
    components ([PersonalInfoForm], [ReviewSubmission], [DigitalIDCard],
    [KYCVerification]) come after, with the session that they make up.

    Conventions.
    - A JavaScript string is the list of its UTF-16 code units ([str]).
    - A JavaScript number is an exact rational ([Q]).  Every number the
      engine compares is a literal with two decimals, a quotient of two
      small integers or a sum of such, so the comparisons of the source
      agree with the exact ones.
    - [undefined] / [null] / [NaN] are [None]. *)

From Stdlib Require Import String Ascii.
From Stdlib Require Import List NArith ZArith QArith Bool Lia.
Import ListNotations.
Close Scope Q_scope.

Set Implicit Arguments.

(** ** Strings *)

Definition char := N.
Definition str := list char.

(** ASCII literals of the source, written as Rocq strings. *)
Definition js (s : string) : str := map N_of_ascii (list_ascii_of_string s).

Definition str_eqb (a b : str) : bool :=
  if list_eq_dec N.eq_dec a b then true else false.

Definition between (lo hi c : N) : bool := ((lo <=? c) && (c <=? hi))%N.

(** [\d], [\w] and [\s] of an ECMAScript pattern without the [u] flag. *)
Definition isDigit (c : char) : bool := between 48 57 c.
Definition isUpper (c : char) : bool := between 65 90 c.
Definition isLower (c : char) : bool := between 97 122 c.
Definition isWord (c : char) : bool :=
  isLower c || isUpper c || isDigit c || (c =? 95)%N.
Definition isSpace (c : char) : bool :=
  between 9 13 c || (c =? 32)%N || (c =? 160)%N || (c =? 5760)%N
  || between 8192 8202 c || (c =? 8232)%N || (c =? 8233)%N
  || (c =? 8239)%N || (c =? 8287)%N || (c =? 12288)%N || (c =? 65279)%N.

Definition space : char := 32%N.

(** [s.startsWith(sub)] and [s.includes(sub)] *)
Fixpoint startsWith (s sub : str) : bool :=
  match sub, s with
  | [], _ => true
  | _ :: _, [] => false
  | x :: sub', c :: s' => (x =? c)%N && startsWith s' sub'
  end.

Fixpoint includes (s sub : str) : bool :=
  startsWith s sub ||
  match s with
  | [] => false
  | _ :: s' => includes s' sub
  end.

(** [s.split(' ')]: never empty, [''.split(' ')] is [['']]. *)
Fixpoint split (sep : char) (s : str) : list str :=
  match s with
  | [] => [[]]
  | c :: s' =>
      if (c =? sep)%N then [] :: split sep s'
      else match split sep s' with
           | [] => [[c]]
           | w :: ws => (c :: w) :: ws
           end
  end.

(** [parts.join(' ')] *)
Fixpoint join (sep : char) (parts : list str) : str :=
  match parts with
  | [] => []
  | [w] => w
  | w :: ws => w ++ sep :: join sep ws
  end.

(** [s.slice(-n)] *)
Definition slice_last (n : nat) (s : str) : str := skipn (length s - n) s.

(** [s.slice(i, j)] for [0 <= i <= j], on a string or an array *)
Definition slice {A : Type} (i j : nat) (s : list A) : list A :=
  firstn (j - i) (skipn i s).

(** [s.trim()]: the white space of [trim] is the class [\s]. *)
Fixpoint trimStart (s : str) : str :=
  match s with
  | [] => []
  | c :: s' => if isSpace c then trimStart s' else s
  end.

Fixpoint trimEnd (s : str) : str :=
  match s with
  | [] => []
  | c :: s' =>
      match trimEnd s' with
      | [] => if isSpace c then [] else [c]
      | t => c :: t
      end
  end.

Definition trim (s : str) : str := trimEnd (trimStart s).

(** [s.replace(/[^\w\s]/g, '')] *)
Definition removePunctuation (s : str) : str :=
  filter (fun c => isWord c || isSpace c) s.

(** [s.replace(/\s+/g, ' ')]: [inRun] tells that the previous code unit
    belonged to the run of white space being replaced. *)
Fixpoint collapseFrom (inRun : bool) (s : str) : str :=
  match s with
  | [] => []
  | c :: s' =>
      if isSpace c
      then if inRun then collapseFrom true s' else space :: collapseFrom true s'
      else c :: collapseFrom false s'
  end.

Definition collapseSpaces (s : str) : str := collapseFrom false s.

(** [s.replace(/\s+/g, '')] *)
Definition removeSpaces (s : str) : str := filter (fun c => negb (isSpace c)) s.

(** ** The host: built-ins and the [string-similarity] package

    [String.prototype.toLowerCase] follows the Unicode case tables, and
    [compareTwoStrings] comes from an npm package; neither is code of the
    repository.  The engine is written against this interface.

    The one law states all that the matchers can observe of [toLowerCase]
    through [normalizeText]: once the code units outside [\w] and [\s] are
    removed, lower-casing amounts to [lowerUnit] applied to each code unit.
    The code points whose lower-case form contains an ASCII character are
    A-Z, U+0130 (i followed by U+0307) and U+212A (k); no cased character
    is white space. *)

Definition lowerUnit (c : char) : str :=
  if isUpper c then [(c + 32)%N]
  else if (c =? 304)%N then [105%N; 775%N]
  else if (c =? 8490)%N then [107%N]
  else [c].

Definition lowerUnits (s : str) : str := flat_map lowerUnit s.

Class Host : Type := {
  toLowerCase : str -> str;
  compareTwoStrings : str -> str -> Q;
  toLowerCase_words :
    forall s, removePunctuation (toLowerCase s) = removePunctuation (lowerUnits s)
}.

(** ** Regular expressions

    The patterns of the source are written in this syntax and run by a
    backtracking matcher with the priorities of ECMAScript: alternatives
    left to right, greedy quantifiers, the leftmost match first. *)

(** The members of a bracketed class [[...]]. *)
Inductive classItem : Type :=
| One (c : char)                               (* a character, escaped or not *)
| Span (lo hi : char)                          (* lo-hi *)
| Esc (p : char -> bool).                      (* \d, \w or \s *)

Definition inItem (c : char) (i : classItem) : bool :=
  match i with
  | One x => (c =? x)%N
  | Span lo hi => between lo hi c
  | Esc p => p c
  end.

Inductive regex : Type :=
| Eps                                          (* the empty pattern *)
| Class (p : char -> bool)                     (* \d, \w, \s or a character *)
| Bracket (items : list classItem)             (* [...] *)
| Seq (a b : regex)
| Or (a b : regex)
| Quant (a : regex) (lo : nat) (hi : option nat) (* a{lo,hi}, greedy *)
| Group (n : nat) (a : regex)                  (* the n-th capturing group *)
| WordBoundary                                 (* \b *)
| Bol                                          (* ^ *)
| Eol.                                         (* $ *)

(** A position in the subject: the code units before it, nearest first,
    and those after it. *)
Record cursor : Type := Cursor { before : str; after : str }.

Definition caps := list (nat * str).

Fixpoint capture (n : nat) (cs : caps) : option str :=
  match cs with
  | [] => None
  | (i, s) :: cs' => if Nat.eqb i n then Some s else capture n cs'
  end.

Definition wordBefore (p : cursor) : bool :=
  match before p with c :: _ => isWord c | [] => false end.
Definition wordAfter (p : cursor) : bool :=
  match after p with c :: _ => isWord c | [] => false end.

(** The text between two positions of the same subject, [p] first. *)
Definition consumed (p q : cursor) : str :=
  firstn (length (after p) - length (after q)) (after p).

Definition advanced (p q : cursor) : bool :=
  Nat.ltb (length (after q)) (length (after p)).

Definition predOpt (hi : option nat) : option nat :=
  match hi with Some n => Some (pred n) | None => None end.

Section Matcher.
Variable R : Type.

Definition cont := cursor -> caps -> option R.

(** The iterations of a quantifier [a{lo,hi}], [step] matching [a]: one
    more iteration is tried first; an iteration that is not required and
    consumes nothing is refused. *)
Fixpoint iterate (step : cursor -> caps -> cont -> option R) (k : cont)
         (fuel lo : nat) (hi : option nat) (p : cursor) (cs : caps)
  : option R :=
  let stop := if Nat.eqb lo 0 then k p cs else None in
  match fuel, hi with
  | O, _ => stop
  | _, Some O => stop
  | S fuel', _ =>
      match step p cs (fun q cs' =>
              if Nat.ltb 0 lo || advanced p q
              then iterate step k fuel' (pred lo) (predOpt hi) q cs'
              else None) with
      | Some x => Some x
      | None => stop
      end
  end.

Fixpoint run (r : regex) (p : cursor) (cs : caps) (k : cont) : option R :=
  match r with
  | Eps => k p cs
  | Class f =>
      match after p with
      | c :: rest => if f c then k (Cursor (c :: before p) rest) cs else None
      | [] => None
      end
  | Bracket items =>
      match after p with
      | c :: rest =>
          if existsb (inItem c) items
          then k (Cursor (c :: before p) rest) cs else None
      | [] => None
      end
  | Seq a b => run a p cs (fun q cs' => run b q cs' k)
  | Or a b =>
      match run a p cs k with
      | Some x => Some x
      | None => run b p cs k
      end
  | Quant a lo hi => iterate (run a) k (lo + length (after p)) lo hi p cs
  | Group n a => run a p cs (fun q cs' => k q ((n, consumed p q) :: cs'))
  | WordBoundary => if xorb (wordBefore p) (wordAfter p) then k p cs else None
  | Bol => match before p with [] => k p cs | _ => None end
  | Eol => match after p with [] => k p cs | _ => None end
  end.
End Matcher.

(** A match: [m[0]] and the captures [m[1]], [m[2]], ... *)
Record rmatch : Type := RMatch { whole : str; groups : caps; rest : cursor }.

Definition group (n : nat) (m : rmatch) : option str := capture n (groups m).

Definition matchAt (r : regex) (p : cursor) : option rmatch :=
  run r p [] (fun q cs => Some (RMatch (consumed p q) cs q)).

(** The leftmost match at or after a position. *)
Fixpoint searchFrom (r : regex) (bef aft : str) : option rmatch :=
  match matchAt r (Cursor bef aft) with
  | Some m => Some m
  | None =>
      match aft with
      | [] => None
      | c :: aft' => searchFrom r (c :: bef) aft'
      end
  end.

(** Successive matches of a pattern with the [g] flag; after an empty match
    the search resumes one code unit further. *)
Fixpoint scanFrom (fuel : nat) (r : regex) (bef aft : str) : list rmatch :=
  match fuel with
  | O => []
  | S fuel' =>
      match searchFrom r bef aft with
      | None => []
      | Some m =>
          m :: match whole m, after (rest m) with
               | _ :: _, _ => scanFrom fuel' r (before (rest m)) (after (rest m))
               | [], c :: aft' => scanFrom fuel' r (c :: before (rest m)) aft'
               | [], [] => []
               end
      end
  end.

(** [[...s.matchAll(re)]] *)
Definition matchAll (r : regex) (s : str) : list rmatch :=
  scanFrom (S (length s)) r [] s.

(** [s.match(re)] with the [g] flag: the matched texts; [null] is []. *)
Definition matchG (r : regex) (s : str) : list str := map whole (matchAll r s).

(** [s.match(re)] without the [g] flag. *)
Definition match1 (r : regex) (s : str) : option rmatch := searchFrom r [] s.

(** [re.test(s)] *)
Definition test (r : regex) (s : str) : bool :=
  match searchFrom r [] s with Some _ => true | None => false end.

(** Pattern notation. *)
Definition dig : regex := Class isDigit.                (* \d *)
Definition wrd : regex := Class isWord.                 (* \w *)
Definition spc : regex := Class isSpace.                (* \s *)
Definition bnd : regex := WordBoundary.                 (* \b *)
Definition times (n : nat) (a : regex) := Quant a n (Some n).     (* a{n} *)
Definition range (lo hi : nat) (a : regex) := Quant a lo (Some hi). (* a{lo,hi} *)
Definition opt (a : regex) := Quant a 0 (Some 1).                 (* a? *)
Definition star (a : regex) := Quant a 0 None.                    (* a* *)
Definition plus (a : regex) := Quant a 1 None.                    (* a+ *)

Fixpoint conc (rs : list regex) : regex :=
  match rs with
  | [] => Eps
  | [r] => r
  | r :: rs' => Seq r (conc rs')
  end.

Fixpoint alts (rs : list regex) : regex :=
  match rs with
  | [] => Class (fun _ => false)
  | [r] => r
  | r :: rs' => Or r (alts rs')
  end.

Definition chr (s : string) : char := hd 0%N (js s).

(** A literal; with the [i] flag an ASCII letter matches in both cases (no
    code unit outside ASCII canonicalizes to an ASCII letter). *)
Definition foldCase (c : char) : char := if isLower c then (c - 32)%N else c.
Definition lit (s : string) : regex :=
  conc (map (fun x => Class (N.eqb x)) (js s)).
Definition liti (s : string) : regex :=
  conc (map (fun x => Class (fun c => N.eqb (foldCase c) (foldCase x))) (js s)).

(** ** [string-similarity], version 4: [compareTwoStrings]

    The Dice coefficient over the bigrams of the two strings with their
    white space removed; [firstBigrams] is the [Map] from a bigram to the
    number of its occurrences in the first string. *)

Definition bigram : Type := char * char.

Definition bigram_eqb (x y : bigram) : bool :=
  ((fst x =? fst y) && (snd x =? snd y))%N.

(** [s.substring(i, i + 2)] for [i] from 0 to [s.length - 2] *)
Definition bigrams (s : str) : list bigram := combine s (tl s).

Fixpoint mapGet (m : list (bigram * nat)) (k : bigram) : option nat :=
  match m with
  | [] => None
  | (k', v) :: m' => if bigram_eqb k' k then Some v else mapGet m' k
  end.

Fixpoint mapSet (m : list (bigram * nat)) (k : bigram) (v : nat)
  : list (bigram * nat) :=
  match m with
  | [] => [(k, v)]
  | (k', v') :: m' =>
      if bigram_eqb k' k then (k, v) :: m' else (k', v') :: mapSet m' k v
  end.

Definition firstBigrams (first : str) : list (bigram * nat) :=
  fold_left
    (fun m bg =>
       let count := match mapGet m bg with Some c => c + 1 | None => 1 end in
       mapSet m bg count)
    (bigrams first) [].

Definition intersectionSize (first second : str) : nat :=
  snd (fold_left
         (fun '(m, n) bg =>
            let count := match mapGet m bg with Some c => c | None => 0 end in
            if Nat.ltb 0 count then (mapSet m bg (count - 1), S n) else (m, n))
         (bigrams second) (firstBigrams first, 0)).

(** The quotient [a / b] of two array lengths or counters. *)
Definition ratio (a b : nat) : Q :=
  (inject_Z (Z.of_nat a) / inject_Z (Z.of_nat b))%Q.

Definition diceCoefficient (first second : str) : Q :=
  let first := removeSpaces first in
  let second := removeSpaces second in
  if str_eqb first second then 1%Q
  else if Nat.ltb (length first) 2 || Nat.ltb (length second) 2 then 0%Q
  else ratio (2 * intersectionSize first second)
             (length first + length second - 2).

(** The instance on which the engine is run: [lowerUnits] is
    [toLowerCase] itself on every string without a cased character
    outside ASCII, U+0130 and U+212A. *)
#[export] Instance unitHost : Host := {|
  toLowerCase := lowerUnits;
  compareTwoStrings := diceCoefficient;
  toLowerCase_words := fun s => eq_refl
|}.

(** ** [textMatching]: normalisation *)

Section TextMatching.
Context {host : Host}.

Definition normalizeText (text : str) : str :=
  trim (collapseSpaces (removePunctuation (toLowerCase text))).

(** [text.replace(/\D/g, '')] *)
Definition extractDigits (text : str) : str := filter isDigit text.

Definition getSimilarity (str1 str2 : str) : Q :=
  let normalized1 := normalizeText str1 in
  let normalized2 := normalizeText str2 in
  compareTwoStrings normalized1 normalized2.

(** The value returned by a matcher; [extracted] is the field
    [extractedName], [extractedPhone], [extractedDate] or
    [extractedAadhaar] of the source. *)
Record MatchResult : Type := Result {
  found : bool;
  confidence : Q;
  extracted : option str
}.

Definition notFound : MatchResult := Result false 0%Q None.

(** [a >= b] and [a > b] on numbers *)
Definition geq (a b : Q) : bool := Qle_bool b a.
Definition gt (a b : Q) : bool := negb (Qle_bool a b).

(** A [for ... of] loop whose body may [return]: the first iteration
    that returns decides. *)
Fixpoint firstReturn {A B : Type} (body : A -> option B) (l : list A)
  : option B :=
  match l with
  | [] => None
  | x :: l' =>
      match body x with
      | Some r => Some r
      | None => firstReturn body l'
      end
  end.

Definition orElse {B : Type} (o : option B) (dflt : B) : B :=
  match o with Some r => r | None => dflt end.

(** *** [findAadhaarInText] *)

(** /\b\d{4}\s?\d{4}\s?\d{4}\b/: twelve digits with optional spaces *)
Definition groupedPattern : regex :=
  conc [bnd; times 4 dig; opt spc; times 4 dig; opt spc; times 4 dig; bnd].

Definition aadhaarPatterns : list regex :=
  [ groupedPattern;
    (* /\b\d{12}\b/g *)
    conc [bnd; times 12 dig; bnd] ].

(** The body of the inner loop for one candidate [match]. *)
Definition aadhaarCandidate (inputDigits m : str) : option MatchResult :=
  let matchDigits := extractDigits m in
  if str_eqb matchDigits inputDigits then Some (Result true 1%Q (Some m))
  else
    let similarity := getSimilarity inputDigits matchDigits in
    if geq similarity (9 # 10) then Some (Result true similarity (Some m))
    else None.

Definition findAadhaarInText (aadhaarInput documentText : str) : MatchResult :=
  let inputDigits := extractDigits aadhaarInput in
  orElse
    (firstReturn
       (fun pattern =>
          firstReturn (aadhaarCandidate inputDigits) (matchG pattern documentText))
       aadhaarPatterns)
    notFound.

(** *** [findNameInText] *)

(** The default value of the parameter [threshold]. *)
Definition defaultThreshold : Q := 7 # 10.

(** The sliding window of words: the state of the loop is
    [(bestMatch, bestMatchText)]. *)
Definition bestWindow (normalizedName : str) (words : list str) (n : nat)
  : Q * str :=
  fold_left
    (fun '(bestMatch, bestMatchText) i =>
       let window := join space (slice i (i + n) words) in
       let similarity := getSimilarity normalizedName window in
       if gt similarity bestMatch then (similarity, window)
       else (bestMatch, bestMatchText))
    (List.seq 0 (length words + 1 - n)) (0%Q, []).

Definition findNameInText (name documentText : str) (threshold : Q)
  : MatchResult :=
  let normalizedName := normalizeText name in
  let normalizedText := normalizeText documentText in
  let nameParts :=
    filter (fun part => Nat.ltb 1 (length part)) (split space normalizedName) in
  if Nat.eqb (length nameParts) 0 then notFound
  else if includes normalizedText normalizedName
  then Result true 1%Q (Some name)
  else
    let foundParts := filter (fun part => includes normalizedText part) nameParts in
    let partialConfidence := ratio (length foundParts) (length nameParts) in
    if geq partialConfidence (6 # 10)
    then Result true partialConfidence (Some (join space foundParts))
    else
      let words := split space normalizedText in
      let '(bestMatch, bestMatchText) :=
        bestWindow normalizedName words (length nameParts) in
      Result (geq bestMatch threshold) bestMatch
             (if geq bestMatch threshold then Some bestMatchText else None).

(** *** [findPhoneInText] *)

Definition spaceOrDash : regex := Bracket [Esc isSpace; One (chr "-")].

(** /\b[6-9]\d{9}\b/: the standard Indian mobile *)
Definition mobilePattern : regex :=
  conc [bnd; Bracket [Span (chr "6") (chr "9")]; times 9 dig; bnd].

Definition phonePatterns : list regex :=
  [ mobilePattern;
    (* /\b\d{10}\b/g *)
    conc [bnd; times 10 dig; bnd];
    (* /\b\d{3}[\s-]?\d{3}[\s-]?\d{4}\b/g *)
    conc [bnd; times 3 dig; opt spaceOrDash; times 3 dig; opt spaceOrDash;
          times 4 dig; bnd];
    (* /\b\+91[\s-]?\d{10}\b/g *)
    conc [bnd; lit "+91"; opt spaceOrDash; times 10 dig; bnd] ].

Definition phoneCandidate (last10Digits m : str) : option MatchResult :=
  let matchDigits := extractDigits m in
  let matchLast10 := slice_last 10 matchDigits in
  if str_eqb matchLast10 last10Digits then Some (Result true 1%Q (Some m))
  else
    let similarity := getSimilarity last10Digits matchLast10 in
    if geq similarity (8 # 10) then Some (Result true similarity (Some m))
    else None.

Definition findPhoneInText (phoneInput documentText : str) : MatchResult :=
  let inputDigits := extractDigits phoneInput in
  let last10Digits := slice_last 10 inputDigits in
  orElse
    (firstReturn
       (fun pattern =>
          firstReturn (phoneCandidate last10Digits) (matchG pattern documentText))
       phonePatterns)
    notFound.

(** *** [findDateInText] *)

(** [[\/\-\.]] *)
Definition dateSeparator : regex :=
  Bracket [One (chr "/"); One (chr "-"); One (chr ".")].

(** [[\s:]] *)
Definition spaceOrColon : regex := Bracket [Esc isSpace; One (chr ":")].

(** [(jan|feb|mar|apr|may|jun|jul|aug|sep|oct|nov|dec)], flag [i] *)
Definition monthName : regex :=
  alts (map liti ["jan"; "feb"; "mar"; "apr"; "may"; "jun";
                  "jul"; "aug"; "sep"; "oct"; "nov"; "dec"]%string).

(** [(?:dob|date\s*of\s*birth|birth\s*date)], flag [i] *)
Definition birthLabel : regex :=
  alts [ liti "dob";
         conc [liti "date"; star spc; liti "of"; star spc; liti "birth"];
         conc [liti "birth"; star spc; liti "date"] ].

(** [\d{1,2}[\/\-\.]\d{1,2}[\/\-\.]\d{2,4}] *)
Definition numericDate : regex :=
  conc [range 1 2 dig; dateSeparator; range 1 2 dig; dateSeparator;
        range 2 4 dig].

Definition datePatterns : list regex :=
  [ (* /\b\d{1,2}[\/\-\.]\d{1,2}[\/\-\.]\d{2,4}\b/g *)
    conc [bnd; numericDate; bnd];
    (* /\b\d{1,2}\s+(jan|...|dec)\w*\s+\d{2,4}\b/gi *)
    conc [bnd; range 1 2 dig; plus spc; Group 1 monthName; star wrd;
          plus spc; range 2 4 dig; bnd];
    (* /\b(jan|...|dec)\w*\s+\d{1,2},?\s+\d{2,4}\b/gi *)
    conc [bnd; Group 1 monthName; star wrd; plus spc; range 1 2 dig;
          opt (lit ","); plus spc; range 2 4 dig; bnd];
    (* /(?:dob|date\s*of\s*birth|birth\s*date)[\s:]*(<numeric date>)/gi *)
    conc [birthLabel; star spaceOrColon; Group 1 numericDate];
    (* /year\s*of\s*birth[\s:]*(\d{4})/gi *)
    conc [liti "year"; star spc; liti "of"; star spc; liti "birth";
          star spaceOrColon; Group 1 (times 4 dig)] ].

(** [match[1] || match[0]]: an absent or empty first group is falsy. *)
Definition groupOrWhole (mt : rmatch) : str :=
  match group 1 mt with
  | Some (c :: s) => c :: s
  | _ => whole mt
  end.

Definition dateCandidate (inputDigits : str) (mt : rmatch)
  : option MatchResult :=
  let dateText := groupOrWhole mt in
  let matchDigits := extractDigits dateText in
  if str_eqb matchDigits inputDigits
  then Some (Result true 1%Q (Some dateText))
  else if Nat.eqb (length matchDigits) 4 && includes inputDigits matchDigits
  then Some (Result true (8 # 10) (Some dateText))
  else
    let similarity := getSimilarity inputDigits matchDigits in
    if geq similarity (6 # 10)
    then Some (Result true similarity (Some dateText))
    else None.

Definition findDateInText (dateInput documentText : str) : MatchResult :=
  let inputDigits := extractDigits dateInput in
  orElse
    (firstReturn
       (fun pattern =>
          firstReturn (dateCandidate inputDigits) (matchAll pattern documentText))
       datePatterns)
    notFound.

(** *** [isAadhaarDocument] *)

Record Classification : Type := Classified {
  isAadhaar : bool;
  classConfidence : Q
}.

(** 'भारत सरकार' and 'आधार', in code units *)
Definition bharatSarkar : str :=
  [2349; 2366; 2352; 2340; 32; 2360; 2352; 2325; 2366; 2352]%N.
Definition aadhaarHindi : str := [2310; 2343; 2366; 2352]%N.

Definition aadhaarKeywords : list str :=
  [ js "aadhaar"; js "aadhar"; js "uidai"; js "unique identification";
    js "government of india"; bharatSarkar; aadhaarHindi ].

Definition minQ (a b : Q) : Q := if Qle_bool a b then a else b.

Definition keywordMatches (normalizedText : str) : nat :=
  fold_left
    (fun count keyword =>
       if includes normalizedText (normalizeText keyword) then S count
       else count)
    aadhaarKeywords 0.

Definition isAadhaarDocument (documentText : str) : Classification :=
  let normalizedText := normalizeText documentText in
  let hasAadhaarNumber :=
    test groupedPattern documentText in
  let confidence :=
    (ratio (keywordMatches normalizedText) (length aadhaarKeywords)
     + (if hasAadhaarNumber then 3 # 10 else 0))%Q in
  Classified (gt confidence (3 # 10)) (minQ confidence 1).

End TextMatching.

(** ** Exceptions

    A regular-expression literal whose bracketed class holds a range out of
    order ([lo-hi] with [lo > hi]) is a [SyntaxError] of ECMAScript, and an
    early one: the module that holds the literal is rejected before any
    of its code runs.  [literal] tells a literal that the language accepts
    from one that it rejects; a function that holds a rejected literal has
    the outcome [Throw SyntaxError] on every input, which stands for: the
    function returns nothing, to no caller. *)

Inductive error : Type := SyntaxError | RecognitionFailed.

Inductive outcome (A : Type) : Type :=
| Ok (a : A)
| Throw (e : error).
Arguments Ok {A} a.
Arguments Throw {A} e.

Definition bind {A B : Type} (c : outcome A) (k : A -> outcome B) : outcome B :=
  match c with
  | Ok a => k a
  | Throw e => Throw e
  end.

Notation "x <- c ;; k" := (bind c (fun x => k))
  (at level 61, c at next level, right associativity).

Definition itemOk (i : classItem) : bool :=
  match i with
  | Span lo hi => (lo <=? hi)%N
  | _ => true
  end.

Fixpoint wellFormed (r : regex) : bool :=
  match r with
  | Bracket items => forallb itemOk items
  | Seq a b | Or a b => wellFormed a && wellFormed b
  | Quant a lo hi =>
      wellFormed a && match hi with Some h => Nat.leb lo h | None => true end
  | Group _ a => wellFormed a
  | _ => true
  end.

Definition literal (r : regex) : outcome regex :=
  if wellFormed r then Ok r else Throw SyntaxError.

(** [parseInt(s)] on a string of decimal digits; [NaN] when [s] does not
    start with a digit.  The engine passes it nothing else. *)
Fixpoint leadingDigits (s : str) : str :=
  match s with
  | c :: s' => if isDigit c then c :: leadingDigits s' else []
  | [] => []
  end.

Definition parseInt (s : str) : option N :=
  match leadingDigits s with
  | [] => None
  | ds => Some (fold_left (fun n c => (10 * n + (c - 48))%N) ds 0%N)
  end.

(** ** [findDateInText], by components

    [findDateInText] above is that of [src/unnamed/part_000] and compares
    the digits of the dates.  The copy of [textMatching] that follows
    [DocumentUpload.tsx] compares dates by components.  Its literals at
    [parseInput] (the day-month-year form), [parseMatch] (both numeric
    forms and the labelled form) and [patterns] (the labelled form) write
    the separator class as [[\/-\.]]; [separator] stands for that class, so
    that the function can also be run with the class [[\/\-\.]] of its first
    two scan patterns. *)

Module Components.
Section Components.
Context {host : Host}.
Variable separator : regex.

(** [{ d, m, y }] *)
Record DateParts : Type := Parts { d : option N; m : option N; y : option N }.

Definition nan : option N := None.

(** [match[n]] of a group that took part in the match *)
Definition grp (n : nat) (mt : rmatch) : str :=
  match group n mt with Some s => s | None => [] end.

(** [parseInt(t.length === 2 ? `20${t}` : t)] *)
Definition parseYear (t : str) : option N :=
  parseInt (if Nat.eqb (length t) 2 then js "20" ++ t else t).

(** [\d{1,2}] [sep] [\d{1,2}] [sep] [\d{2,4}] with groups [g], [g+1], [g+2] *)
Definition dmyGroups (g : nat) : regex :=
  conc [Group g (range 1 2 dig); separator; Group (g + 1) (range 1 2 dig);
        separator; Group (g + 2) (range 2 4 dig)].

Definition parseInput (input : str) : outcome DateParts :=
  let digits := extractDigits input in
  if test (conc [Bol; times 8 dig; Eol]) digits            (* /^\d{8}$/ *)
     && test (conc [Bol; times 4 dig]) digits              (* /^\d{4}/ *)
  then Ok (Parts (parseInt (slice 6 8 digits)) (parseInt (slice 4 6 digits))
                 (parseInt (slice 0 4 digits)))
  else
    (* /(\d{4})[\/-](\d{1,2})[\/-](\d{1,2})/ *)
    let slashOrDash := Bracket [One (chr "/"); One (chr "-")] in
    match match1 (conc [Group 1 (times 4 dig); slashOrDash;
                        Group 2 (range 1 2 dig); slashOrDash;
                        Group 3 (range 1 2 dig)]) input with
    | Some ymd =>
        Ok (Parts (parseInt (grp 3 ymd)) (parseInt (grp 2 ymd)) (parseInt (grp 1 ymd)))
    | None =>
        (* /(\d{1,2})[\/-\.](\d{1,2})[\/-\.](\d{2,4})/ *)
        re <- literal (dmyGroups 1) ;;
        match match1 re input with
        | Some dmy =>
            Ok (Parts (parseInt (grp 1 dmy)) (parseInt (grp 2 dmy))
                      (parseYear (grp 3 dmy)))
        | None =>
            (* /\b(19|20)\d{2}\b/ *)
            match match1 (conc [bnd; Group 1 (Or (lit "19") (lit "20"));
                                times 2 dig; bnd]) input with
            | Some yOnly => Ok (Parts nan nan (parseInt (whole yOnly)))
            | None => Ok (Parts nan nan nan)
            end
        end
    end.

Definition monthMap : list (str * N) :=
  [ (js "jan", 1); (js "feb", 2); (js "mar", 3); (js "apr", 4);
    (js "may", 5); (js "jun", 6); (js "jul", 7); (js "aug", 8);
    (js "sep", 9); (js "sept", 9); (js "oct", 10); (js "nov", 11);
    (js "dec", 12) ]%N.

(** [monthMap[key]]; every key looked up is one of the table. *)
Fixpoint lookupMonth (table : list (str * N)) (key : str) : option N :=
  match table with
  | [] => None
  | (k, v) :: table' => if str_eqb k key then Some v else lookupMonth table' key
  end.

(** [(jan|feb|mar|apr|may|jun|jul|aug|sep|sept|oct|nov|dec)], flag [i] *)
Definition monthName : regex :=
  alts (map liti ["jan"; "feb"; "mar"; "apr"; "may"; "jun"; "jul"; "aug";
                  "sep"; "sept"; "oct"; "nov"; "dec"]%string).

Definition parseMatch (text : str) : outcome DateParts :=
  let lower := toLowerCase text in
  (* /\b(\d{1,2})\s+(jan|...|dec)\w*\s+(\d{2,4})\b/i *)
  match match1 (conc [bnd; Group 1 (range 1 2 dig); plus spc; Group 2 monthName;
                      star wrd; plus spc; Group 3 (range 2 4 dig); bnd]) lower with
  | Some mt =>
      Ok (Parts (parseInt (grp 1 mt)) (lookupMonth monthMap (slice 0 3 (grp 2 mt)))
                (parseYear (grp 3 mt)))
  | None =>
  (* /\b(jan|...|dec)\w*\s+(\d{1,2}),?\s+(\d{2,4})\b/i *)
  match match1 (conc [bnd; Group 1 monthName; star wrd; plus spc;
                      Group 2 (range 1 2 dig); opt (lit ","); plus spc;
                      Group 3 (range 2 4 dig); bnd]) lower with
  | Some mt =>
      Ok (Parts (parseInt (grp 2 mt)) (lookupMonth monthMap (slice 0 3 (grp 1 mt)))
                (parseYear (grp 3 mt)))
  | None =>
  (* /\b(\d{1,2})[\/-\.](\d{1,2})[\/-\.](\d{2,4})\b/ *)
  re <- literal (conc [bnd; dmyGroups 1; bnd]) ;;
  match match1 re lower with
  | Some mt =>
      Ok (Parts (parseInt (grp 1 mt)) (parseInt (grp 2 mt)) (parseYear (grp 3 mt)))
  | None =>
  (* /\b(\d{4})[\/-\.](\d{1,2})[\/-\.](\d{1,2})\b/ *)
  re <- literal (conc [bnd; Group 1 (times 4 dig); separator;
                       Group 2 (range 1 2 dig); separator;
                       Group 3 (range 1 2 dig); bnd]) ;;
  match match1 re lower with
  | Some mt =>
      Ok (Parts (parseInt (grp 3 mt)) (parseInt (grp 2 mt)) (parseInt (grp 1 mt)))
  | None =>
  (* /(?:dob|date\s*of\s*birth|birth\s*date)[\s:]*((\d{1,2})[\/-\.](\d{1,2})[\/-\.](\d{2,4}))/i *)
  re <- literal (conc [birthLabel; star spaceOrColon; Group 1 (dmyGroups 2)]) ;;
  match match1 re lower with
  | Some mt =>
      Ok (Parts (parseInt (grp 2 mt)) (parseInt (grp 3 mt)) (parseYear (grp 4 mt)))
  | None =>
  (* /year\s*of\s*birth[\s:]*(\d{4})/i *)
  match match1 (conc [liti "year"; star spc; liti "of"; star spc; liti "birth";
                      star spaceOrColon; Group 1 (times 4 dig)]) lower with
  | Some mt => Ok (Parts nan nan (parseInt (grp 1 mt)))
  | None =>
      let digits := extractDigits lower in
      if Nat.eqb (length digits) 8 then
        let asYmd := Parts (parseInt (slice 6 8 digits)) (parseInt (slice 4 6 digits))
                           (parseInt (slice 0 4 digits)) in
        let asDmy := Parts (parseInt (slice 0 2 digits)) (parseInt (slice 2 4 digits))
                           (parseInt (slice 4 8 digits)) in
        Ok (match y asYmd with None => asDmy | Some _ => asYmd end)
      else if Nat.eqb (length digits) 4 then Ok (Parts nan nan (parseInt digits))
      else Ok (Parts nan nan nan)
  end end end end end end.

Definition isNaN (a : option N) : bool :=
  match a with None => true | Some _ => false end.

(** [a === b] on numbers: [NaN] equals nothing. *)
Definition numEq (a b : option N) : bool :=
  match a, b with
  | Some x, Some z => (x =? z)%N
  | _, _ => false
  end.

Definition patterns : outcome (list regex) :=
  (* /(?:dob|date\s*of\s*birth|birth\s*date)[\s:]*(\d{1,2}[\/-\.]\d{1,2}[\/-\.]\d{2,4})/gi *)
  labelled <- literal (conc [birthLabel; star spaceOrColon;
                             Group 1 (conc [range 1 2 dig; separator;
                                            range 1 2 dig; separator;
                                            range 2 4 dig])]) ;;
  Ok [ (* /\b\d{1,2}[\/\-\.]\d{1,2}[\/\-\.]\d{2,4}\b/g *)
       conc [bnd; numericDate; bnd];
       (* /\b\d{4}[\/\-\.]\d{1,2}[\/\-\.]\d{1,2}\b/g *)
       conc [bnd; times 4 dig; dateSeparator; range 1 2 dig; dateSeparator;
             range 1 2 dig; bnd];
       (* /\b\d{1,2}\s+(jan|...|dec)\w*\s+\d{2,4}\b/gi *)
       conc [bnd; range 1 2 dig; plus spc; Group 1 monthName; star wrd;
             plus spc; range 2 4 dig; bnd];
       (* /\b(jan|...|dec)\w*\s+\d{1,2},?\s+\d{2,4}\b/gi *)
       conc [bnd; Group 1 monthName; star wrd; plus spc; range 1 2 dig;
             opt (lit ","); plus spc; range 2 4 dig; bnd];
       labelled;
       (* /year\s*of\s*birth[\s:]*(\d{4})/gi *)
       conc [liti "year"; star spc; liti "of"; star spc; liti "birth";
             star spaceOrColon; Group 1 (times 4 dig)] ].

(** A loop whose body may [return] or throw. *)
Fixpoint firstReturnM {A B : Type} (body : A -> outcome (option B))
         (l : list A) : outcome (option B) :=
  match l with
  | [] => Ok None
  | x :: l' =>
      r <- body x ;;
      match r with
      | Some v => Ok (Some v)
      | None => firstReturnM body l'
      end
  end.

(** [score += c] under the three conditions of one component *)
Definition credit (a b : option N) (c : Q) : Q :=
  if negb (isNaN a) && negb (isNaN b) && numEq a b then c else 0%Q.

Definition dateCandidate (dateInput : str) (input : DateParts) (mt : rmatch)
  : outcome (option MatchResult) :=
  let dateText := groupOrWhole mt in
  pm <- parseMatch dateText ;;
  if negb (isNaN (y input)) && isNaN (d pm) && isNaN (m pm)
     && numEq (y pm) (y input)
  then Ok (Some (Result true (85 # 100) (Some dateText)))
  else
    let score :=
      (0 + credit (d input) (d pm) (34 # 100)
         + credit (m input) (m pm) (33 # 100)
         + credit (y input) (y pm) (33 # 100))%Q in
    if geq score (66 # 100)
    then Ok (Some (Result true (minQ 1 (score + (2 # 10))) (Some dateText)))
    else if geq score (34 # 100)
    then Ok (Some (Result true score (Some dateText)))
    else
      let similarity :=
        getSimilarity (extractDigits dateInput) (extractDigits dateText) in
      if geq similarity (6 # 10)
      then Ok (Some (Result true similarity (Some dateText)))
      else Ok None.

Definition findDateInTextWith (dateInput documentText : str)
  : outcome MatchResult :=
  input <- parseInput dateInput ;;
  patterns <- patterns ;;
  r <- firstReturnM
         (fun pattern =>
            firstReturnM (dateCandidate dateInput input)
                         (matchAll pattern documentText))
         patterns ;;
  Ok (orElse r notFound).

End Components.

(** [[\/-\.]] as the source writes it: the range from [/] to [.], which
    is out of order.  The module of this [findDateInText] is rejected as a
    whole, so that nothing is derived below about a component that would
    import it. *)
Definition writtenSeparator : regex := Bracket [Span (chr "/") (chr ".")].

Definition findDateInText {host : Host} (dateInput documentText : str)
  : outcome MatchResult :=
  findDateInTextWith writtenSeparator dateInput documentText.

End Components.

(** ** [DocumentUpload]: [validateDocumentData]

    The component state [documentValidation] and what the function does to
    the outside (the toasts it shows, the functions of [textMatching] and of
    Tesseract it calls) are threaded through a state monad with exceptions. *)

Inductive Status : Type := pending | validating | valid | invalid | warning.
Inductive Severity : Type := success | warn | err.   (* 'success' | 'warning' | 'error' *)

(** The texts shown to the user; [FoundWith what c] is
    [`${what} with ${Math.round(c * 100)}% confidence`]. *)
Inductive message : Type :=
| Text (s : string)
| FoundWith (what : string) (c : Q).

Record FieldValidation : Type := Field {
  fieldFound : bool;
  fieldConfidence : Q;
  fieldMessage : message;
  fieldStatus : Severity
}.

Record ExtractedData : Type := Extracted {
  extractedName : option str;
  extractedIdNumber : option str;
  extractedDateOfBirth : option str;
  extractedPhone : option str
}.

(** [validationResults] is an object: its keys in insertion order. *)
Record ValidationResult : Type := Validation {
  status : Status;
  extractedData : option ExtractedData;
  validationResults : option (list (str * FieldValidation));
  ocrText : option str;
  progress : option Z
}.

(** [validationResults[key]] *)
Fixpoint lookup (key : str) (o : list (str * FieldValidation))
  : option FieldValidation :=
  match o with
  | [] => None
  | (k, v) :: o' => if str_eqb k key then Some v else lookup key o'
  end.

Definition Severity_eqb (a b : Severity) : bool :=
  match a, b with
  | success, success | warn, warn | err, err => true
  | _, _ => false
  end.

Inductive callee : Type :=
| Recognize | IsAadhaarDocument
| FindNameInText | FindAadhaarInText | FindDateInText | FindPhoneInText.

Inductive event : Type :=
| Called (f : callee)
| Toast (title : string).

Record world : Type := World {
  documentValidation : ValidationResult;
  trace : list event                      (* the latest event first *)
}.

Definition M (A : Type) : Type := world -> outcome A * world.

Definition ret {A : Type} (a : A) : M A := fun w => (Ok a, w).

Definition mbind {A B : Type} (c : M A) (k : A -> M B) : M B :=
  fun w =>
    match c w with
    | (Ok a, w') => k a w'
    | (Throw e, w') => (Throw e, w')
    end.

Notation "x <~ c ;; k" := (mbind c (fun x => k))
  (at level 61, c at next level, right associativity).
Notation "c ;;; k" := (mbind c (fun _ => k))
  (at level 61, right associativity).

(** [try { body } catch (err) { handler }] *)
Definition tryCatch {A : Type} (body : M A) (handler : M A) : M A :=
  fun w =>
    match body w with
    | (Ok a, w') => (Ok a, w')
    | (Throw _, w') => handler w'
    end.

(** [setDocumentValidation(v)] and [setDocumentValidation(prev => f(prev))] *)
Definition setDocumentValidation (v : ValidationResult) : M unit :=
  fun w => (Ok tt, World v (trace w)).
Definition updateDocumentValidation (f : ValidationResult -> ValidationResult)
  : M unit :=
  fun w => (Ok tt, World (f (documentValidation w)) (trace w)).

Definition toast (title : string) : M unit :=
  fun w => (Ok tt, World (documentValidation w) (Toast title :: trace w)).

(** A call of an imported function: it is recorded, then its result is
    returned or its exception propagates. *)
Definition call {A : Type} (f : callee) (result : outcome A) : M A :=
  fun w => (result, World (documentValidation w) (Called f :: trace w)).

Fixpoint forEach {A : Type} (l : list A) (body : A -> M unit) : M unit :=
  match l with
  | [] => ret tt
  | x :: l' => body x ;;; forEach l' body
  end.

(** The form data and the uploaded file.  Of the file the function sees the
    MIME type and what Tesseract makes of it: the progress it reports (each
    already [Math.round(m.progress * 100)]) and then the text, if any, or a
    rejection.  Tesseract is called anew in every run: a [File] is the
    file as one run reads it. *)
Record FormData : Type := Form {
  name : str;
  dateOfBirth : str;
  idNumber : str;
  emergencyContact : str
}.

Record File : Type := Upload {
  fileType : str;
  recognitionProgress : list Z;
  recognized : outcome (option str)       (* [result?.data?.text] *)
}.

Definition onlyStatus (s : Status) : ValidationResult :=
  Validation s None None None None.

Definition failure (key : string) (c : Q) (text : string) (raw : option str)
  : ValidationResult :=
  Validation invalid None (Some [(js key, Field false c (Text text) err)]) raw None.

Definition withProgress (p : Z) (prev : ValidationResult) : ValidationResult :=
  Validation (status prev) (extractedData prev) (validationResults prev)
             (ocrText prev) (Some p).

(** [await Tesseract.recognize(file, 'eng', { logger })]: the logger stores
    each progress report, then the promise settles. *)
Definition recognize (file : File) : M (option str) :=
  call Recognize (Ok tt) ;;;
  forEach (recognitionProgress file)
          (fun p => updateDocumentValidation (withProgress p)) ;;;
  fun w => (recognized file, w).

Section DocumentUpload.
Context {host : Host}.

(** [findDateInText] as imported: by digits, which always returns, or any
    date matcher that may throw. *)
Variable findDate : str -> str -> outcome MatchResult.

Definition fieldValidations
           (nameResult aadhaarResult dobResult phoneResult : MatchResult)
  : list (str * FieldValidation) :=
  [ (js "name",
     Field (found nameResult) (confidence nameResult)
           (if found nameResult
            then FoundWith "Name found" (confidence nameResult)
            else Text "Name not found in document. Please ensure the document is clear and matches your input.")
           (if found nameResult
            then if geq (confidence nameResult) (8 # 10) then success else warn
            else err));
    (js "idNumber",
     Field (found aadhaarResult) (confidence aadhaarResult)
           (if found aadhaarResult
            then FoundWith "Aadhaar number verified" (confidence aadhaarResult)
            else Text "Aadhaar number not found. Please check if the document is clear and complete.")
           (if found aadhaarResult
            then if geq (confidence aadhaarResult) (9 # 10) then success else warn
            else err));
    (js "dateOfBirth",
     Field (found dobResult) (confidence dobResult)
           (if found dobResult
            then FoundWith "Date of birth found" (confidence dobResult)
            else Text "Date of birth not clearly visible. This might be due to document quality or format.")
           (if found dobResult
            then if geq (confidence dobResult) (7 # 10) then success else warn
            else warn));
    (js "phone",
     Field (found phoneResult) (confidence phoneResult)
           (if found phoneResult
            then FoundWith "Phone number found" (confidence phoneResult)
            else Text "Phone number not visible in document. This is optional and doesn't affect verification.")
           (if found phoneResult then success else warn)) ].

Definition criticalFields : list str := [js "name"; js "idNumber"].

Definition overallStatus (validationResults : list (str * FieldValidation))
  : Status :=
  let criticalErrors :=
    existsb (fun field =>
               match lookup field validationResults with
               | Some v => Severity_eqb (fieldStatus v) err
               | None => false
               end) criticalFields in
  let hasWarnings :=
    existsb (fun result => Severity_eqb (fieldStatus result) warn)
            (map snd validationResults) in
  if criticalErrors then invalid
  else if hasWarnings then warning
  else valid.

Definition validateDocumentData (data : FormData) (file : File) : M unit :=
  setDocumentValidation (Validation validating None None None (Some 0%Z)) ;;;
  tryCatch
    (if negb (startsWith (fileType file) (js "image/")) then
       setDocumentValidation
         (failure "fileType" 0 "Document must be an image (JPG, PNG, etc.)" None) ;;;
       toast "Invalid File Type"
     else
       result <~ recognize file ;;
       let rawText := orElse result [] in
       updateDocumentValidation (withProgress 100) ;;;
       aadhaarCheck <~ call IsAadhaarDocument (Ok (isAadhaarDocument rawText)) ;;
       if negb (isAadhaar aadhaarCheck) then
         setDocumentValidation
           (failure "documentType" (classConfidence aadhaarCheck)
                    "Document does not appear to be an Aadhaar card"
                    (Some rawText)) ;;;
         toast "Invalid Document"
       else
         nameResult <~ call FindNameInText
           (Ok (findNameInText (name data) rawText defaultThreshold)) ;;
         aadhaarResult <~ call FindAadhaarInText
           (Ok (findAadhaarInText (idNumber data) rawText)) ;;
         dobResult <~ call FindDateInText (findDate (dateOfBirth data) rawText) ;;
         phoneResult <~ call FindPhoneInText
           (Ok (findPhoneInText (emergencyContact data) rawText)) ;;
         let validationResults :=
           fieldValidations nameResult aadhaarResult dobResult phoneResult in
         let overall := overallStatus validationResults in
         setDocumentValidation
           (Validation overall
              (Some (Extracted (extracted nameResult) (extracted aadhaarResult)
                               (extracted dobResult) (extracted phoneResult)))
              (Some validationResults) (Some rawText) None) ;;;
         toast (match overall with
                | valid => "Document Verified Successfully"
                | warning => "Document Verified with Warnings"
                | _ => "Document Validation Failed"
                end))
    (setDocumentValidation
       (failure "ocr" 0 "Unable to process document. Please try a clearer image." None) ;;;
     toast "Processing Error").

End DocumentUpload.

(** The component before any upload. *)
Definition initially : world := World (onlyStatus pending) [].

(** [retryValidation] *)
Definition retryValidation {host : Host}
           (findDate : str -> str -> outcome MatchResult)
           (data : FormData) (idDocument : option File) : M unit :=
  match idDocument with
  | Some file => validateDocumentData findDate data file
  | None => ret tt
  end.

Definition Status_eqb (a b : Status) : bool :=
  match a, b with
  | pending, pending | validating, validating | valid, valid
  | invalid, invalid | warning, warning => true
  | _, _ => false
  end.

Definition truthy {A : Type} (o : option A) : bool :=
  match o with Some _ => true | None => false end.

(** [canProceed], which enables the button Continue: [data.photo] and
    [data.idDocument] are files or [null]. *)
Definition canProceed (photo idDocument : option File)
           (documentValidation : ValidationResult) : bool :=
  truthy photo && truthy idDocument
  && (Status_eqb (status documentValidation) valid
      || Status_eqb (status documentValidation) warning).

(** * The other components

    ** [String.prototype.replace] with a pattern without the [g] flag

    The first match is replaced by the template, where [$n] stands for the
    [n]-th group; the templates of the source name existing groups only. *)

Inductive piece : Type :=
| Lit (s : str)                                (* text *)
| Ref (n : nat).                               (* $n *)

Definition expand (template : list piece) (m : rmatch) : str :=
  flat_map (fun p =>
              match p with
              | Lit s => s
              | Ref n => match group n m with Some s => s | None => [] end
              end) template.

Definition replaceFirst (r : regex) (template : list piece) (s : str) : str :=
  match match1 r s with
  | None => s
  | Some m =>
      let position := length s - length (after (rest m)) - length (whole m) in
      firstn position s ++ expand template m ++ after (rest m)
  end.

(** /(\d{4})(\d{4})(\d{4})/ and '$1 $2 $3' *)
Definition threeGroups : regex :=
  conc [Group 1 (times 4 dig); Group 2 (times 4 dig); Group 3 (times 4 dig)].
Definition spacedGroups : list piece :=
  [Ref 1; Lit [space]; Ref 2; Lit [space]; Ref 3].

(** What a handler does to the outside, in order. *)
Inductive action (Data : Type) : Type :=
| OnUpdate (data : Data)
| OnNext
| ShowToast (title : string).
Arguments OnUpdate {Data} data.
Arguments OnNext {Data}.
Arguments ShowToast {Data} title.

(** ** [PersonalInfoForm] *)

Module PersonalInfoForm.

Record TripDetails : Type := Trip {
  startDate : str;
  endDate : str;
  location : str
}.

(** The state [formData]. *)
Record Fields : Type := FieldsOf {
  name : str;
  dateOfBirth : str;
  idNumber : str;
  emergencyContact : str;
  tripDetails : TripDetails
}.

(** The state [errors], an object from keys to messages, in insertion
    order. *)
Definition Errors : Type := list (str * str).

(** [errors[key]] *)
Fixpoint get (key : str) (o : Errors) : option str :=
  match o with
  | [] => None
  | (k, v) :: o' => if str_eqb k key then Some v else get key o'
  end.

(** [{ ...o, [key]: v }] *)
Fixpoint set (key v : str) (o : Errors) : Errors :=
  match o with
  | [] => [(key, v)]
  | (k, x) :: o' => if str_eqb k key then (k, v) :: o' else (k, x) :: set key v o'
  end.

(** A string as a condition: the empty string is falsy. *)
Definition nonEmpty (s : str) : bool :=
  match s with [] => false | _ :: _ => true end.

(** /^\d{12}$/ and /^[6-9]\d{9}$/ *)
Definition twelveDigits : regex := conc [Bol; times 12 dig; Eol].
Definition mobileNumber : regex :=
  conc [Bol; Bracket [Span (chr "6") (chr "9")]; times 9 dig; Eol].

Section Dates.

(** [Date] belongs to the host: [dateTime s] is the time value of
    [new Date(s)], or nothing for an invalid date, whose time value and year
    are [NaN]; [fullYear t] is [getFullYear()] of the date of time value
    [t]; [today] is the time value of [new Date()]. *)
Variable dateTime : str -> option Z.
Variable fullYear : Z -> Z.
Variable today : Z.

(** The value of one key of [newErrors], if it is set. *)
Definition entry (key message : string) : Errors := [(js key, js message)].

Definition validateForm (formData : Fields) : Errors :=
  (if negb (nonEmpty (trim (name formData)))
   then entry "name" "Full name is required"
   else if Nat.ltb (length (trim (name formData))) 2
   then entry "name" "Name must be at least 2 characters"
   else [])
  ++
  (if negb (nonEmpty (dateOfBirth formData))
   then entry "dateOfBirth" "Date of birth is required"
   else
     match dateTime (dateOfBirth formData) with
     | Some dob =>
         let age := (fullYear today - fullYear dob)%Z in
         if (age <? 18)%Z || (100 <? age)%Z
         then entry "dateOfBirth" "Age must be between 18 and 100 years"
         else []
     | None => []                               (* [NaN < 18 || NaN > 100] *)
     end)
  ++
  (if negb (nonEmpty (trim (idNumber formData)))
   then entry "idNumber" "Aadhaar number is required"
   else if negb (test twelveDigits (removeSpaces (idNumber formData)))
   then entry "idNumber" "Aadhaar number must be 12 digits"
   else [])
  ++
  (if negb (nonEmpty (trim (emergencyContact formData)))
   then entry "emergencyContact" "Emergency contact is required"
   else if negb (test mobileNumber (removeSpaces (emergencyContact formData)))
   then entry "emergencyContact" "Please enter a valid 10-digit mobile number"
   else [])
  ++
  (if negb (nonEmpty (trim (location (tripDetails formData))))
   then entry "location" "Travel destination is required"
   else [])
  ++
  (if negb (nonEmpty (startDate (tripDetails formData)))
   then entry "startDate" "Travel start date is required"
   else [])
  ++
  (if negb (nonEmpty (endDate (tripDetails formData)))
   then entry "endDate" "Travel end date is required"
   else
     match dateTime (endDate (tripDetails formData)),
           dateTime (startDate (tripDetails formData)) with
     | Some e, Some s =>
         if (e <=? s)%Z then entry "endDate" "End date must be after start date"
         else []
     | _, _ => []                               (* a comparison with [NaN] *)
     end).

(** [Object.keys(newErrors).length === 0], the value returned *)
Definition isValid (newErrors : Errors) : bool := Nat.eqb (length newErrors) 0.

(** [handleSubmit]: the errors it stores and what it does. *)
Definition handleSubmit (formData : Fields) : Errors * list (action Fields) :=
  let newErrors := validateForm formData in
  if isValid newErrors then
    let formattedData :=
      FieldsOf (name formData) (dateOfBirth formData)
               (removeSpaces (idNumber formData))
               (removeSpaces (emergencyContact formData))
               (tripDetails formData) in
    (newErrors, [OnUpdate formattedData; OnNext; ShowToast "Information Saved"])
  else (newErrors, [ShowToast "Validation Error"]).

End Dates.

(** The fields that the inputs of the form pass to [handleChange]. *)
Inductive FieldName : Type :=
| Name | DateOfBirth | IdNumber | EmergencyContact
| TripLocation | TripStartDate | TripEndDate.

(** The string passed for each. *)
Definition fieldKey (field : FieldName) : str :=
  match field with
  | Name => js "name"
  | DateOfBirth => js "dateOfBirth"
  | IdNumber => js "idNumber"
  | EmergencyContact => js "emergencyContact"
  | TripLocation => js "tripDetails.location"
  | TripStartDate => js "tripDetails.startDate"
  | TripEndDate => js "tripDetails.endDate"
  end.

(** [{ ...prev, [field]: value }], and for a dotted field
    [{ ...prev, [parent]: { ...prev[parent], [child]: value } }] *)
Definition withField (field : FieldName) (value : str) (prev : Fields) : Fields :=
  let trip := tripDetails prev in
  match field with
  | Name =>
      FieldsOf value (dateOfBirth prev) (idNumber prev) (emergencyContact prev) trip
  | DateOfBirth =>
      FieldsOf (name prev) value (idNumber prev) (emergencyContact prev) trip
  | IdNumber =>
      FieldsOf (name prev) (dateOfBirth prev) value (emergencyContact prev) trip
  | EmergencyContact =>
      FieldsOf (name prev) (dateOfBirth prev) (idNumber prev) value trip
  | TripLocation =>
      FieldsOf (name prev) (dateOfBirth prev) (idNumber prev) (emergencyContact prev)
               (Trip (startDate trip) (endDate trip) value)
  | TripStartDate =>
      FieldsOf (name prev) (dateOfBirth prev) (idNumber prev) (emergencyContact prev)
               (Trip value (endDate trip) (location trip))
  | TripEndDate =>
      FieldsOf (name prev) (dateOfBirth prev) (idNumber prev) (emergencyContact prev)
               (Trip (startDate trip) value (location trip))
  end.

(** [handleChange] on the two states. *)
Definition handleChange (field : FieldName) (value : str)
           (state : Fields * Errors) : Fields * Errors :=
  let '(formData, errors) := state in
  (withField field value formData,
   match get (fieldKey field) errors with
   | Some (_ :: _) => set (fieldKey field) [] errors
   | _ => errors
   end).

Definition formatAadhaarNumber (value : str) : str :=
  let digits := extractDigits value in
  trim (replaceFirst threeGroups spacedGroups digits).

Definition formatPhoneNumber (value : str) : str :=
  let digits := extractDigits value in
  if Nat.leb (length digits) 10 then digits else slice 0 10 digits.

(** The two inputs that transform what is typed:
    [handleChange('idNumber', e.target.value.replace(/\s/g, ''))] and
    [handleChange('emergencyContact', formatPhoneNumber(e.target.value))]. *)
Definition typeIdNumber (typed : str) : Fields * Errors -> Fields * Errors :=
  handleChange IdNumber (removeSpaces typed).
Definition typeEmergencyContact (typed : str) : Fields * Errors -> Fields * Errors :=
  handleChange EmergencyContact (formatPhoneNumber typed).

End PersonalInfoForm.

(** ** [KYCVerification] *)

Module KYCVerification.

Record KYCData : Type := Data {
  name : str;
  dateOfBirth : str;
  idNumber : str;
  emergencyContact : str;
  photo : option File;
  idDocument : option File;
  tripDetails : option PersonalInfoForm.TripDetails
}.

(** [Partial<KYCData>]: the keys that an update carries. *)
Record Patch : Type := PatchOf {
  newName : option str;
  newDateOfBirth : option str;
  newIdNumber : option str;
  newEmergencyContact : option str;
  newPhoto : option (option File);
  newIdDocument : option (option File);
  newTripDetails : option (option PersonalInfoForm.TripDetails)
}.

(** The updates that the steps send: [formattedData] of the form, and
    [{ photo: file }] or [{ idDocument: file }] of the upload. *)
Definition ofForm (formData : PersonalInfoForm.Fields) : Patch :=
  PatchOf (Some (PersonalInfoForm.name formData))
          (Some (PersonalInfoForm.dateOfBirth formData))
          (Some (PersonalInfoForm.idNumber formData))
          (Some (PersonalInfoForm.emergencyContact formData))
          None None
          (Some (Some (PersonalInfoForm.tripDetails formData))).
Definition ofPhoto (file : File) : Patch :=
  PatchOf None None None None (Some (Some file)) None None.
Definition ofIdDocument (file : File) : Patch :=
  PatchOf None None None None None (Some (Some file)) None.

(** [{ ...prev, ...data }] *)
Definition updateKycData (data : Patch) (prev : KYCData) : KYCData :=
  Data (orElse (newName data) (name prev))
       (orElse (newDateOfBirth data) (dateOfBirth prev))
       (orElse (newIdNumber data) (idNumber prev))
       (orElse (newEmergencyContact data) (emergencyContact prev))
       (orElse (newPhoto data) (photo prev))
       (orElse (newIdDocument data) (idDocument prev))
       (orElse (newTripDetails data) (tripDetails prev)).

Inductive KYCStep : Type := personal | documents | review | processing | complete.

Definition KYCStep_eqb (a b : KYCStep) : bool :=
  match a, b with
  | personal, personal | documents, documents | review, review
  | processing, processing | complete, complete => true
  | _, _ => false
  end.

Definition stepOrder : list KYCStep :=
  [personal; documents; review; processing; complete].

(** [l.indexOf(s)], also [l.findIndex(step => step.id === s)] *)
Fixpoint indexFrom (i : Z) (s : KYCStep) (l : list KYCStep) : Z :=
  match l with
  | [] => (-1)%Z
  | x :: l' => if KYCStep_eqb x s then i else indexFrom (i + 1) s l'
  end.
Definition indexOf (s : KYCStep) (l : list KYCStep) : Z := indexFrom 0 s l.

(** The mock digital ID: its fields come from [Math.random] and [Date]. *)
Record DigitalId : Type := Issued {
  userHash : str;
  issuedAt : str;
  validUntil : str;
  transactionHash : str
}.

(** The three states of the component, and the timers set by
    [setTimeout] that have not fired. *)
Record State : Type := StateOf {
  currentStep : KYCStep;
  kycData : KYCData;
  digitalId : option DigitalId;
  timers : nat
}.

Definition initial : State :=
  StateOf personal
          (Data [] [] [] [] None None (Some (PersonalInfoForm.Trip [] [] [])))
          None 0.

Definition setCurrentStep (s : KYCStep) (st : State) : State :=
  StateOf s (kycData st) (digitalId st) (timers st).

(** [((currentStepIndex + 1) / steps.length) * 100] *)
Definition progress (st : State) : Q :=
  ((inject_Z (indexOf (currentStep st) stepOrder + 1)
    / inject_Z (Z.of_nat (length stepOrder))) * 100)%Q.

Definition handleNext (st : State) : State :=
  let currentIndex := indexOf (currentStep st) stepOrder in
  if (currentIndex <? Z.of_nat (length stepOrder) - 1)%Z then
    if KYCStep_eqb (currentStep st) review then
      StateOf processing (kycData st) (digitalId st) (S (timers st))
    else
      setCurrentStep (nth (Z.to_nat (currentIndex + 1)) stepOrder (currentStep st)) st
  else st.

Definition handleBack (st : State) : State :=
  let currentIndex := indexOf (currentStep st) stepOrder in
  if (0 <? currentIndex)%Z then
    setCurrentStep (nth (Z.to_nat (currentIndex - 1)) stepOrder (currentStep st)) st
  else st.

(** The callback of [setTimeout], three seconds later. *)
Definition timeout (mockDigitalId : DigitalId) (st : State) : State :=
  StateOf complete (kycData st) (Some mockDigitalId) (pred (timers st)).

(** What can happen to the component: the step on screen calls [onNext],
    [onBack] or [onUpdate], or a timer fires. *)
Inductive event : Type :=
| Next
| Back
| Update (data : Patch)
| Timeout (mockDigitalId : DigitalId).

(** The callbacks that the step on screen is given. *)
Definition offered (s : KYCStep) (e : event) : bool :=
  match s, e with
  | personal, (Next | Update _) => true
  | (documents | review), (Next | Back | Update _) => true
  | _, _ => false
  end.

Definition react (st : State) (e : event) : option State :=
  match e with
  | Timeout mockDigitalId =>
      if Nat.ltb 0 (timers st) then Some (timeout mockDigitalId st) else None
  | Next =>
      if offered (currentStep st) e then Some (handleNext st) else None
  | Back =>
      if offered (currentStep st) e then Some (handleBack st) else None
  | Update data =>
      if offered (currentStep st) e
      then Some (StateOf (currentStep st) (updateKycData data (kycData st))
                         (digitalId st) (timers st))
      else None
  end.

Fixpoint reactAll (st : State) (es : list event) : option State :=
  match es with
  | [] => Some st
  | e :: es' =>
      match react st e with
      | Some st' => reactAll st' es'
      | None => None
      end
  end.

End KYCVerification.

(** ** [ReviewSubmission] and [DigitalIDCard] *)

(** /(\d{5})(\d{5})/ and '$1 $2' *)
Definition twoGroups : regex := conc [Group 1 (times 5 dig); Group 2 (times 5 dig)].
Definition spacedHalves : list piece := [Ref 1; Lit [space]; Ref 2].

Module ReviewSubmission.

Definition formatAadhaarNumber (aadhaar : str) : str :=
  if negb (PersonalInfoForm.nonEmpty aadhaar) then js "Not provided"
  else replaceFirst threeGroups spacedGroups aadhaar.

Definition formatPhoneNumber (phone : str) : str :=
  if negb (PersonalInfoForm.nonEmpty phone) then js "Not provided"
  else replaceFirst twoGroups spacedHalves phone.

(** [requiredFields] with [data[field]] as a condition *)
Definition requiredFields (data : KYCVerification.KYCData) : list (string * bool) :=
  [ ("name", PersonalInfoForm.nonEmpty (KYCVerification.name data));
    ("dateOfBirth", PersonalInfoForm.nonEmpty (KYCVerification.dateOfBirth data));
    ("idNumber", PersonalInfoForm.nonEmpty (KYCVerification.idNumber data));
    ("emergencyContact",
     PersonalInfoForm.nonEmpty (KYCVerification.emergencyContact data));
    ("photo", truthy (KYCVerification.photo data));
    ("idDocument", truthy (KYCVerification.idDocument data)) ]%string.

Definition missingFields (data : KYCVerification.KYCData) : list string :=
  map fst (filter (fun field => negb (snd field)) (requiredFields data)).

Definition handleSubmit (data : KYCVerification.KYCData) : list (action unit) :=
  if Nat.ltb 0 (length (missingFields data))
  then [ShowToast "Missing Information"]
  else [ShowToast "Submitting Application"; OnNext].

(** [data.tripDetails?.location] and the like, as conditions *)
Definition tripField (get : PersonalInfoForm.TripDetails -> str)
           (data : KYCVerification.KYCData) : bool :=
  match KYCVerification.tripDetails data with
  | Some trip => PersonalInfoForm.nonEmpty (get trip)
  | None => false
  end.

(** [isComplete], which enables the button Submit *)
Definition isComplete (data : KYCVerification.KYCData) : bool :=
  PersonalInfoForm.nonEmpty (KYCVerification.name data)
  && PersonalInfoForm.nonEmpty (KYCVerification.dateOfBirth data)
  && PersonalInfoForm.nonEmpty (KYCVerification.idNumber data)
  && PersonalInfoForm.nonEmpty (KYCVerification.emergencyContact data)
  && truthy (KYCVerification.photo data)
  && truthy (KYCVerification.idDocument data)
  && tripField PersonalInfoForm.location data
  && tripField PersonalInfoForm.startDate data
  && tripField PersonalInfoForm.endDate data.

End ReviewSubmission.

Module DigitalIDCard.

Definition formatAadhaarNumber (aadhaar : str) : str :=
  replaceFirst threeGroups spacedGroups aadhaar.

End DigitalIDCard.

(** ** The session

    [KYCVerification] shows one step at a time, and a step is mounted when
    it comes on screen: the state [documentValidation] of [DocumentUpload]
    then starts again from [{ status: 'pending' }].  What the user can do on
    a step is what the step renders: its handlers, under the conditions of
    its [disabled] attributes and of its conditional rendering.

    [validateDocumentData] is asynchronous and nothing awaits it: it sets
    the status [validating] and calls Tesseract, and the rest of it runs
    when Tesseract returns, whatever has happened on screen since.  The
    file inputs stay enabled, so several runs can be in flight, each with
    the props [data] of the render that started it; each sets
    [documentValidation] when it ends, unless the step has left the screen
    since: the state of an unmounted component is not set.  Every call of
    Tesseract has an outcome of its own. *)

Module Session.

Inductive UploadType : Type := Photo | IdDocument.    (* 'photo' | 'idDocument' *)

(** What happens next: a gesture of the user, a timer that fires, or
    Tesseract, which reports progress to the logger of a run or settles the
    promise of a run.  Runs are numbered as they stand in [running]. *)
Inductive gesture : Type :=
| SubmitForm (formData : PersonalInfoForm.Fields)     (* the button of the form *)
| ChooseFile (type : UploadType) (files : option File) (* a file input changes *)
| Retry
| Continue
| GoBack
| SubmitReview
| TimerFires (mockDigitalId : KYCVerification.DigitalId)
| Reports (run : nat) (p : Z)
| Settles (run : nat) (result : outcome (option str)).

(** A run of [validateDocumentData] that awaits Tesseract: the props [data]
    that it closes over, its file, and whether the component whose state it
    sets is still the one on screen. *)
Record Run : Type := RunOf {
  props : KYCVerification.KYCData;
  document : File;
  mounted : bool
}.

(** [reads] records the calls of Tesseract that have settled, the latest
    first: the file and what came of it. *)
Record Screen : Type := ScreenOf {
  kyc : KYCVerification.State;
  validation : ValidationResult;          (* [documentValidation] *)
  running : list Run;
  reads : list (File * outcome (option str))
}.

Definition start : Screen :=
  ScreenOf KYCVerification.initial (onlyStatus pending) [] [].

(** The props [data] of [DocumentUpload], as [validateDocumentData] reads
    them. *)
Definition toFormData (data : KYCVerification.KYCData) : FormData :=
  Form (KYCVerification.name data) (KYCVerification.dateOfBirth data)
       (KYCVerification.idNumber data) (KYCVerification.emergencyContact data).

Definition noPatch : KYCVerification.Patch :=
  KYCVerification.PatchOf None None None None None None None.

(** The events of [KYCVerification] that a list of callbacks amounts to. *)
Definition calls {Data : Type} (toPatch : Data -> KYCVerification.Patch)
           (actions : list (action Data)) : list KYCVerification.event :=
  flat_map (fun a =>
              match a with
              | OnUpdate data => [KYCVerification.Update (toPatch data)]
              | OnNext => [KYCVerification.Next]
              | ShowToast _ => []
              end) actions.

(** The file of a run as the call of Tesseract of that run reads it. *)
Definition readAs (file : File) (result : outcome (option str)) : File :=
  Upload (fileType file) [] result.

Definition unmount (r : Run) : Run := RunOf (props r) (document r) false.

(** The runs whose component is on screen. *)
Definition live (s : Screen) : list Run := filter mounted (running s).

(** A list without its element of index [i]. *)
Definition without {A : Type} (i : nat) (l : list A) : list A :=
  firstn i l ++ skipn (S i) l.

Section Session.
Context {host : Host}.
Variable findDate : str -> str -> outcome MatchResult.
Variable dateTime : str -> option Z.
Variable fullYear : Z -> Z.
Variable today : Z.

(** [documentValidation] at the end of [validateDocumentData(file)].  The
    last [setDocumentValidation] of a run sets the whole state, so that
    the state at the end is the same from whatever state the run is
    replayed. *)
Definition validated (data : KYCVerification.KYCData) (file : File)
           (before : ValidationResult) : ValidationResult :=
  documentValidation
    (snd (validateDocumentData findDate (toFormData data) file (World before []))).

(** [validateDocumentData(file)] up to its [await]: a file that is no
    image is dealt with at once; for an image the status is [validating]
    and the run awaits Tesseract. *)
Definition begins (data : KYCVerification.KYCData) (file : File) (s : Screen)
  : Screen :=
  if negb (startsWith (fileType file) (js "image/"))
  then ScreenOf (kyc s) (validated data file (validation s)) (running s) (reads s)
  else ScreenOf (kyc s) (Validation validating None None None (Some 0%Z))
                (running s ++ [RunOf data file true]) (reads s).

(** [handleFileUpload(type)]: a file that is no image is refused with a
    toast; an image is stored in the data, and its validation begins if it
    is the ID document. *)
Definition handleFileUpload (type : UploadType) (files : option File)
           (s : Screen) : option Screen :=
  match files with
  | None => Some s
  | Some file =>
      if negb (startsWith (fileType file) (js "image/")) then Some s
      else
        let data := KYCVerification.kycData (kyc s) in
        match KYCVerification.react (kyc s)
                (KYCVerification.Update
                   match type with
                   | Photo => KYCVerification.ofPhoto file
                   | IdDocument => KYCVerification.ofIdDocument file
                   end) with
        | Some kyc' =>
            let s' := ScreenOf kyc' (validation s) (running s) (reads s) in
            Some match type with
                 | Photo => s'
                 | IdDocument => begins data file s'
                 end
        | None => None
        end
  end.

(** The logger of a run: [setDocumentValidation(prev => ({ ...prev,
    progress }))]. *)
Definition reports (run : nat) (p : Z) (s : Screen) : option Screen :=
  match nth_error (running s) run with
  | Some r =>
      Some (ScreenOf (kyc s)
              (if mounted r then withProgress p (validation s) else validation s)
              (running s) (reads s))
  | None => None
  end.

(** The promise of a run settles and the run goes on to its end. *)
Definition settles (run : nat) (result : outcome (option str)) (s : Screen)
  : option Screen :=
  match nth_error (running s) run with
  | Some r =>
      Some (ScreenOf (kyc s)
              (if mounted r
               then validated (props r) (readAs (document r) result) (validation s)
               else validation s)
              (without run (running s))
              ((document r, result) :: reads s))
  | None => None
  end.

(** The step on screen after the callbacks of a handler; a step that comes
    on screen is mounted, and the runs of the step that leaves it are no
    longer. *)
Definition after (s : Screen) (es : list KYCVerification.event) : option Screen :=
  match KYCVerification.reactAll (kyc s) es with
  | Some kyc' =>
      Some (if KYCVerification.KYCStep_eqb (KYCVerification.currentStep (kyc s))
                                           (KYCVerification.currentStep kyc')
            then ScreenOf kyc' (validation s) (running s) (reads s)
            else ScreenOf kyc' (onlyStatus pending) (map unmount (running s))
                          (reads s))
  | None => None
  end.

Definition onStep (step : KYCVerification.KYCStep) (s : Screen) : bool :=
  KYCVerification.KYCStep_eqb (KYCVerification.currentStep (kyc s)) step.

Definition perform (s : Screen) (g : gesture) : option Screen :=
  let data := KYCVerification.kycData (kyc s) in
  match g with
  | SubmitForm formData =>
      if onStep KYCVerification.personal s
      then after s (calls KYCVerification.ofForm
                      (snd (PersonalInfoForm.handleSubmit dateTime fullYear today
                              formData)))
      else None
  | ChooseFile type files =>
      if onStep KYCVerification.documents s then handleFileUpload type files s
      else None
  | Retry =>
      (* [retryValidation], where the button is rendered *)
      if onStep KYCVerification.documents s
         && truthy (validationResults (validation s))
         && Status_eqb (status (validation s)) invalid
      then Some match KYCVerification.idDocument data with
                | Some file => begins data file s
                | None => s
                end
      else None
  | Continue =>
      if onStep KYCVerification.documents s
         && canProceed (KYCVerification.photo data) (KYCVerification.idDocument data)
                       (validation s)
      then after s [KYCVerification.Next]
      else None
  | GoBack =>
      if onStep KYCVerification.documents s || onStep KYCVerification.review s
      then after s [KYCVerification.Back]
      else None
  | SubmitReview =>
      if onStep KYCVerification.review s && ReviewSubmission.isComplete data
      then after s (calls (fun _ : unit => noPatch) (ReviewSubmission.handleSubmit data))
      else None
  | TimerFires mockDigitalId =>
      after s [KYCVerification.Timeout mockDigitalId]
  | Reports run p => reports run p s
  | Settles run result => settles run result s
  end.

Fixpoint performAll (s : Screen) (gs : list gesture) : option Screen :=
  match gs with
  | [] => Some s
  | g :: gs' =>
      match perform s g with
      | Some s' => performAll s' gs'
      | None => None
      end
  end.

(** No two runs of the component on screen are in flight at any moment of
    the session: the user waits for a validation to end before choosing
    another ID document. *)
Fixpoint oneAtATime (s : Screen) (gs : list gesture) : bool :=
  Nat.leb (length (live s)) 1
  && match gs with
     | [] => true
     | g :: gs' =>
         match perform s g with
         | Some s' => oneAtATime s' gs'
         | None => true
         end
     end.

End Session.
End Session.

(** * The vocabulary of the properties *)

(** ** Character classes and normal forms *)

(** The word characters that lower-casing leaves in place. *)
Definition lowWord (c : char) : bool := isLower c || isDigit c || (c =? 95)%N.

(** What [removePunctuation] keeps of a lower-cased code unit is a
    lower-case word character or white space. *)
Definition lowOrSpace (c : char) : bool := lowWord c || isSpace c.

(** [spaced prev s]: [s] is made of lower-case word characters and single
    spaces, and does not start with a space when [prev] holds. *)
Fixpoint spaced (prev : bool) (s : str) : Prop :=
  match s with
  | [] => True
  | c :: s' =>
      if (c =? space)%N then prev = false /\ spaced true s'
      else lowWord c = true /\ spaced false s'
  end.

(** ** Digits in a text *)

Definition digits (s : str) : Prop := Forall (fun c => isDigit c = true) s.
Definition noDigit (s : str) : Prop := Forall (fun c => isDigit c = false) s.

(** A gap between two groups of digits: nothing or one white space. *)
Definition gap (g : str) : Prop :=
  g = [] \/ exists x, g = [x] /\ isSpace x = true.

(** The text starts with no word character: it may follow or precede a
    word boundary. *)
Definition notWordFirst (s : str) : Prop :=
  match s with [] => True | x :: _ => isWord x = false end.

(** A pattern that must start with a digit is not found in a stretch of
    text without digits. *)
Definition startsWithDigit (r : regex) : Prop :=
  forall bef x aft, isDigit x = false -> matchAt r (Cursor bef (x :: aft)) = None.

(** [[6-9]] *)
Definition mobileFirst (x : char) : bool := between (chr "6") (chr "9") x.

(** ** Candidates *)

(** The candidates in the order in which the two loops visit them. *)
Definition aadhaarCandidates (documentText : str) : list str :=
  flat_map (fun pattern => matchG pattern documentText) aadhaarPatterns.

Definition phoneCandidates (documentText : str) : list str :=
  flat_map (fun pattern => matchG pattern documentText) phonePatterns.

(** Between two groups of a phone number: nothing, or one white space or
    one hyphen. *)
Definition phoneGap (g : str) : Prop :=
  g = [] \/ exists x, g = [x] /\ existsb (inItem x) [Esc isSpace; One (chr "-")] = true.

(** What the four patterns of [findPhoneInText] describe: ten digits; three,
    three and four digits; "+91" and ten digits. *)
Definition phoneForm (m : str) : Prop :=
  (digits m /\ length m = 10)
  \/ (exists a g1 b g2 c,
        m = a ++ g1 ++ b ++ g2 ++ c
        /\ digits a /\ length a = 3 /\ phoneGap g1
        /\ digits b /\ length b = 3 /\ phoneGap g2
        /\ digits c /\ length c = 4)
  \/ (exists g d,
        m = js "+91" ++ g ++ d /\ phoneGap g /\ digits d /\ length d = 10).

(** ** A submission *)

(** [findDateInText] of [src/unnamed/part_000] as the import of
    [DocumentUpload]: it never throws. *)
Definition byDigits {host : Host} (dateInput documentText : str)
  : outcome MatchResult :=
  Ok (findDateInText dateInput documentText).

Definition sampleData : FormData :=
  Form (js "Asha Verma") (js "14/07/1995") (js "123456789012") (js "9876543210").

Definition sampleText : str :=
  js "Government of India ASHA VERMA DOB: 14/07/1995 Female 1234 5678 9012 Mobile: 9876543219".

(** The status as the specification words it: [invalid] if a critical
    field is not found; else [warning] if any field is not found or is
    found below full confidence; else [valid]. *)
Definition specifiedStatus
           (nameResult aadhaarResult dobResult phoneResult : MatchResult)
  : Status :=
  let belowFull r := found r && negb (geq (confidence r) 1) in
  if negb (found nameResult) || negb (found aadhaarResult) then invalid
  else if existsb (fun r => negb (found r) || belowFull r)
                  [nameResult; aadhaarResult; dobResult; phoneResult]
  then warning
  else valid.

(** ** Names *)

(** A code unit that leaves no word character in the normalized text:
    it is outside [\w] and is neither U+0130 nor U+212A. *)
Definition leavesNoWord (c : char) : Prop :=
  isWord c = false /\ c <> 304%N /\ c <> 8490%N.

(** 'आशा वर्मा', in code units *)
Definition ashaVermaHindi : str :=
  [2310; 2358; 2366; 32; 2357; 2352; 2381; 2350; 2366]%N.

(** ** Occurrences *)

(** [s] occurs in [text] as it stands. *)
Definition occursIn (s text : str) : Prop :=
  exists pre post, text = pre ++ s ++ post.

(** The subject a position belongs to. *)
Definition subject (p : cursor) : str := rev (before p) ++ after p.

(** [q] is a position of the subject of [p], at or after [p]. *)
Definition reaches (p q : cursor) : Prop :=
  exists s, after p = s ++ after q /\ before q = rev s ++ before p.

Definition capsIn (text : str) (cs : caps) : Prop :=
  Forall (fun e => occursIn (snd e) text) cs.

(** A matching step that only moves forward in its subject and captures
    pieces of it. *)
Definition sound {R : Type} (step : cursor -> caps -> cont R -> option R)
  : Prop :=
  forall p cs k x,
    step p cs k = Some x -> capsIn (subject p) cs ->
    exists q cs', reaches p q /\ capsIn (subject p) cs' /\ k q cs' = Some x.

Definition latinKeywords : list str :=
  [ js "aadhaar"; js "aadhar"; js "uidai"; js "unique identification";
    js "government of india" ].

(** ** Runs of [validateDocumentData] *)

Definition processingError : ValidationResult :=
  failure "ocr" 0 "Unable to process document. Please try a clearer image." None.

(** An upload that Tesseract rejects, and one that is no image. *)
Definition unreadableFile : File :=
  Upload (js "image/png") [10; 55]%Z (Throw RecognitionFailed).
Definition pdfFile : File :=
  Upload (js "application/pdf") [] (Ok (Some sampleText)).
Definition sampleFile : File :=
  Upload (js "image/jpeg") [0; 50; 100]%Z (Ok (Some sampleText)).

(** ** What a pattern can match

    [sem r s cs cs']: the pattern [r] may consume the text [s], taking the
    captures from [cs] to [cs'].  Assertions consume nothing; which of the
    possible matches the matcher prefers is not described. *)

Fixpoint rep (P : str -> caps -> caps -> Prop) (n : nat)
         (s : str) (cs cs' : caps) : Prop :=
  match n with
  | O => s = [] /\ cs' = cs
  | S n' => exists s1 s2 cs1, s = s1 ++ s2 /\ P s1 cs cs1 /\ rep P n' s2 cs1 cs'
  end.

Definition within (lo : nat) (hi : option nat) (n : nat) : Prop :=
  lo <= n /\ match hi with Some h => n <= h | None => True end.

Fixpoint sem (r : regex) (s : str) (cs cs' : caps) : Prop :=
  match r with
  | Class f => (exists c, s = [c] /\ f c = true) /\ cs' = cs
  | Bracket items =>
      (exists c, s = [c] /\ existsb (inItem c) items = true) /\ cs' = cs
  | Seq a b =>
      exists s1 s2 cs1, s = s1 ++ s2 /\ sem a s1 cs cs1 /\ sem b s2 cs1 cs'
  | Or a b => sem a s cs cs' \/ sem b s cs cs'
  | Quant a lo hi => exists n, within lo hi n /\ rep (sem a) n s cs cs'
  | Group n a => exists cs1, sem a s cs cs1 /\ cs' = (n, s) :: cs1
  | Eps | WordBoundary | Bol | Eol => s = [] /\ cs' = cs
  end.

(** A matching step that consumes a text described by [P]. *)
Definition follows {R : Type} (P : str -> caps -> caps -> Prop)
           (step : cursor -> caps -> cont R -> option R) : Prop :=
  forall p cs k x,
    step p cs k = Some x ->
    exists s q cs',
      after p = s ++ after q /\ before q = rev s ++ before p
      /\ P s cs cs' /\ k q cs' = Some x.

(** [P] describes one code unit of the class [Q], and no capture. *)
Definition single (Q : char -> Prop) (P : str -> caps -> caps -> Prop) : Prop :=
  forall s cs cs', P s cs cs' -> (exists c, s = [c] /\ Q c) /\ cs' = cs.

(** The number of digits of a text. *)
Definition digitCount (s : str) : nat := length (filter isDigit s).

Definition digitOrSpace (c : char) : Prop := isDigit c = true \/ isSpace c = true.

Fixpoint groupless (r : regex) : bool :=
  match r with
  | Seq a b | Or a b => groupless a && groupless b
  | Quant a _ _ => groupless a
  | Group _ _ => false
  | _ => true
  end.

(** ** Dates *)

(** The patterns of [findDateInText] without the two that look for the name
    of a month. *)
Definition numericPatterns : list regex :=
  [nth 0 datePatterns Eps; nth 3 datePatterns Eps; nth 4 datePatterns Eps].

(** ** The form *)

(** What [validateForm] and [ReviewSubmission] ask of an ID number and of
    a phone number. *)
Definition aadhaarNumber (s : str) : Prop := digits s /\ length s = 12.
Definition mobile (s : str) : Prop :=
  exists c ds, s = c :: ds /\ mobileFirst c = true /\ digits ds /\ length ds = 9.

Definition blank (s : str) : Prop := Forall (fun c => isSpace c = true) s.

(** The keys that [validateForm] can set. *)
Definition errorKeys : list str :=
  [ js "name"; js "dateOfBirth"; js "idNumber"; js "emergencyContact";
    js "location"; js "startDate"; js "endDate" ].

Definition tripField (field : PersonalInfoForm.FieldName) : Prop :=
  field = PersonalInfoForm.TripLocation
  \/ field = PersonalInfoForm.TripStartDate
  \/ field = PersonalInfoForm.TripEndDate.

(** A form that passes, a time value per date of the form [yyyy-mm-dd],
    and the year of a time value. *)
Definition sampleFields : PersonalInfoForm.Fields :=
  PersonalInfoForm.FieldsOf
    (js "Asha Verma") (js "1995-07-14") (js "1234 5678 9012") (js "9876543210")
    (PersonalInfoForm.Trip (js "2026-12-01") (js "2026-12-10") (js "Goa")).

Definition sampleDateTime (s : str) : option Z :=
  match parseInt (slice 0 4 s), parseInt (slice 5 7 s), parseInt (slice 8 10 s) with
  | Some y, Some m, Some d => Some (Z.of_N (y * 372 + m * 31 + d))
  | _, _, _ => None
  end.

Definition sampleFullYear (t : Z) : Z := (t - 32) / 372.

(** ** The flow *)

Definition sampleId : KYCVerification.DigitalId :=
  KYCVerification.Issued (js "0x1f") (js "2026-11-02T00:00:00.000Z")
                         (js "2027-11-02T00:00:00.000Z") (js "0x2e").

(** ** The session *)

Definition isImage (file : File) : Prop :=
  startsWith (fileType file) (js "image/") = true.

(** A text that the classifier accepts and in which the name and the ID
    number of the data are found. *)
Definition passes {host : Host} (data : KYCVerification.KYCData)
           (result : option str) : Prop :=
  isAadhaar (isAadhaarDocument (orElse result [])) = true
  /\ found (findNameInText (KYCVerification.name data) (orElse result [])
                           defaultThreshold) = true
  /\ found (findAadhaarInText (KYCVerification.idNumber data) (orElse result []))
     = true.

(** [file] is an image that Tesseract has read, in a call recorded on the
    screen, as a text that passes for the data. *)
Definition readPasses {host : Host} (data : KYCVerification.KYCData)
           (s : Session.Screen) (file : File) : Prop :=
  isImage file
  /\ exists result, In (file, Ok result) (Session.reads s) /\ passes data result.

(** The data hold what the form checks of the person. *)
Definition checked (data : KYCVerification.KYCData) : Prop :=
  2 <= length (trim (KYCVerification.name data))
  /\ KYCVerification.dateOfBirth data <> []
  /\ aadhaarNumber (KYCVerification.idNumber data)
  /\ mobile (KYCVerification.emergencyContact data).

Definition accepted (v : ValidationResult) : Prop :=
  Status_eqb (status v) valid || Status_eqb (status v) warning = true.

(** A run that closes over the name and the ID number of the data. *)
Definition sameForm (data : KYCVerification.KYCData) (r : Session.Run) : Prop :=
  KYCVerification.name (Session.props r) = KYCVerification.name data
  /\ KYCVerification.idNumber (Session.props r) = KYCVerification.idNumber data.

(** What holds of a screen along every session. *)
Definition guarded {host : Host} (s : Session.Screen) : Prop :=
  let st := Session.kyc s in
  let data := KYCVerification.kycData st in
  match KYCVerification.currentStep st with
  | KYCVerification.personal =>
      KYCVerification.timers st = 0 /\ KYCVerification.digitalId st = None
      /\ Session.live s = []
  | KYCVerification.documents =>
      KYCVerification.timers st = 0 /\ KYCVerification.digitalId st = None
      /\ Forall (sameForm data) (Session.live s)
      /\ checked data
      /\ (accepted (Session.validation s) -> exists file, readPasses data s file)
  | KYCVerification.review =>
      KYCVerification.timers st = 0 /\ KYCVerification.digitalId st = None
      /\ Session.live s = []
      /\ checked data /\ KYCVerification.photo data <> None
      /\ KYCVerification.idDocument data <> None
      /\ exists file, readPasses data s file
  | KYCVerification.processing =>
      KYCVerification.timers st = 1 /\ KYCVerification.digitalId st = None
      /\ Session.live s = []
      /\ checked data /\ KYCVerification.photo data <> None
      /\ KYCVerification.idDocument data <> None
      /\ exists file, readPasses data s file
  | KYCVerification.complete =>
      KYCVerification.timers st = 0
      /\ Session.live s = []
      /\ checked data /\ KYCVerification.photo data <> None
      /\ KYCVerification.idDocument data <> None
      /\ exists file, readPasses data s file
  end.

(** What holds of a screen along a session with one run at a time: the
    ID document of the data is the file of the run in flight or, once the
    validation is accepted, a file that was read as a text that passes. *)
Definition attested {host : Host} (s : Session.Screen) : Prop :=
  let st := Session.kyc s in
  let data := KYCVerification.kycData st in
  match KYCVerification.currentStep st with
  | KYCVerification.personal => True
  | KYCVerification.documents =>
      match Session.live s with
      | [] =>
          accepted (Session.validation s) ->
          exists file, KYCVerification.idDocument data = Some file
                       /\ readPasses data s file
      | r :: _ =>
          KYCVerification.idDocument data = Some (Session.document r)
          /\ ~ accepted (Session.validation s)
      end
  | _ =>
      exists file, KYCVerification.idDocument data = Some file
                   /\ readPasses data s file
  end.

(** The files of the data and of the runs are images, and the state
    [documentValidation] holds no entry [fileType]. *)
Definition noFileTypeEntry (v : ValidationResult) : Prop :=
  forall results, validationResults v = Some results ->
                  lookup (js "fileType") results = None.

Definition images_only (s : Session.Screen) : Prop :=
  let data := KYCVerification.kycData (Session.kyc s) in
  (forall file, KYCVerification.photo data = Some file -> isImage file)
  /\ (forall file, KYCVerification.idDocument data = Some file -> isImage file)
  /\ noFileTypeEntry (Session.validation s)
  /\ Forall (fun r => isImage (Session.document r)) (Session.running s).

(** A second image, an ID document that is never read. *)
Definition otherFile : File :=
  Upload (js "image/png") [] (Ok None).

(** * Properties *)

Lemma str_eqb_eq a b : str_eqb a b = true <-> a = b.
Proof. unfold str_eqb. destruct (list_eq_dec N.eq_dec a b); split; congruence. Qed.

Lemma str_eqb_refl a : str_eqb a a = true.
Proof. now apply str_eqb_eq. Qed.

(** ** Character classes *)

(** Goals and hypotheses on classes become linear arithmetic. *)
Ltac classes :=
  unfold lowWord, isWord, isSpace, isLower, isUpper, isDigit, between, space in *;
  rewrite ?orb_true_iff, ?andb_true_iff, ?orb_false_iff, ?andb_false_iff,
    ?N.leb_le, ?N.leb_gt, ?N.eqb_eq, ?N.eqb_neq in *;
  try lia.

Lemma lowWord_isWord c : lowWord c = true -> isWord c = true.
Proof. intros H. classes. Qed.

Lemma lowWord_not_space c : lowWord c = true -> isSpace c = false.
Proof. intros H. classes. Qed.

Lemma lowWord_not_upper c : lowWord c = true -> isUpper c = false.
Proof. intros H. classes. Qed.

Lemma lowWord_lowerUnit c : lowWord c = true -> lowerUnit c = [c].
Proof.
  intros H. unfold lowerUnit. rewrite (lowWord_not_upper _ H).
  destruct (N.eqb_spec c 304); [subst; discriminate|].
  destruct (N.eqb_spec c 8490); [subst; discriminate|]. reflexivity.
Qed.

Lemma kept_lowOrSpace c :
  isUpper c = false -> isWord c || isSpace c = true -> lowOrSpace c = true.
Proof. unfold lowOrSpace. intros U K. classes. Qed.

Lemma upper_lowered c : isUpper c = true -> lowWord (c + 32)%N = true.
Proof. intros U. classes. Qed.

Lemma kept_lowerUnit c :
  Forall (fun x => lowOrSpace x = true) (removePunctuation (lowerUnit c)).
Proof.
  unfold lowerUnit, removePunctuation.
  destruct (isUpper c) eqn:U.
  - pose proof (upper_lowered _ U) as L. simpl.
    rewrite (lowWord_isWord _ L). simpl. repeat constructor.
    unfold lowOrSpace. now rewrite L.
  - destruct (N.eqb_spec c 304); [subst; simpl; repeat constructor|].
    destruct (N.eqb_spec c 8490); [subst; simpl; repeat constructor|].
    simpl. destruct (isWord c || isSpace c) eqn:K; repeat constructor.
    now apply kept_lowOrSpace.
Qed.

Lemma kept_lowerUnits s :
  Forall (fun x => lowOrSpace x = true) (removePunctuation (lowerUnits s)).
Proof.
  induction s as [|c s IH]; simpl; [constructor|].
  unfold removePunctuation in *. rewrite filter_app.
  apply Forall_app. split; [apply kept_lowerUnit | exact IH].
Qed.

(** ** Normal forms *)

Lemma spaced_weaken prev s : spaced true s -> spaced prev s.
Proof.
  destruct s as [|c s]; simpl; [trivial|].
  destruct (c =? space)%N; [intros [H _]; discriminate | trivial].
Qed.

Lemma collapseFrom_spaced s : forall inRun,
  Forall (fun x => lowOrSpace x = true) s -> spaced inRun (collapseFrom inRun s).
Proof.
  induction s as [|c s IH]; intros inRun H; simpl; [trivial|].
  inversion H as [|? ? Hc Hs]; subst.
  destruct (isSpace c) eqn:Sp.
  - destruct inRun; [apply IH; assumption|].
    simpl. split; [reflexivity | apply IH; assumption].
  - unfold lowOrSpace in Hc. rewrite Sp, orb_false_r in Hc.
    simpl. destruct (N.eqb_spec c space) as [->|_]; [discriminate Sp|].
    split; [assumption | apply IH; assumption].
Qed.

Lemma trimStart_spaced s : forall prev, spaced prev s -> spaced true (trimStart s).
Proof.
  induction s as [|c s IH]; intros prev H; simpl in *; [trivial|].
  destruct (N.eqb_spec c space) as [->|Hn].
  - simpl. destruct H as [_ H]. now apply (IH true).
  - destruct H as [L H]. rewrite (lowWord_not_space _ L). simpl.
    destruct (N.eqb_spec c space); [contradiction|]. now split.
Qed.

Lemma trimEnd_spaced s : forall prev, spaced prev s -> spaced prev (trimEnd s).
Proof.
  induction s as [|c s IH]; intros prev H; simpl in *; [trivial|].
  destruct (N.eqb_spec c space) as [->|Hn].
  - destruct H as [-> H]. specialize (IH _ H).
    destruct (trimEnd s) as [|x t]; simpl; [trivial|].
    split; [reflexivity | exact IH].
  - destruct H as [L H]. specialize (IH _ H).
    destruct (trimEnd s) as [|x t].
    + rewrite (lowWord_not_space _ L). simpl.
      destruct (N.eqb_spec c space); [contradiction|]. now split.
    + simpl. destruct (N.eqb_spec c space); [contradiction|]. now split.
Qed.

Lemma spaced_lowerUnits s : forall prev, spaced prev s -> lowerUnits s = s.
Proof.
  induction s as [|c s IH]; intros prev H; simpl in *; [reflexivity|].
  destruct (N.eqb_spec c space) as [->|_].
  - destruct H as [_ H]. simpl. f_equal. now apply (IH true).
  - destruct H as [L H]. rewrite (lowWord_lowerUnit _ L). simpl.
    f_equal. now apply (IH false).
Qed.

Lemma spaced_removePunctuation s : forall prev,
  spaced prev s -> removePunctuation s = s.
Proof.
  unfold removePunctuation.
  induction s as [|c s IH]; intros prev H; simpl in *; [reflexivity|].
  destruct (N.eqb_spec c space) as [->|_].
  - destruct H as [_ H]. simpl. f_equal. now apply (IH true).
  - destruct H as [L H]. rewrite (lowWord_isWord _ L). simpl.
    f_equal. now apply (IH false).
Qed.

Lemma spaced_collapseFrom s : forall prev,
  spaced prev s -> collapseFrom prev s = s.
Proof.
  induction s as [|c s IH]; intros prev H; simpl in *; [reflexivity|].
  destruct (N.eqb_spec c space) as [->|_].
  - destruct H as [-> H]. simpl. f_equal. now apply IH.
  - destruct H as [L H]. rewrite (lowWord_not_space _ L). f_equal. now apply IH.
Qed.

Lemma spaced_trimStart s : spaced true s -> trimStart s = s.
Proof.
  destruct s as [|c s]; simpl; [reflexivity|].
  destruct (N.eqb_spec c space) as [->|_].
  - intros [H _]. discriminate.
  - intros [L _]. now rewrite (lowWord_not_space _ L).
Qed.

Lemma trimEnd_idempotent s : trimEnd (trimEnd s) = trimEnd s.
Proof.
  induction s as [|c s IH]; simpl; [reflexivity|].
  destruct (trimEnd s) as [|x t] eqn:E.
  - destruct (isSpace c) eqn:Sp; simpl; [reflexivity | now rewrite Sp].
  - change (trimEnd (c :: x :: t)) with
      (match trimEnd (x :: t) with
       | [] => if isSpace c then [] else [c]
       | u => c :: u
       end).
    rewrite IH. reflexivity.
Qed.

(** The normalized text is in normal form, whatever the host. *)
Section Normalization.
Context {host : Host}.

Lemma normalizeText_units text :
  normalizeText text
  = trim (collapseSpaces (removePunctuation (lowerUnits text))).
Proof. unfold normalizeText. now rewrite toLowerCase_words. Qed.

Lemma normalizeText_spaced text : spaced true (normalizeText text).
Proof.
  rewrite normalizeText_units. unfold trim, collapseSpaces.
  apply trimEnd_spaced, (trimStart_spaced _ false), collapseFrom_spaced,
    kept_lowerUnits.
Qed.

Lemma normalizeText_fixed s :
  spaced true s -> trimEnd s = s -> normalizeText s = s.
Proof.
  intros H E. rewrite normalizeText_units.
  rewrite (spaced_lowerUnits _ _ H), (spaced_removePunctuation _ _ H).
  unfold collapseSpaces, trim.
  rewrite (spaced_collapseFrom _ _ (spaced_weaken false _ H)).
  now rewrite (spaced_trimStart _ H).
Qed.
End Normalization.

(** C9. Text normalization is idempotent: for every string [x],
    [normalizeText (normalizeText x)] equals [normalizeText x]. *)
Theorem normalizeText_idempotent {host : Host} (x : str) :
  normalizeText (normalizeText x) = normalizeText x.
Proof.
  apply normalizeText_fixed.
  - apply normalizeText_spaced.
  - rewrite normalizeText_units. unfold trim. apply trimEnd_idempotent.
Qed.

(** ** The classifier *)

Lemma startsWith_nil s : startsWith s [] = true.
Proof. destruct s; reflexivity. Qed.

Lemma includes_nil s : includes s [] = true.
Proof. destruct s; reflexivity. Qed.

Section Classifier.
Context {host : Host}.

Lemma normalizeText_bharatSarkar : normalizeText bharatSarkar = [].
Proof. rewrite normalizeText_units. reflexivity. Qed.

Lemma normalizeText_aadhaarHindi : normalizeText aadhaarHindi = [].
Proof. rewrite normalizeText_units. reflexivity. Qed.

(** The two Devanagari keywords always count. *)
Lemma keywordMatches_shape t :
  exists k, k <= 5 /\ keywordMatches t = 2 + k.
Proof.
  unfold keywordMatches, aadhaarKeywords. simpl fold_left.
  fold bharatSarkar aadhaarHindi.
  rewrite normalizeText_bharatSarkar, normalizeText_aadhaarHindi, includes_nil.
  repeat match goal with
         | |- context [includes t ?kw] => destruct (includes t kw)
         end;
    eexists; (split; [|reflexivity]); lia.
Qed.

Lemma classifier_bounds text :
  (2 # 7 <= classConfidence (isAadhaarDocument text))%Q
  /\ (classConfidence (isAadhaarDocument text) <= 1)%Q.
Proof.
  unfold isAadhaarDocument.
  destruct (keywordMatches_shape (normalizeText text)) as (k & Hk & ->).
  destruct (test _ text);
    do 6 (destruct k as [|k]; [split; apply Qle_bool_iff; reflexivity|]);
    lia.
Qed.
End Classifier.

(** C10. For every input text, the empty string included, the confidence
    returned by the document classifier is at least 2/7: both Devanagari
    keywords normalize to the empty string, which every string includes, so
    at least two of the seven keywords count as matched and the confidence
    is never 0. *)
Theorem classifier_confidence_floor {host : Host} (text : str) :
  normalizeText bharatSarkar = []
  /\ normalizeText aadhaarHindi = []
  /\ In bharatSarkar aadhaarKeywords /\ In aadhaarHindi aadhaarKeywords
  /\ length aadhaarKeywords = 7
  /\ 2 <= keywordMatches (normalizeText text)
  /\ (2 # 7 <= classConfidence (isAadhaarDocument text))%Q
  /\ ~ (classConfidence (isAadhaarDocument text) == 0)%Q.
Proof.
  pose proof (classifier_bounds text) as [Hlo _].
  destruct (keywordMatches_shape (normalizeText text)) as (k & _ & Hk).
  repeat split.
  - apply normalizeText_bharatSarkar.
  - apply normalizeText_aadhaarHindi.
  - unfold aadhaarKeywords, bharatSarkar. simpl. tauto.
  - unfold aadhaarKeywords, aadhaarHindi. simpl. tauto.
  - lia.
  - exact Hlo.
  - intros E. rewrite E in Hlo. revert Hlo. apply Qlt_not_le. reflexivity.
Qed.

(** C4. On the empty text the classifier returns [isAadhaar = false] with
    confidence 2/7, not 0; on every text its confidence lies in [0,1]. *)
Theorem classifier_on_empty_text {host : Host} :
  isAadhaarDocument [] = Classified false (2 # 7)
  /\ forall text,
       (0 <= classConfidence (isAadhaarDocument text))%Q
       /\ (classConfidence (isAadhaarDocument text) <= 1)%Q.
Proof.
  split.
  - unfold isAadhaarDocument, keywordMatches, aadhaarKeywords.
    simpl fold_left. rewrite !normalizeText_units. reflexivity.
  - intros text. destruct (classifier_bounds text) as [Hlo Hhi]. split.
    + eapply Qle_trans; [|exact Hlo]. apply Qle_bool_iff. reflexivity.
    + exact Hhi.
Qed.

(** ** Loops with an early return *)

Lemma firstReturn_flat_map {A B C : Type} (f : B -> option C) (g : A -> list B)
      (l : list A) :
  firstReturn (fun x => firstReturn f (g x)) l = firstReturn f (flat_map g l).
Proof.
  assert (App : forall u v, firstReturn f (u ++ v)
                            = match firstReturn f u with
                              | Some r => Some r
                              | None => firstReturn f v
                              end).
  { induction u as [|x u IH]; intros v; simpl; [reflexivity|].
    destruct (f x); [reflexivity | apply IH]. }
  induction l as [|x l IH]; simpl; [reflexivity|].
  rewrite App, IH. reflexivity.
Qed.

Lemma firstReturn_Some {A B : Type} (f : A -> option B) l r :
  firstReturn f l = Some r -> exists x, In x l /\ f x = Some r.
Proof.
  induction l as [|x l IH]; simpl; [discriminate|].
  destruct (f x) eqn:E.
  - intros [= <-]. exists x. auto.
  - intros H. destruct (IH H) as (z & Hz & Hf). exists z. auto.
Qed.

(** The first candidate for which the body returns decides, whatever
    follows it. *)
Lemma firstReturn_first {A B : Type} (f : A -> option B) pre x post r :
  (forall c, In c pre -> f c = None) -> f x = Some r ->
  firstReturn f (pre ++ x :: post) = Some r.
Proof.
  intros Hpre Hx. induction pre as [|c pre IH]; simpl.
  - now rewrite Hx.
  - rewrite (Hpre c (or_introl eq_refl)). apply IH.
    intros z Hz. apply Hpre. now right.
Qed.

(** ** The ID matcher *)

Section Aadhaar.
Context {host : Host}.

Lemma findAadhaarInText_candidates aadhaarInput documentText :
  findAadhaarInText aadhaarInput documentText
  = orElse (firstReturn (aadhaarCandidate (extractDigits aadhaarInput))
                        (aadhaarCandidates documentText))
           notFound.
Proof. unfold findAadhaarInText. now rewrite firstReturn_flat_map. Qed.

Lemma geq_iff a c : geq a c = true <-> (c <= a)%Q.
Proof. apply Qle_bool_iff. Qed.

Lemma geq_false_iff a c : geq a c = false <-> (a < c)%Q.
Proof.
  unfold geq. split.
  - intros H. apply Qnot_le_lt. intros L. apply Qle_bool_iff in L. congruence.
  - intros H. destruct (Qle_bool c a) eqn:E; [|reflexivity].
    apply Qle_bool_iff in E. exfalso. exact (Qlt_not_le _ _ H E).
Qed.

Lemma aadhaarCandidate_returns inputDigits c r :
  aadhaarCandidate inputDigits c = Some r ->
  found r = true /\ (9 # 10 <= confidence r)%Q.
Proof.
  unfold aadhaarCandidate.
  destruct (str_eqb (extractDigits c) inputDigits).
  - intros [= <-]. split; [reflexivity | apply Qle_bool_iff; reflexivity].
  - destruct (geq _ (9 # 10)) eqn:G; [|discriminate].
    intros [= <-]. split; [reflexivity | now apply geq_iff].
Qed.

Lemma aadhaarCandidate_exact inputDigits c :
  extractDigits c = inputDigits ->
  aadhaarCandidate inputDigits c = Some (Result true 1 (Some c)).
Proof. intros E. unfold aadhaarCandidate. now rewrite E, str_eqb_refl. Qed.

Lemma aadhaarCandidate_skips inputDigits c :
  extractDigits c <> inputDigits ->
  (getSimilarity inputDigits (extractDigits c) < 9 # 10)%Q ->
  aadhaarCandidate inputDigits c = None.
Proof.
  intros Hne Hsim. unfold aadhaarCandidate.
  destruct (str_eqb (extractDigits c) inputDigits) eqn:E.
  - apply str_eqb_eq in E. contradiction.
  - apply geq_false_iff in Hsim. now rewrite Hsim.
Qed.

(** The results of the ID matcher: a candidate accepted at confidence at
    least 0.9, or [notFound]. *)
Lemma findAadhaarInText_cases aadhaarInput documentText :
  let r := findAadhaarInText aadhaarInput documentText in
  (found r = true /\ (9 # 10 <= confidence r)%Q) \/ r = notFound.
Proof.
  intros r. subst r. rewrite findAadhaarInText_candidates.
  destruct (firstReturn _ _) as [r|] eqn:E; simpl; [left | now right].
  apply firstReturn_Some in E. destruct E as (c & _ & Hc).
  exact (aadhaarCandidate_returns _ _ Hc).
Qed.
End Aadhaar.

(** C8. For every result of the ID matcher: confidence at least 0.9 implies
    [found = true]; confidence below 0.9 implies [found = false]; the
    matcher never returns [found = true] with a confidence below 0.9; and a
    result with [found = false] carries confidence 0. *)
Theorem aadhaar_threshold {host : Host} (aadhaarInput documentText : str) :
  let r := findAadhaarInText aadhaarInput documentText in
  ((9 # 10 <= confidence r)%Q -> found r = true)
  /\ ((confidence r < 9 # 10)%Q -> found r = false)
  /\ (found r = true -> (9 # 10 <= confidence r)%Q)
  /\ (found r = false -> confidence r = 0%Q).
Proof.
  intros r.
  destruct (findAadhaarInText_cases aadhaarInput documentText) as [[F C]|E];
    fold r in F, C || fold r in E.
  - repeat split; intros H; try assumption.
    + exfalso. exact (Qlt_not_le _ _ H C).
    + congruence.
  - rewrite E. simpl. repeat split; intros H; try reflexivity.
    + exfalso. revert H. apply Qlt_not_le. reflexivity.
    + discriminate.
Qed.

Lemma aadhaar_threshold_witness :
  found (findAadhaarInText (js "123456789012") (js "1234 5678 9012")) = true.
Proof.
  apply (proj1 (aadhaar_threshold (js "123456789012") (js "1234 5678 9012"))).
  apply Qle_bool_iff. vm_compute. reflexivity.
Defined.

(** ** Running the ID pattern *)

Lemma isDigit_isWord c : isDigit c = true -> isWord c = true.
Proof. intros H. classes. Qed.

Lemma isDigit_not_space c : isDigit c = true -> isSpace c = false.
Proof. intros H. classes. Qed.

Lemma isSpace_not_digit c : isSpace c = true -> isDigit c = false.
Proof. intros H. classes. Qed.

Lemma extractDigits_digits s : digits s -> extractDigits s = s.
Proof.
  unfold extractDigits. induction 1 as [|c s Hc _ IH]; simpl; [reflexivity|].
  now rewrite Hc, IH.
Qed.

Lemma extractDigits_app s t :
  extractDigits (s ++ t) = extractDigits s ++ extractDigits t.
Proof. apply filter_app. Qed.

Lemma firstn_consumed (l r : str) : firstn (length (l ++ r) - length r) (l ++ r) = l.
Proof.
  replace (length (l ++ r) - length r) with (length l)
    by (rewrite length_app; lia).
  rewrite firstn_app, firstn_all, Nat.sub_diag. simpl. apply app_nil_r.
Qed.

Section RunLemmas.
Variable R : Type.
Implicit Types (k : cont R) (p : cursor) (cs : caps).

(** [\d{n}] before [n] digits consumes them. *)
Lemma iterate_digits k ds : forall fuel bef rest cs,
  digits ds -> length ds <= fuel ->
  iterate (run dig) k fuel (length ds) (Some (length ds))
          (Cursor bef (ds ++ rest)) cs
  = k (Cursor (rev ds ++ bef) rest) cs.
Proof.
  induction ds as [|x ds IH]; intros fuel bef rest cs Hd Hf.
  - destruct fuel; reflexivity.
  - inversion Hd as [|? ? Hx Hds]; subst.
    destruct fuel as [|fuel]; [simpl in Hf; lia|].
    simpl. rewrite Hx. simpl.
    rewrite IH by (simpl in Hf; auto with arith).
    rewrite <- app_assoc. simpl.
    now destruct (k _ cs).
Qed.

Lemma run_digits k n ds bef rest cs :
  digits ds -> length ds = n ->
  run (times n dig) (Cursor bef (ds ++ rest)) cs k
  = k (Cursor (rev ds ++ bef) rest) cs.
Proof.
  intros Hd <-. unfold times. simpl run.
  apply iterate_digits; [assumption | lia].
Qed.

(** [\d{n}], [n > 0], fails before a code unit that is no digit and at
    the end of the subject. *)
Lemma run_digits_fails k n bef aft cs :
  match aft with [] => True | x :: _ => isDigit x = false end ->
  run (times (S n) dig) (Cursor bef aft) cs k = None.
Proof.
  intros H. unfold times. simpl run.
  destruct aft as [|x aft]; simpl; [reflexivity|]. now rewrite H.
Qed.

Lemma ltb_succ n : Nat.ltb n (S n) = true.
Proof. apply Nat.ltb_lt. lia. Qed.

(** [\s?] before white space: with it first, then without. *)
Lemma run_opt_space k x bef rest cs :
  isSpace x = true ->
  run (opt spc) (Cursor bef (x :: rest)) cs k
  = match k (Cursor (x :: bef) rest) cs with
    | Some r => Some r
    | None => k (Cursor bef (x :: rest)) cs
    end.
Proof.
  intros H. unfold opt. simpl. rewrite H.
  unfold advanced. simpl. rewrite ltb_succ.
  destruct (length rest); reflexivity.
Qed.

(** [\s?] elsewhere matches the empty string. *)
Lemma run_opt_nospace k bef aft cs :
  match aft with [] => True | x :: _ => isSpace x = false end ->
  run (opt spc) (Cursor bef aft) cs k = k (Cursor bef aft) cs.
Proof.
  intros H. unfold opt. simpl run.
  destruct aft as [|x aft]; simpl; [reflexivity|]. now rewrite H.
Qed.
End RunLemmas.

Lemma extractDigits_gap g : gap g -> extractDigits g = [].
Proof.
  intros [->|(x & -> & H)]; [reflexivity|].
  unfold extractDigits. simpl. now rewrite (isSpace_not_digit _ H).
Qed.

Section GroupedPattern.
Variable R : Type.
Implicit Types (k : cont R).

Lemma run_Seq (x r : regex) k p cs :
  run (Seq x r) p cs k = run x p cs (fun q cs' => run r q cs' k).
Proof. reflexivity. Qed.

Lemma run_bnd k p cs :
  run bnd p cs k = if xorb (wordBefore p) (wordAfter p) then k p cs else None.
Proof. reflexivity. Qed.

(** [\s?\d{4}] followed by [tail], before a gap and four digits. *)
Lemma run_gap_digits (tail : regex) k g ds bef rest cs :
  gap g -> digits ds -> length ds = 4 ->
  run (Seq (opt spc) (Seq (times 4 dig) tail)) (Cursor bef (g ++ ds ++ rest)) cs k
  = run tail (Cursor (rev ds ++ rev g ++ bef) rest) cs k.
Proof.
  intros Hg Hd Hl. rewrite run_Seq.
  destruct ds as [|d1 ds]; [discriminate|].
  assert (Hd1 : isDigit d1 = true) by now inversion Hd.
  destruct Hg as [->|(x & -> & Hx)].
  - change ([] ++ (d1 :: ds) ++ rest) with (d1 :: ds ++ rest).
    rewrite run_opt_nospace by (simpl; now apply isDigit_not_space).
    change (d1 :: ds ++ rest) with ((d1 :: ds) ++ rest).
    rewrite run_Seq. now rewrite run_digits.
  - change ([x] ++ (d1 :: ds) ++ rest) with (x :: (d1 :: ds) ++ rest).
    rewrite run_opt_space by assumption.
    rewrite !run_Seq. rewrite run_digits by assumption.
    rewrite run_digits_fails by (simpl; now apply isSpace_not_digit).
    simpl rev. now destruct (run tail _ cs k).
Qed.

(** The pattern matches twelve digits in groups of four that start at a
    word boundary and end at one. *)
Lemma run_groupedPattern k a g1 b g2 c bef post cs :
  digits a -> length a = 4 -> gap g1 -> digits b -> length b = 4 ->
  gap g2 -> digits c -> length c = 4 ->
  notWordFirst bef -> notWordFirst post ->
  run groupedPattern (Cursor bef (a ++ g1 ++ b ++ g2 ++ c ++ post)) cs k
  = k (Cursor (rev c ++ rev g2 ++ rev b ++ rev g1 ++ rev a ++ bef) post) cs.
Proof.
  intros Ha La Hg1 Hb Lb Hg2 Hc Lc Hbef Hpost.
  unfold groupedPattern.
  change (conc [bnd; times 4 dig; opt spc; times 4 dig; opt spc; times 4 dig; bnd])
    with (Seq bnd (Seq (times 4 dig)
            (Seq (opt spc) (Seq (times 4 dig)
               (Seq (opt spc) (Seq (times 4 dig) bnd)))))).
  rewrite run_Seq, run_bnd.
  assert (Wb : wordBefore (Cursor bef (a ++ g1 ++ b ++ g2 ++ c ++ post)) = false).
  { unfold wordBefore. simpl. destruct bef; [reflexivity | exact Hbef]. }
  assert (Wa : wordAfter (Cursor bef (a ++ g1 ++ b ++ g2 ++ c ++ post)) = true).
  { unfold wordAfter. simpl. destruct a as [|a1 a]; [discriminate|].
    inversion Ha; subst. now apply isDigit_isWord. }
  rewrite Wb, Wa. simpl xorb. cbv iota.
  rewrite run_Seq, run_digits by assumption.
  rewrite !run_gap_digits by assumption.
  rewrite run_bnd.
  assert (Wb' : forall l, wordBefore (Cursor (rev c ++ l) post) = true).
  { intros l. unfold wordBefore. simpl.
    destruct c as [|c1 [|c2 [|c3 [|c4 [|]]]]]; try discriminate.
    unfold digits in Hc.
    repeat match goal with
           | H : Forall _ (_ :: _) |- _ => inversion H; clear H; subst
           end.
    simpl. now apply isDigit_isWord. }
  assert (Wa' : forall l, wordAfter (Cursor l post) = false).
  { intros l. unfold wordAfter. simpl. destruct post; [reflexivity | exact Hpost]. }
  now rewrite Wb', Wa'.
Qed.
End GroupedPattern.

(** ** Searching for the ID pattern *)

Lemma searchFrom_eq r bef aft :
  searchFrom r bef aft
  = match matchAt r (Cursor bef aft) with
    | Some m => Some m
    | None => match aft with
              | [] => None
              | c :: aft' => searchFrom r (c :: bef) aft'
              end
    end.
Proof. destruct aft; reflexivity. Qed.

Lemma matchG_head r s m :
  searchFrom r [] s = Some m -> exists tl, matchG r s = whole m :: tl.
Proof.
  intros H. unfold matchG, matchAll. simpl scanFrom. rewrite H.
  eexists. reflexivity.
Qed.

Lemma searchFrom_skip r pre : forall bef aft,
  startsWithDigit r -> noDigit pre ->
  searchFrom r bef (pre ++ aft) = searchFrom r (rev pre ++ bef) aft.
Proof.
  induction pre as [|x pre IH]; intros bef aft Hr H; [reflexivity|].
  inversion H as [|? ? Hx Hpre]; subst.
  rewrite searchFrom_eq. simpl app.
  rewrite (Hr _ _ _ Hx), IH by assumption.
  simpl rev. now rewrite <- app_assoc.
Qed.

Lemma matchAt_groupedPattern a g1 b g2 c bef post :
  digits a -> length a = 4 -> gap g1 -> digits b -> length b = 4 ->
  gap g2 -> digits c -> length c = 4 ->
  notWordFirst bef -> notWordFirst post ->
  exists q, matchAt groupedPattern (Cursor bef (a ++ g1 ++ b ++ g2 ++ c ++ post))
            = Some (RMatch (a ++ g1 ++ b ++ g2 ++ c) [] q).
Proof.
  intros. unfold matchAt. rewrite run_groupedPattern by assumption.
  eexists. f_equal. f_equal. unfold consumed. simpl after.
  replace (a ++ g1 ++ b ++ g2 ++ c ++ post)
    with ((a ++ g1 ++ b ++ g2 ++ c) ++ post)
    by (now rewrite <- !app_assoc).
  apply firstn_consumed.
Qed.

Lemma groupedPattern_startsWithDigit : startsWithDigit groupedPattern.
Proof.
  intros bef x aft H. unfold matchAt, groupedPattern.
  change (conc [bnd; times 4 dig; opt spc; times 4 dig; opt spc; times 4 dig; bnd])
    with (Seq bnd (Seq (times 4 dig)
            (Seq (opt spc) (Seq (times 4 dig)
               (Seq (opt spc) (Seq (times 4 dig) bnd)))))).
  rewrite run_Seq, run_bnd. destruct (xorb _ _); [|reflexivity].
  rewrite run_Seq. now apply run_digits_fails.
Qed.

Section AadhaarInText.
Context {host : Host}.

(** The ID in groups of four, the first digits of the text and delimited
    by non-word characters, is the first candidate and matches exactly. *)
Lemma findAadhaarInText_grouped aadhaarInput pre a g1 b g2 c post :
  extractDigits aadhaarInput = a ++ b ++ c ->
  digits a -> length a = 4 -> gap g1 -> digits b -> length b = 4 ->
  gap g2 -> digits c -> length c = 4 ->
  noDigit pre -> notWordFirst (rev pre) -> notWordFirst post ->
  findAadhaarInText aadhaarInput (pre ++ a ++ g1 ++ b ++ g2 ++ c ++ post)
  = Result true 1 (Some (a ++ g1 ++ b ++ g2 ++ c)).
Proof.
  intros Hin Ha La Hg1 Hb Lb Hg2 Hc Lc Hpre Hbef Hpost.
  destruct (matchAt_groupedPattern (rev pre ++ []) post
              Ha La Hg1 Hb Lb Hg2 Hc Lc) as (q & Hq);
    [now rewrite app_nil_r | assumption |].
  assert (Hs : searchFrom groupedPattern []
                 (pre ++ a ++ g1 ++ b ++ g2 ++ c ++ post)
               = Some (RMatch (a ++ g1 ++ b ++ g2 ++ c) [] q)).
  { rewrite searchFrom_skip
      by (assumption || apply groupedPattern_startsWithDigit).
    rewrite searchFrom_eq. now rewrite Hq. }
  destruct (matchG_head _ _ Hs) as (tl & Htl).
  unfold findAadhaarInText, aadhaarPatterns. fold groupedPattern.
  simpl firstReturn. rewrite Htl. simpl whole. simpl firstReturn.
  rewrite aadhaarCandidate_exact; [reflexivity|].
  rewrite !extractDigits_app, (extractDigits_digits Ha),
    (extractDigits_digits Hb), (extractDigits_digits Hc),
    (extractDigits_gap Hg1), (extractDigits_gap Hg2).
  now rewrite Hin.
Qed.

(** A candidate with the digits of the ID decides with confidence 1
    when every candidate before it is rejected. *)
Lemma findAadhaarInText_exact aadhaarInput documentText pre m post :
  aadhaarCandidates documentText = pre ++ m :: post ->
  extractDigits m = extractDigits aadhaarInput ->
  (forall c, In c pre ->
     extractDigits c <> extractDigits aadhaarInput
     /\ (getSimilarity (extractDigits aadhaarInput) (extractDigits c) < 9 # 10)%Q) ->
  findAadhaarInText aadhaarInput documentText = Result true 1 (Some m).
Proof.
  intros Hc Hm Hpre. rewrite findAadhaarInText_candidates, Hc.
  rewrite (firstReturn_first _ pre m post (r := Result true 1 (Some m)));
    [reflexivity | | now apply aadhaarCandidate_exact].
  intros c Hin. destruct (Hpre c Hin). now apply aadhaarCandidate_skips.
Qed.
End AadhaarInText.

(** C1.  The twelve digits of the declared ID appear verbatim in the OCR
    text, in groups of four, and the ID matcher does not return them.  They
    follow another group of four digits, a year here: the scan of
    [/\b\d{4}\s?\d{4}\s?\d{4}\b/g] takes the first twelve digits that it
    meets, "1995 1234 5678", and goes on after them, where fewer than twelve
    digits are left; [/\b\d{12}\b/g] matches no digits with spaces between
    them.  The one candidate has other digits than the ID: whatever the
    similarity, the declared number is not extracted, and with the
    similarity of [string-similarity] (14/22, below 0.9) the result is
    [found = false] with confidence 0.  The same holds after "0000". *)
Theorem aadhaar_after_four_digits :
  includes (js "1995 1234 5678 9012") (js "1234 5678 9012") = true
  /\ aadhaarCandidates (js "1995 1234 5678 9012") = [js "1995 1234 5678"]
  /\ (forall host : Host,
        let r := findAadhaarInText (js "123456789012") (js "1995 1234 5678 9012") in
        r = notFound \/ extracted r = Some (js "1995 1234 5678"))
  /\ getSimilarity (host := unitHost) (js "123456789012") (js "199512345678")
     = (14 # 22)%Q
  /\ findAadhaarInText (host := unitHost)
       (js "123456789012") (js "1995 1234 5678 9012") = notFound
  /\ includes (js "0000 1234 5678 9012") (js "1234 5678 9012") = true
  /\ aadhaarCandidates (js "0000 1234 5678 9012") = [js "0000 1234 5678"]
  /\ findAadhaarInText (host := unitHost)
       (js "123456789012") (js "0000 1234 5678 9012") = notFound.
Proof.
  split; [reflexivity|]. split; [reflexivity|]. split.
  - intros host r. subst r. rewrite findAadhaarInText_candidates.
    change (aadhaarCandidates (js "1995 1234 5678 9012"))
      with [js "1995 1234 5678"].
    cbn [firstReturn]. unfold aadhaarCandidate.
    change (str_eqb (extractDigits (js "1995 1234 5678"))
                    (extractDigits (js "123456789012"))) with false.
    cbv iota. destruct (geq _ _); [right | left]; reflexivity.
  - repeat split; vm_compute; reflexivity.
Qed.

(** A candidate that differs from the ID in one digit comes first: it is
    returned, at confidence 10/11, and the exact match is never reached. *)
Example aadhaar_first_candidate_wins :
  findAadhaarInText (js "123456789012") (js "1234 5678 9013 1234 5678 9012")
  = Result true (20 # 22) (Some (js "1234 5678 9013")).
Proof. vm_compute. reflexivity. Qed.

(** ** The name matcher *)

Lemma startsWith_app sub t : startsWith (sub ++ t) sub = true.
Proof.
  induction sub as [|c sub IH]; simpl; [apply startsWith_nil|].
  now rewrite N.eqb_refl, IH.
Qed.

Lemma includes_startsWith s sub : startsWith s sub = true -> includes s sub = true.
Proof. intros H. destruct s; cbn [includes]; now rewrite H. Qed.

Lemma includes_app pre sub post : includes (pre ++ sub ++ post) sub = true.
Proof.
  induction pre as [|c pre IH].
  - change ([] ++ sub ++ post) with (sub ++ post).
    apply includes_startsWith, startsWith_app.
  - simpl app. cbn [includes]. rewrite IH. apply orb_true_r.
Qed.

Lemma collapseFrom_app u c v : forall inRun,
  isSpace c = false ->
  collapseFrom inRun (u ++ c :: v)
  = collapseFrom inRun u ++ c :: collapseFrom false v.
Proof.
  induction u as [|x u IH]; intros inRun H; simpl.
  - now rewrite H.
  - destruct (isSpace x); [destruct inRun|]; simpl; now rewrite IH.
Qed.

Lemma trimStart_app u c v :
  isSpace c = false -> exists u', trimStart (u ++ c :: v) = u' ++ c :: v.
Proof.
  intros H. induction u as [|x u IH]; simpl.
  - exists []. now rewrite H.
  - destruct (isSpace x); [exact IH|]. now exists (x :: u).
Qed.

Lemma trimEnd_app u c v :
  isSpace c = false -> exists v', trimEnd (u ++ c :: v) = u ++ c :: v'.
Proof.
  intros H. induction u as [|x u (v' & IH)].
  - exists (trimEnd v). simpl. rewrite H. now destruct (trimEnd v).
  - exists v'. simpl. rewrite IH. now destruct u.
Qed.

(** Trimming keeps what lies between two code units that are not white. *)
Lemma trim_app u c mid e v :
  isSpace c = false -> isSpace e = false ->
  exists u' v', trim (u ++ c :: mid ++ e :: v) = u' ++ c :: mid ++ e :: v'.
Proof.
  intros Hc He. unfold trim.
  destruct (@trimStart_app u c (mid ++ e :: v) Hc) as (u' & ->).
  replace (u' ++ c :: mid ++ e :: v) with ((u' ++ c :: mid) ++ e :: v)
    by (now rewrite <- app_assoc).
  destruct (@trimEnd_app (u' ++ c :: mid) e v He) as (v' & ->).
  exists u', v'. now rewrite <- app_assoc.
Qed.

Lemma includes_trim u c mid e v :
  isSpace c = false -> isSpace e = false ->
  includes (trim (u ++ c :: mid ++ e :: v)) (c :: mid ++ [e]) = true.
Proof.
  intros Hc He. destruct (@trim_app u c mid e v Hc He) as (u' & v' & ->).
  replace (u' ++ c :: mid ++ e :: v') with (u' ++ (c :: mid ++ [e]) ++ v')
    by (simpl; now rewrite <- app_assoc).
  apply includes_app.
Qed.

Section Name.
Context {host : Host}.

(** The text [ASHA VERMA], wherever it stands in the document, is the
    text [asha verma] of the normalized document. *)
Lemma normalizeText_asha_verma pre post :
  includes (normalizeText (pre ++ js "ASHA VERMA" ++ post)) (js "asha verma")
  = true.
Proof.
  rewrite normalizeText_units. unfold lowerUnits, removePunctuation.
  rewrite !flat_map_app, !filter_app.
  set (P := filter _ (flat_map lowerUnit pre)).
  set (Q := filter _ (flat_map lowerUnit post)).
  change (filter _ (flat_map lowerUnit (js "ASHA VERMA")))
    with (97%N :: js "sha verma").
  unfold collapseSpaces. simpl app.
  rewrite collapseFrom_app by reflexivity.
  exact (@includes_trim (collapseFrom false P) 97%N (js "sha verm") 97%N
                        (collapseFrom false Q) eq_refl eq_refl).
Qed.

Lemma normalizeText_Asha_Verma : normalizeText (js "Asha Verma") = js "asha verma".
Proof. rewrite normalizeText_units. reflexivity. Qed.

Lemma findNameInText_direct name documentText threshold :
  (exists part,
      In part (split space (normalizeText name)) /\ 1 < length part) ->
  includes (normalizeText documentText) (normalizeText name) = true ->
  findNameInText name documentText threshold = Result true 1 (Some name).
Proof.
  intros (part & Hin & Hlen) Hinc. unfold findNameInText.
  match goal with
  | |- context [filter ?f (split space (normalizeText name))] =>
      assert (H : In part (filter f (split space (normalizeText name))))
        by (apply filter_In; split; [assumption | now apply Nat.ltb_lt]);
      destruct (filter f (split space (normalizeText name))) as [|x parts]
  end.
  - destruct H.
  - simpl length. simpl Nat.eqb. cbv iota. now rewrite Hinc.
Qed.
End Name.

(** C5, as the code has it.  For every declared name with at least one
    token of more than one character once normalized, and every OCR text
    whose normalization contains the normalized name as a contiguous
    substring, the name matcher returns [found = true] with confidence 1.0;
    in particular for the declared name "Asha Verma" against any OCR text
    that contains "ASHA VERMA" verbatim. *)
Theorem name_direct_match {host : Host} :
  (forall name documentText threshold,
     (exists part,
         In part (split space (normalizeText name)) /\ 1 < length part) ->
     includes (normalizeText documentText) (normalizeText name) = true ->
     findNameInText name documentText threshold = Result true 1 (Some name))
  /\ (forall pre post threshold,
        findNameInText (js "Asha Verma") (pre ++ js "ASHA VERMA" ++ post) threshold
        = Result true 1 (Some (js "Asha Verma"))).
Proof.
  split.
  - intros. now apply findNameInText_direct.
  - intros pre post threshold. apply findNameInText_direct.
    + rewrite normalizeText_Asha_Verma. exists (js "asha").
      split; [left; reflexivity | simpl; lia].
    + rewrite normalizeText_Asha_Verma. apply normalizeText_asha_verma.
Qed.

Lemma name_direct_match_witness :
  findNameInText (js "Asha Verma") (js "Name: ASHA VERMA") defaultThreshold
  = Result true 1 (Some (js "Asha Verma")).
Proof.
  apply (proj1 name_direct_match).
  - exists (js "asha"). split; [left; reflexivity | simpl; lia].
  - reflexivity.
Defined.

(** A name of initials has no token of more than one character: the guard
    on [nameParts] returns before the substring test. *)
Lemma name_direct_match_counterexample :
  includes (normalizeText (js "Name: R K")) (normalizeText (js "R K")) = true
  /\ findNameInText (js "R K") (js "Name: R K") defaultThreshold = notFound.
Proof. vm_compute. split; reflexivity. Qed.

(** ** The phone matcher *)

Lemma mobileFirst_isDigit x : mobileFirst x = true -> isDigit x = true.
Proof. unfold mobileFirst. change (chr "6") with 54%N. change (chr "9") with 57%N.
  intros H. classes. Qed.

Lemma run_Bracket (R : Type) (k : cont R) items x bef rest cs :
  run (Bracket items) (Cursor bef (x :: rest)) cs k
  = if existsb (inItem x) items then k (Cursor (x :: bef) rest) cs else None.
Proof. reflexivity. Qed.

Lemma run_mobilePattern (R : Type) (k : cont R) x tl bef post cs :
  mobileFirst x = true -> digits tl -> length tl = 9 ->
  notWordFirst bef -> notWordFirst post ->
  run mobilePattern (Cursor bef (x :: tl ++ post)) cs k
  = k (Cursor (rev tl ++ x :: bef) post) cs.
Proof.
  intros Hx Htl Ltl Hbef Hpost. unfold mobilePattern.
  change (conc [bnd; Bracket [Span (chr "6") (chr "9")]; times 9 dig; bnd])
    with (Seq bnd (Seq (Bracket [Span (chr "6") (chr "9")])
                       (Seq (times 9 dig) bnd))).
  pose proof (isDigit_isWord _ (mobileFirst_isDigit _ Hx)) as Wx.
  rewrite run_Seq, run_bnd.
  assert (Wb : wordBefore (Cursor bef (x :: tl ++ post)) = false).
  { unfold wordBefore. simpl. destruct bef; [reflexivity | exact Hbef]. }
  unfold wordAfter at 1. simpl after. rewrite Wb, Wx. simpl xorb. cbv iota.
  rewrite run_Seq, run_Bracket. unfold mobileFirst in Hx.
  simpl existsb. rewrite Hx. simpl orb. cbv iota.
  rewrite run_Seq, run_digits by assumption.
  rewrite run_bnd.
  assert (Wb' : wordBefore (Cursor (rev tl ++ x :: bef) post) = true).
  { unfold wordBefore. simpl. destruct (rev tl) as [|y l] eqn:E; simpl; [exact Wx|].
    apply isDigit_isWord.
    assert (Hy : In y (rev tl)) by (rewrite E; now left).
    apply in_rev in Hy. unfold digits in Htl. rewrite Forall_forall in Htl. auto. }
  assert (Wa' : wordAfter (Cursor (rev tl ++ x :: bef) post) = false).
  { unfold wordAfter. simpl. destruct post; [reflexivity | exact Hpost]. }
  now rewrite Wb', Wa'.
Qed.

Lemma mobilePattern_startsWithDigit : startsWithDigit mobilePattern.
Proof.
  intros bef x aft H. unfold matchAt, mobilePattern.
  change (conc [bnd; Bracket [Span (chr "6") (chr "9")]; times 9 dig; bnd])
    with (Seq bnd (Seq (Bracket [Span (chr "6") (chr "9")])
                       (Seq (times 9 dig) bnd))).
  rewrite run_Seq, run_bnd. destruct (xorb _ _); [|reflexivity].
  rewrite run_Seq, run_Bracket. simpl existsb.
  destruct (between (chr "6") (chr "9") x) eqn:E; [|reflexivity].
  apply mobileFirst_isDigit in E. congruence.
Qed.

Lemma slice_last_all n (s : str) : length s = n -> slice_last n s = s.
Proof. intros <-. unfold slice_last. now rewrite Nat.sub_diag. Qed.

Section Phone.
Context {host : Host}.

Lemma findPhoneInText_candidates phoneInput documentText :
  findPhoneInText phoneInput documentText
  = orElse (firstReturn
              (phoneCandidate (slice_last 10 (extractDigits phoneInput)))
              (phoneCandidates documentText))
           notFound.
Proof. unfold findPhoneInText. now rewrite firstReturn_flat_map. Qed.

Lemma phoneCandidate_exact last10Digits c :
  slice_last 10 (extractDigits c) = last10Digits ->
  phoneCandidate last10Digits c = Some (Result true 1 (Some c)).
Proof. intros E. unfold phoneCandidate. now rewrite E, str_eqb_refl. Qed.

Lemma phoneCandidate_skips last10Digits c :
  slice_last 10 (extractDigits c) <> last10Digits ->
  (getSimilarity last10Digits (slice_last 10 (extractDigits c)) < 8 # 10)%Q ->
  phoneCandidate last10Digits c = None.
Proof.
  intros Hne Hsim. unfold phoneCandidate.
  destruct (str_eqb _ last10Digits) eqn:E.
  - apply str_eqb_eq in E. contradiction.
  - apply geq_false_iff in Hsim. now rewrite Hsim.
Qed.

Lemma findPhoneInText_exact phoneInput documentText pre c post :
  phoneCandidates documentText = pre ++ c :: post ->
  slice_last 10 (extractDigits c) = slice_last 10 (extractDigits phoneInput) ->
  (forall e, In e pre ->
     slice_last 10 (extractDigits e) <> slice_last 10 (extractDigits phoneInput)
     /\ (getSimilarity (slice_last 10 (extractDigits phoneInput))
                       (slice_last 10 (extractDigits e)) < 8 # 10)%Q) ->
  findPhoneInText phoneInput documentText = Result true 1 (Some c).
Proof.
  intros Hc Hm Hpre. rewrite findPhoneInText_candidates, Hc.
  rewrite (firstReturn_first _ pre c post (r := Result true 1 (Some c)));
    [reflexivity | | now apply phoneCandidate_exact].
  intros e Hin. destruct (Hpre e Hin). now apply phoneCandidate_skips.
Qed.

(** A mobile number of ten digits, the first digits of the text and
    delimited by non-word characters, is the first candidate. *)
Lemma findPhoneInText_mobile phoneInput pre x tl post :
  slice_last 10 (extractDigits phoneInput) = x :: tl ->
  mobileFirst x = true -> digits tl -> length tl = 9 ->
  noDigit pre -> notWordFirst (rev pre) -> notWordFirst post ->
  findPhoneInText phoneInput (pre ++ (x :: tl) ++ post)
  = Result true 1 (Some (x :: tl)).
Proof.
  intros Hin Hx Htl Ltl Hpre Hbef Hpost.
  assert (Hs : exists q, searchFrom mobilePattern [] (pre ++ (x :: tl) ++ post)
                         = Some (RMatch (x :: tl) [] q)).
  { rewrite searchFrom_skip by (assumption || apply mobilePattern_startsWithDigit).
    rewrite searchFrom_eq. unfold matchAt. simpl app.
    rewrite run_mobilePattern by (rewrite ?app_nil_r; assumption).
    eexists. f_equal. f_equal. unfold consumed. simpl after.
    change (x :: tl ++ post) with ((x :: tl) ++ post). apply firstn_consumed. }
  destruct Hs as (q & Hs). destruct (matchG_head _ _ Hs) as (rest & Hrest).
  unfold findPhoneInText, phonePatterns. fold mobilePattern.
  cbn [firstReturn]. rewrite Hrest. cbn [firstReturn whole].
  rewrite phoneCandidate_exact; [reflexivity|].
  rewrite Hin, extractDigits_digits.
  - apply slice_last_all. simpl. now rewrite Ltl.
  - constructor; [now apply mobileFirst_isDigit | assumption].
Qed.
End Phone.

(** ** The date matcher *)

Lemma parseInput_throws {host : Host} separator input e :
  Components.parseInput separator input = Throw e -> e = SyntaxError.
Proof.
  unfold Components.parseInput.
  destruct (test _ _ && test _ _); [discriminate|].
  destruct (match1 _ input); [discriminate|].
  unfold literal. destruct (wellFormed _); simpl.
  - destruct (match1 _ input); [discriminate|].
    destruct (match1 _ input); discriminate.
  - congruence.
Qed.

(** By components, the function never returns: its array [patterns] holds a
    literal whose class [[\/-\.]] is a range out of order. *)
Lemma findDateInText_by_components_throws {host : Host} dateInput documentText :
  Components.findDateInText dateInput documentText = Throw SyntaxError.
Proof.
  unfold Components.findDateInText, Components.findDateInTextWith.
  destruct (Components.parseInput _ dateInput) as [input|e] eqn:E; simpl.
  - reflexivity.
  - now rewrite (parseInput_throws _ _ E).
Qed.

(** C7. For the declared date of birth "1995-07-14" and the OCR text
    "14 Jul 1995" the date matcher does not return [found = true]: the
    day-month-year pattern finds the date, but the text that is compared is
    [match[1] || match[0]], here the month name "Jul", which holds no digit.
    [findDateInText] by digits returns [found = false] with confidence 0.
    [findDateInText] by components throws on every call, and returns
    [found = false] too when its separator class is read as [[\/\-\.]]. *)
Theorem date_month_name_text :
  map whole (matchAll (nth 1 datePatterns Eps) (js "14 Jul 1995")) = [js "14 Jul 1995"]
  /\ map groupOrWhole (matchAll (nth 1 datePatterns Eps) (js "14 Jul 1995")) = [js "Jul"]
  /\ findDateInText (js "1995-07-14") (js "14 Jul 1995") = notFound
  /\ Components.parseInput dateSeparator (js "1995-07-14")
     = Ok (Components.Parts (Some 14%N) (Some 7%N) (Some 1995%N))
  /\ Components.parseMatch dateSeparator (js "Jul")
     = Ok (Components.Parts None None None)
  /\ Components.findDateInTextWith dateSeparator (js "1995-07-14") (js "14 Jul 1995")
     = Ok notFound
  /\ forall dateInput documentText,
       Components.findDateInText dateInput documentText = Throw SyntaxError.
Proof.
  repeat split; try (vm_compute; reflexivity).
  apply findDateInText_by_components_throws.
Qed.

(** ** [validateDocumentData] *)

Lemma forEach_progress l : forall w,
  exists v,
    forEach l (fun p => updateDocumentValidation (withProgress p)) w
    = (Ok tt, World v (trace w)).
Proof.
  induction l as [|p l IH]; intros w.
  - exists (documentValidation w). now destruct w.
  - destruct (IH (World (withProgress p (documentValidation w)) (trace w)))
      as (v & Hv).
    exists v. cbn [forEach]. unfold mbind. exact Hv.
Qed.

Lemma recognize_run file w :
  exists v,
    recognize file w = (recognized file, World v (Called Recognize :: trace w)).
Proof.
  unfold recognize, mbind, call. simpl.
  destruct (forEach_progress (recognitionProgress file)
              (World (documentValidation w) (Called Recognize :: trace w)))
    as (v & ->).
  now exists v.
Qed.

Lemma bind_run {A B : Type} (c : M A) (k : A -> M B) w a w' :
  c w = (Ok a, w') -> mbind c k w = k a w'.
Proof. intros H. unfold mbind. now rewrite H. Qed.

Ltac run_step := erewrite bind_run by reflexivity.

Section Orchestrator.
Context {host : Host}.
Variable findDate : str -> str -> outcome MatchResult.

(** The run that stops at the classifier. *)
Lemma validateDocumentData_rejected data file w result :
  startsWith (fileType file) (js "image/") = true ->
  recognized file = Ok result ->
  isAadhaar (isAadhaarDocument (orElse result [])) = false ->
  validateDocumentData findDate data file w
  = (Ok tt,
     World (failure "documentType"
                    (classConfidence (isAadhaarDocument (orElse result [])))
                    "Document does not appear to be an Aadhaar card"
                    (Some (orElse result [])))
           (Toast "Invalid Document" :: Called IsAadhaarDocument
              :: Called Recognize :: trace w)).
Proof.
  intros Himg Hocr Hcls.
  unfold validateDocumentData. run_step. unfold tryCatch.
  rewrite Himg. change (negb true) with false. cbv iota.
  match goal with
  | |- context [mbind (recognize file) _ ?w0] =>
      destruct (recognize_run file w0) as (v & Hv)
  end.
  rewrite Hocr in Hv. simpl trace in Hv. erewrite bind_run by exact Hv.
  do 2 run_step. rewrite Hcls. change (negb false) with true. cbv iota.
  run_step. reflexivity.
Qed.

(** The run that reaches the four matchers. *)
Lemma validateDocumentData_matched data file w result dobResult :
  startsWith (fileType file) (js "image/") = true ->
  recognized file = Ok result ->
  isAadhaar (isAadhaarDocument (orElse result [])) = true ->
  findDate (dateOfBirth data) (orElse result []) = Ok dobResult ->
  let rawText := orElse result [] in
  let nameResult := findNameInText (name data) rawText defaultThreshold in
  let aadhaarResult := findAadhaarInText (idNumber data) rawText in
  let phoneResult := findPhoneInText (emergencyContact data) rawText in
  let results := fieldValidations nameResult aadhaarResult dobResult phoneResult in
  exists events,
    validateDocumentData findDate data file w
    = (Ok tt,
       World (Validation (overallStatus results)
                (Some (Extracted (extracted nameResult) (extracted aadhaarResult)
                                 (extracted dobResult) (extracted phoneResult)))
                (Some results) (Some rawText) None)
             (events ++ trace w)).
Proof.
  intros Himg Hocr Hcls Hdob. cbv zeta.
  unfold validateDocumentData. run_step. unfold tryCatch.
  rewrite Himg. change (negb true) with false. cbv iota.
  match goal with
  | |- context [mbind (recognize file) _ ?w0] =>
      destruct (recognize_run file w0) as (v & Hv)
  end.
  rewrite Hocr in Hv. simpl trace in Hv. erewrite bind_run by exact Hv.
  do 2 run_step. rewrite Hcls. change (negb true) with false. cbv iota.
  do 2 run_step.
  erewrite bind_run by (unfold call; rewrite Hdob; reflexivity).
  do 2 run_step.
  eexists (_ :: _ :: _ :: _ :: _ :: _ :: [_]). reflexivity.
Qed.
End Orchestrator.

(** C3. Whenever the document classifier reports [isAadhaar = false] for
    the OCR text, [validateDocumentData] ends with the status [invalid],
    carrying the single entry [documentType] of the failed classification,
    and calls none of the four field matchers: after Tesseract it calls
    [isAadhaarDocument] only, and what it does is the same whatever the
    declared fields and whatever [findDateInText] is. *)
Theorem classification_short_circuit {host : Host}
        (findDate : str -> str -> outcome MatchResult)
        (data : FormData) (file : File) (w : world) (result : option str) :
  startsWith (fileType file) (js "image/") = true ->
  recognized file = Ok result ->
  isAadhaar (isAadhaarDocument (orElse result [])) = false ->
  let rawText := orElse result [] in
  let w' := snd (validateDocumentData findDate data file w) in
  fst (validateDocumentData findDate data file w) = Ok tt
  /\ status (documentValidation w') = invalid
  /\ validationResults (documentValidation w')
     = Some [(js "documentType",
              Field false (classConfidence (isAadhaarDocument rawText))
                    (Text "Document does not appear to be an Aadhaar card") err)]
  /\ trace w'
     = Toast "Invalid Document" :: Called IsAadhaarDocument :: Called Recognize
         :: trace w
  /\ (forall matcher,
        In matcher [FindNameInText; FindAadhaarInText; FindDateInText;
                    FindPhoneInText] ->
        ~ In (Called matcher) (firstn 3 (trace w')))
  /\ forall findDate' data',
       validateDocumentData findDate' data' file w
       = validateDocumentData findDate data file w.
Proof.
  intros Himg Hocr Hcls rawText w'. subst w'.
  rewrite (validateDocumentData_rejected findDate data file w Himg Hocr Hcls).
  simpl. do 4 (split; [reflexivity|]). split.
  - intros matcher Hm [H|[H|[H|[]]]]; try discriminate H;
      injection H as <-; simpl in Hm; intuition discriminate.
  - intros findDate' data'.
    apply (validateDocumentData_rejected findDate' data' file w Himg Hocr Hcls).
Qed.

Lemma classification_short_circuit_witness :
  status (documentValidation
            (snd (validateDocumentData byDigits sampleData
                    (Upload (js "image/png") [50%Z; 100%Z] (Ok (Some (js "Hello"))))
                    initially)))
  = invalid.
Proof.
  apply (classification_short_circuit byDigits sampleData
           (Upload (js "image/png") [50%Z; 100%Z] (Ok (Some (js "Hello"))))
           initially (result := Some (js "Hello")));
    reflexivity.
Defined.

(** ** The overall status *)

Lemma geq_cases a c : {geq a c = true /\ (c <= a)%Q} + {geq a c = false /\ (a < c)%Q}.
Proof.
  destruct (geq a c) eqn:E; [left | right]; split; try reflexivity.
  - now apply geq_iff.
  - now apply geq_false_iff.
Qed.

(** C2, as the code has it.  The overall status set by
    [validateDocumentData] is [invalid] if a critical field (name,
    idNumber) reports [found = false]; otherwise it is [warning] if the date
    of birth or the phone reports [found = false], or the name is found
    with a confidence below 0.8, the ID number with one below 0.9, or the
    date of birth with one below 0.7; otherwise it is [valid].  A phone
    that is found never lowers the status, whatever its confidence. *)
Theorem overall_status_aggregation {host : Host} :
  (forall findDate data file w result dobResult,
     startsWith (fileType file) (js "image/") = true ->
     recognized file = Ok result ->
     isAadhaar (isAadhaarDocument (orElse result [])) = true ->
     findDate (dateOfBirth data) (orElse result []) = Ok dobResult ->
     status (documentValidation (snd (validateDocumentData findDate data file w)))
     = overallStatus
         (fieldValidations
            (findNameInText (name data) (orElse result []) defaultThreshold)
            (findAadhaarInText (idNumber data) (orElse result []))
            dobResult
            (findPhoneInText (emergencyContact data) (orElse result []))))
  /\ forall nameResult aadhaarResult dobResult phoneResult,
       let overall :=
         overallStatus
           (fieldValidations nameResult aadhaarResult dobResult phoneResult) in
       (found nameResult = false \/ found aadhaarResult = false ->
        overall = invalid)
       /\ (found nameResult = true -> found aadhaarResult = true ->
           found dobResult = false \/ found phoneResult = false
           \/ (confidence nameResult < 8 # 10)%Q
           \/ (confidence aadhaarResult < 9 # 10)%Q
           \/ (confidence dobResult < 7 # 10)%Q ->
           overall = warning)
       /\ (found nameResult = true -> found aadhaarResult = true ->
           found dobResult = true -> found phoneResult = true ->
           (8 # 10 <= confidence nameResult)%Q ->
           (9 # 10 <= confidence aadhaarResult)%Q ->
           (7 # 10 <= confidence dobResult)%Q ->
           overall = valid).
Proof.
  split.
  - intros findDate data file w result dobResult Himg Hocr Hcls Hdob.
    destruct (validateDocumentData_matched findDate data file w
                Himg Hocr Hcls Hdob) as (events & ->).
    reflexivity.
  - intros [f1 c1 e1] [f2 c2 e2] [f3 c3 e3] [f4 c4 e4] overall. subst overall.
    unfold overallStatus, fieldValidations, criticalFields. simpl.
    destruct (geq_cases c1 (8 # 10)) as [[-> G1]|[-> G1]];
      destruct (geq_cases c2 (9 # 10)) as [[-> G2]|[-> G2]];
      destruct (geq_cases c3 (7 # 10)) as [[-> G3]|[-> G3]];
      destruct f1, f2, f3, f4; simpl;
      (split; [|split]);
      try reflexivity;
      try (intros; reflexivity);
      intros;
      repeat match goal with
             | H : _ \/ _ |- _ => destruct H
             | H : true = false |- _ => discriminate H
             | H : false = true |- _ => discriminate H
             | H1 : (?a < ?c)%Q, H2 : (?c <= ?a)%Q |- _ =>
                 exfalso; exact (Qlt_not_le _ _ H1 H2)
             end.
Qed.

Lemma overall_status_aggregation_witness :
  overallStatus
    (fieldValidations (Result true 1 None) (Result true 1 None)
                      (Result false 0 None) (Result true 1 None))
  = warning.
Proof.
  apply (proj2 overall_status_aggregation
               (Result true 1 None) (Result true 1 None)
               (Result false 0 None) (Result true 1 None)).
  - reflexivity.
  - reflexivity.
  - left. reflexivity.
Defined.

(** The phone is found by similarity, at confidence 8/9: its entry is a
    success and the document is [valid], where the specification words a
    [warning]. *)
Lemma overall_status_aggregation_counterexample :
  let nameResult := findNameInText (name sampleData) sampleText defaultThreshold in
  let aadhaarResult := findAadhaarInText (idNumber sampleData) sampleText in
  let dobResult := findDateInText (dateOfBirth sampleData) sampleText in
  let phoneResult := findPhoneInText (emergencyContact sampleData) sampleText in
  phoneResult = Result true (16 # 18) (Some (js "9876543219"))
  /\ status (documentValidation
               (snd (validateDocumentData byDigits sampleData
                       (Upload (js "image/png") [] (Ok (Some sampleText)))
                       initially)))
     = valid
  /\ overallStatus (fieldValidations nameResult aadhaarResult dobResult phoneResult)
     = valid
  /\ specifiedStatus nameResult aadhaarResult dobResult phoneResult = warning.
Proof. vm_compute. repeat split; reflexivity. Qed.

(** * Further properties *)

(** ** The normal form of [normalizeText] *)

Lemma spaced_chars s : forall prev,
  spaced prev s -> Forall (fun c => lowWord c = true \/ c = space) s.
Proof.
  induction s as [|c s IH]; intros prev H; simpl in H; constructor.
  - destruct (N.eqb_spec c space); [now right | now left].
  - destruct (c =? space)%N; destruct H as [_ H]; eapply IH; eassumption.
Qed.

Lemma startsWith_space_other c s sub :
  c <> space -> startsWith (c :: s) (space :: sub) = false.
Proof.
  intros H. cbn [startsWith].
  destruct (N.eqb_spec space c); [congruence | reflexivity].
Qed.

Lemma spaced_no_leading_space s : spaced true s -> startsWith s [space] = false.
Proof.
  destruct s as [|c s]; [reflexivity|]. intros H.
  apply startsWith_space_other. intros ->. destruct H; discriminate.
Qed.

Lemma spaced_no_double_space s : forall prev,
  spaced prev s -> includes s [space; space] = false.
Proof.
  induction s as [|c s IH]; intros prev H; [reflexivity|].
  cbn [includes].
  assert (T : exists p, spaced p s).
  { simpl in H. destruct (c =? space)%N; destruct H as [_ H]; eauto. }
  destruct T as [p T]. rewrite (IH _ T), orb_false_r.
  destruct (N.eq_dec c space) as [->|Hc].
  - cbn [startsWith]. rewrite N.eqb_refl. cbn [andb].
    apply spaced_no_leading_space. simpl in H. apply H.
  - now apply startsWith_space_other.
Qed.

Lemma trimEnd_snoc_space pre x :
  isSpace x = true -> trimEnd (pre ++ [x]) = trimEnd pre.
Proof.
  intros H. induction pre as [|c pre IH]; simpl; [now rewrite H|].
  now rewrite IH.
Qed.

Lemma trimEnd_length s : length (trimEnd s) <= length s.
Proof.
  induction s as [|c s IH]; simpl; [lia|].
  destruct (trimEnd s); [destruct (isSpace c)|]; simpl in *; lia.
Qed.

Lemma trimEnd_fixed_no_trailing_space s pre x :
  trimEnd s = s -> isSpace x = true -> s <> pre ++ [x].
Proof.
  intros E H ->. rewrite (@trimEnd_snoc_space pre x H) in E.
  pose proof (trimEnd_length pre) as L. rewrite E, length_app in L.
  simpl in L. lia.
Qed.

(** X1. The normalized text is made of lower-case ASCII letters, digits,
    underscores and spaces only; it has no two spaces in a row and no space
    at either end. *)
Theorem normalizeText_normal_form {host : Host} (text : str) :
  let n := normalizeText text in
  Forall (fun c => isLower c = true \/ isDigit c = true \/ c = 95%N \/ c = space) n
  /\ includes n [space; space] = false
  /\ startsWith n [space] = false
  /\ forall pre, n <> pre ++ [space].
Proof.
  intros n. pose proof (normalizeText_spaced text) as S. fold n in S.
  repeat split.
  - eapply Forall_impl; [|exact (spaced_chars _ _ S)].
    intros c [L|E]; [|now repeat right].
    unfold lowWord in L.
    apply orb_true_iff in L. destruct L as [L|L].
    + apply orb_true_iff in L. destruct L; auto.
    + apply N.eqb_eq in L. auto.
  - exact (spaced_no_double_space _ _ S).
  - exact (spaced_no_leading_space _ S).
  - intros pre. apply trimEnd_fixed_no_trailing_space; [|reflexivity].
    subst n. rewrite normalizeText_units. unfold trim. apply trimEnd_idempotent.
Qed.

(** ** Names without a usable token *)

Lemma collapseFrom_spaces s :
  Forall (fun c => isSpace c = true) s ->
  collapseFrom true s = [] /\ trim (collapseFrom false s) = [].
Proof.
  induction 1 as [|c s Hc _ [IH1 IH2]]; simpl; [split; reflexivity|].
  rewrite Hc, IH1. split; reflexivity.
Qed.

Lemma leavesNoWord_kept s :
  Forall leavesNoWord s ->
  Forall (fun c => isSpace c = true) (removePunctuation (lowerUnits s)).
Proof.
  unfold removePunctuation.
  induction 1 as [|c s (W & H1 & H2) _ IH]; simpl; [constructor|].
  rewrite filter_app. apply Forall_app. split; [|exact IH].
  unfold lowerUnit.
  replace (isUpper c) with false
    by (symmetry; unfold isWord in W; apply orb_false_iff in W;
        destruct W as [W _]; apply orb_false_iff in W; destruct W as [W _];
        apply orb_false_iff in W; tauto).
  destruct (N.eqb_spec c 304); [contradiction|].
  destruct (N.eqb_spec c 8490); [contradiction|].
  simpl. rewrite W. simpl. destruct (isSpace c) eqn:Sp; repeat constructor.
  exact Sp.
Qed.

Lemma findNameInText_no_token {host : Host} name documentText threshold :
  (forall part, In part (split space (normalizeText name)) -> length part <= 1) ->
  findNameInText name documentText threshold = notFound.
Proof.
  intros H. unfold findNameInText.
  match goal with
  | |- context [filter ?f (split space (normalizeText name))] =>
      assert (E : filter f (split space (normalizeText name)) = [])
  end.
  { induction (split space (normalizeText name)) as [|part l IH]; [reflexivity|].
    simpl. pose proof (H part (or_introl eq_refl)) as L.
    destruct (Nat.ltb_spec 1 (length part)); [lia|].
    apply IH. intros p Hp. apply H. now right. }
  rewrite E. reflexivity.
Qed.

(** X2. A declared name without a token of more than one character once
    normalized is never found, whatever the document; this is so for every
    name written outside ASCII, such as a name in Devanagari, even when
    the document holds it verbatim. *)
Theorem name_without_token_never_found {host : Host} :
  (forall name documentText threshold,
     (forall part, In part (split space (normalizeText name)) -> length part <= 1) ->
     findNameInText name documentText threshold = notFound)
  /\ (forall name documentText threshold,
        Forall leavesNoWord name ->
        normalizeText name = []
        /\ findNameInText name documentText threshold = notFound).
Proof.
  split; [intros; now apply findNameInText_no_token|].
  intros name documentText threshold H.
  assert (E : normalizeText name = []).
  { rewrite normalizeText_units. unfold collapseSpaces.
    apply collapseFrom_spaces, leavesNoWord_kept, H. }
  split; [exact E|].
  apply findNameInText_no_token. rewrite E. simpl.
  intros part [<-|[]]. simpl. lia.
Qed.

Lemma name_without_token_never_found_witness :
  findNameInText ashaVermaHindi (js "Name: " ++ ashaVermaHindi) defaultThreshold
  = notFound.
Proof.
  apply (proj2 name_without_token_never_found).
  repeat constructor; discriminate.
Defined.

(** ** The matcher stays within its subject *)

Lemma reaches_refl p : reaches p p.
Proof. exists []. split; reflexivity. Qed.

Lemma reaches_trans p q r : reaches p q -> reaches q r -> reaches p r.
Proof.
  intros (s & A & B) (t & C & D). exists (s ++ t). split.
  - rewrite A, C. apply app_assoc.
  - rewrite D, B, rev_app_distr. now rewrite app_assoc.
Qed.

Lemma reaches_next c p rest :
  after p = c :: rest -> reaches p (Cursor (c :: before p) rest).
Proof. intros E. exists [c]. split; [exact E | reflexivity]. Qed.

Lemma reaches_subject p q : reaches p q -> subject q = subject p.
Proof.
  intros (s & A & B). unfold subject.
  rewrite A, B, rev_app_distr, rev_involutive. now rewrite <- app_assoc.
Qed.

Lemma reaches_consumed p q : reaches p q -> occursIn (consumed p q) (subject p).
Proof.
  intros (s & A & B). exists (rev (before p)), (after q).
  unfold subject, consumed. rewrite A, firstn_consumed. reflexivity.
Qed.

Section Soundness.
Variable R : Type.

Lemma iterate_sound (step : cursor -> caps -> cont R -> option R) :
  sound step ->
  forall fuel lo hi, sound (fun p cs k => iterate step k fuel lo hi p cs).
Proof.
  intros Hstep.
  assert (Stop : forall lo p cs (k : cont R) x,
             (if Nat.eqb lo 0 then k p cs else None) = Some x ->
             capsIn (subject p) cs ->
             exists q cs', reaches p q /\ capsIn (subject p) cs' /\ k q cs' = Some x).
  { intros lo p cs k x H C. destruct (Nat.eqb lo 0); [|discriminate].
    exists p, cs. split; [apply reaches_refl | now split]. }
  induction fuel as [|fuel IH]; intros lo hi p cs k x H C.
  - destruct hi as [[|h]|]; exact (Stop _ _ _ _ _ H C).
  - cbn [iterate] in H.
    assert (Go : match step p cs (fun q cs' =>
                     if Nat.ltb 0 lo || advanced p q
                     then iterate step k fuel (pred lo) (predOpt hi) q cs'
                     else None) with
                 | Some x => Some x
                 | None => if Nat.eqb lo 0 then k p cs else None
                 end = Some x ->
                 exists q cs', reaches p q /\ capsIn (subject p) cs'
                               /\ k q cs' = Some x).
    { clear H. destruct (step p cs _) as [z|] eqn:E; [|intros H; exact (Stop _ _ _ _ _ H C)].
      intros [= ->]. destruct (Hstep _ _ _ _ E C) as (q & cs' & Rq & Cq & Hk).
      destruct (Nat.ltb 0 lo || advanced p q); [|discriminate].
      rewrite <- (reaches_subject Rq) in Cq.
      destruct (IH _ _ q cs' k x Hk Cq) as (q' & cs'' & Rq' & Cq' & Hk').
      exists q', cs''. split; [exact (reaches_trans Rq Rq')|].
      split; [now rewrite <- (reaches_subject Rq) | exact Hk']. }
    destruct hi as [[|h]|]; [exact (Stop _ _ _ _ _ H C) | exact (Go H) | exact (Go H)].
Qed.

Lemma run_sound (r : regex) : sound (@run R r).
Proof.
  induction r as [|f|items|a IHa b IHb|a IHa b IHb|a IHa lo hi|n a IHa| | |];
    intros p cs k x H C; cbn [run] in H.
  - exists p, cs. split; [apply reaches_refl | now split].
  - destruct (after p) as [|c rest] eqn:E; [discriminate|].
    destruct (f c); [|discriminate].
    eexists _, cs. split; [exact (reaches_next _ E) | now split].
  - destruct (after p) as [|c rest] eqn:E; [discriminate|].
    destruct (existsb _ items); [|discriminate].
    eexists _, cs. split; [exact (reaches_next _ E) | now split].
  - destruct (IHa _ _ _ _ H C) as (q & cs' & Rq & Cq & Hk).
    rewrite <- (reaches_subject Rq) in Cq.
    destruct (IHb _ _ _ _ Hk Cq) as (q' & cs'' & Rq' & Cq' & Hk').
    exists q', cs''. split; [exact (reaches_trans Rq Rq')|].
    split; [now rewrite <- (reaches_subject Rq) | exact Hk'].
  - destruct (run a p cs k) as [z|] eqn:E.
    + injection H as ->. exact (IHa _ _ _ _ E C).
    + exact (IHb _ _ _ _ H C).
  - exact (iterate_sound IHa _ _ _ _ _ H C).
  - destruct (IHa _ _ _ _ H C) as (q & cs' & Rq & Cq & Hk).
    exists q, ((n, consumed p q) :: cs'). split; [exact Rq|].
    split; [|exact Hk]. constructor; [exact (reaches_consumed Rq) | exact Cq].
  - destruct (xorb _ _); [|discriminate].
    exists p, cs. split; [apply reaches_refl | now split].
  - destruct (before p); [|discriminate].
    exists p, cs. split; [apply reaches_refl | now split].
  - destruct (after p); [|discriminate].
    exists p, cs. split; [apply reaches_refl | now split].
Qed.
End Soundness.

Lemma matchAt_sound r p m :
  matchAt r p = Some m ->
  reaches p (rest m) /\ whole m = consumed p (rest m)
  /\ capsIn (subject p) (groups m).
Proof.
  intros H. destruct (@run_sound _ r p [] _ m H (Forall_nil _)) as (q & cs & Rq & Cq & [= <-]).
  simpl. auto.
Qed.

Lemma searchFrom_sound r : forall aft bef m,
  searchFrom r bef aft = Some m ->
  occursIn (whole m) (rev bef ++ aft) /\ capsIn (rev bef ++ aft) (groups m)
  /\ subject (rest m) = rev bef ++ aft.
Proof.
  induction aft as [|c aft IH]; intros bef m H; cbn [searchFrom] in H;
    destruct (matchAt r (Cursor bef _)) as [z|] eqn:E.
  1, 3: injection H as ->; destruct (matchAt_sound _ _ E) as (Rq & W & C);
    rewrite W; split; [exact (reaches_consumed Rq)|];
    split; [exact C | exact (reaches_subject Rq)].
  - discriminate.
  - destruct (IH _ _ H) as (A & B & C). simpl in A, B, C.
    rewrite <- app_assoc in A, B, C. auto.
Qed.

Lemma scanFrom_sound r : forall fuel bef aft,
  Forall (fun m => occursIn (whole m) (rev bef ++ aft)
                   /\ capsIn (rev bef ++ aft) (groups m))
         (scanFrom fuel r bef aft).
Proof.
  induction fuel as [|fuel IH]; intros bef aft; cbn [scanFrom]; [constructor|].
  destruct (searchFrom r bef aft) as [m|] eqn:E; [|constructor].
  destruct (searchFrom_sound _ _ _ E) as (A & B & C).
  constructor; [now split|].
  unfold subject in C.
  destruct (whole m) as [|x w].
  - destruct (after (rest m)) as [|c aft'] eqn:Ea; [constructor|].
    specialize (IH (c :: before (rest m)) aft'). simpl in IH.
    rewrite <- app_assoc in IH. simpl in IH. now rewrite C in IH.
  - specialize (IH (before (rest m)) (after (rest m))). now rewrite C in IH.
Qed.

Lemma matchAll_sound r text m :
  In m (matchAll r text) ->
  occursIn (whole m) text /\ capsIn text (groups m).
Proof.
  intros H. pose proof (scanFrom_sound r (S (length text)) [] text) as F.
  rewrite Forall_forall in F. exact (F m H).
Qed.

Lemma matchG_sound r text s : In s (matchG r text) -> occursIn s text.
Proof.
  unfold matchG. rewrite in_map_iff. intros (m & <- & H).
  exact (proj1 (matchAll_sound _ _ _ H)).
Qed.

Lemma groupOrWhole_sound r text m :
  In m (matchAll r text) -> occursIn (groupOrWhole m) text.
Proof.
  intros H. destruct (matchAll_sound _ _ _ H) as (W & C).
  unfold groupOrWhole, group.
  destruct (capture 1 (groups m)) as [[|c s]|] eqn:E; try exact W.
  clear W H. induction C as [|[i t] cs Ht _ IH]; [discriminate|].
  simpl in E. destruct (Nat.eqb i 1); [|exact (IH E)].
  injection E as ->. exact Ht.
Qed.

(** ** What the matchers return *)

Section Results.
Context {host : Host}.

Lemma phoneCandidate_returns last10Digits c r :
  phoneCandidate last10Digits c = Some r ->
  found r = true /\ (8 # 10 <= confidence r)%Q /\ extracted r = Some c.
Proof.
  unfold phoneCandidate.
  destruct (str_eqb _ last10Digits).
  - intros [= <-]. repeat split. apply Qle_bool_iff. reflexivity.
  - destruct (geq _ (8 # 10)) eqn:G; [|discriminate].
    intros [= <-]. repeat split. now apply geq_iff.
Qed.

Lemma dateCandidate_returns inputDigits mt r :
  dateCandidate inputDigits mt = Some r ->
  found r = true /\ (6 # 10 <= confidence r)%Q
  /\ extracted r = Some (groupOrWhole mt).
Proof.
  unfold dateCandidate.
  destruct (str_eqb _ inputDigits).
  - intros [= <-]. repeat split. apply Qle_bool_iff. reflexivity.
  - destruct (Nat.eqb _ 4 && includes inputDigits _).
    + intros [= <-]. repeat split. apply Qle_bool_iff. reflexivity.
    + destruct (geq _ (6 # 10)) eqn:G; [|discriminate].
      intros [= <-]. repeat split. now apply geq_iff.
Qed.

Lemma aadhaarCandidate_extracted inputDigits c r :
  aadhaarCandidate inputDigits c = Some r -> extracted r = Some c.
Proof.
  unfold aadhaarCandidate.
  destruct (str_eqb _ inputDigits); [now intros [= <-]|].
  destruct (geq _ (9 # 10)); [now intros [= <-] | discriminate].
Qed.

Lemma candidates_occur patterns documentText c :
  In c (flat_map (fun pattern => matchG pattern documentText) patterns) ->
  occursIn c documentText.
Proof.
  rewrite in_flat_map. intros (pattern & _ & H). exact (matchG_sound _ _ _ H).
Qed.

End Results.

Lemma ratio_nonneg a b : (0 <= ratio a b)%Q.
Proof.
  unfold ratio, Qdiv. apply Qmult_le_0_compat; [|apply Qinv_le_0_compat].
  - change 0%Q with (inject_Z 0). rewrite <- Zle_Qle. lia.
  - change 0%Q with (inject_Z 0). rewrite <- Zle_Qle. lia.
Qed.

Lemma gt_iff a c : gt a c = true <-> (c < a)%Q.
Proof.
  unfold gt. rewrite negb_true_iff. exact (geq_false_iff c a).
Qed.

Lemma bestWindow_nonneg {host : Host} normalizedName words n :
  (0 <= fst (bestWindow normalizedName words n))%Q.
Proof.
  unfold bestWindow.
  generalize (List.seq 0 (length words + 1 - n)).
  assert (G : forall l (acc : Q * str), (0 <= fst acc)%Q ->
            (0 <= fst (fold_left
               (fun '(bestMatch, bestMatchText) i =>
                  let window := join space (slice i (i + n) words) in
                  let similarity := getSimilarity normalizedName window in
                  if gt similarity bestMatch then (similarity, window)
                  else (bestMatch, bestMatchText)) l acc))%Q).
  { induction l as [|i l IH]; intros [b t] H; simpl; [exact H|].
    apply IH. destruct (gt _ b) eqn:E; [|exact H].
    apply gt_iff in E. simpl in *. apply Qlt_le_weak.
    eapply Qle_lt_trans; eassumption. }
  intros l. apply G. simpl. apply Qle_refl.
Qed.

(** X6. The name matcher never returns a negative confidence.  It returns
    [found = true] only with a confidence of at least 0.6 or at least the
    threshold, and then with an extracted name; it returns [found = false]
    only without an extracted name, and either with confidence 0 or with a
    confidence below the threshold. *)
Theorem findNameInText_results {host : Host} (name documentText : str)
        (threshold : Q) :
  let r := findNameInText name documentText threshold in
  (0 <= confidence r)%Q
  /\ (found r = true ->
      ((6 # 10 <= confidence r)%Q \/ (threshold <= confidence r)%Q)
      /\ extracted r <> None)
  /\ (found r = false ->
      extracted r = None
      /\ (r = notFound \/ (confidence r < threshold)%Q)).
Proof.
  cbv zeta. unfold findNameInText.
  match goal with
  | |- context [filter ?f (split space (normalizeText name))] =>
      set (parts := filter f (split space (normalizeText name)))
  end.
  destruct (Nat.eqb (length parts) 0).
  { split; [apply Qle_refl|]. split; [discriminate|]. intros _. auto. }
  destruct (includes _ (normalizeText name)).
  { split; [discriminate|]. split; [|discriminate].
    intros _. split; [left; discriminate | discriminate]. }
  match goal with
  | |- context [geq ?c (6 # 10)] =>
      destruct (geq_cases c (6 # 10)) as [[-> G]|[-> G]]
  end.
  { split; [apply ratio_nonneg|]. split; [|discriminate].
    intros _. split; [now left | discriminate]. }
  pose proof (bestWindow_nonneg (normalizeText name)
                (split space (normalizeText documentText)) (length parts)) as N.
  destruct (bestWindow _ _ _) as [bestMatch bestMatchText]. simpl in N.
  destruct (geq_cases bestMatch threshold) as [[-> T]|[-> T]]; simpl.
  - split; [exact N|]. split; [|discriminate].
    intros _. split; [now right | discriminate].
  - split; [exact N|]. split; [discriminate|]. intros _. auto.
Qed.

(** ** What the classifier accepts *)

Lemma normalizeText_latinKeywords {host : Host} kw :
  In kw latinKeywords -> normalizeText kw = kw.
Proof.
  intros H. rewrite normalizeText_units.
  repeat (destruct H as [<-|H]; [reflexivity|]). destruct H.
Qed.

(** X7. The classifier accepts a text exactly when the text holds twelve
    digits in groups of four, or its normalized form holds one of the five
    keywords written in Latin letters.  The two keywords in Devanagari
    play no part, and a number alone is enough. *)
Theorem classifier_accepts_iff {host : Host} (documentText : str) :
  isAadhaar (isAadhaarDocument documentText)
  = test groupedPattern documentText
    || existsb (includes (normalizeText documentText)) latinKeywords.
Proof.
  unfold isAadhaarDocument, keywordMatches, aadhaarKeywords, latinKeywords.
  cbn [fold_left existsb isAadhaar].
  fold bharatSarkar aadhaarHindi.
  rewrite normalizeText_bharatSarkar, normalizeText_aadhaarHindi, includes_nil.
  repeat match goal with
         | |- context [normalizeText (js ?kw)] =>
             rewrite (@normalizeText_latinKeywords _ (js kw))
               by (unfold latinKeywords; repeat first [left; reflexivity | right])
         end.
  destruct (test groupedPattern documentText);
    repeat match goal with
           | |- context [includes (normalizeText documentText) ?kw] =>
               destruct (includes (normalizeText documentText) kw)
           end;
    reflexivity.
Qed.

(** ** The runs of [validateDocumentData] *)

Section Runs.
Context {host : Host}.
Variable findDate : str -> str -> outcome MatchResult.

Lemma validateDocumentData_not_image data file w :
  startsWith (fileType file) (js "image/") = false ->
  validateDocumentData findDate data file w
  = (Ok tt,
     World (failure "fileType" 0 "Document must be an image (JPG, PNG, etc.)" None)
           (Toast "Invalid File Type" :: trace w)).
Proof.
  intros Himg. unfold validateDocumentData. run_step. unfold tryCatch.
  rewrite Himg. change (negb false) with true. cbv iota.
  run_step. reflexivity.
Qed.

Lemma validateDocumentData_unreadable data file w e :
  startsWith (fileType file) (js "image/") = true ->
  recognized file = Throw e ->
  validateDocumentData findDate data file w
  = (Ok tt,
     World processingError
           (Toast "Processing Error" :: Called Recognize :: trace w)).
Proof.
  intros Himg Hocr. unfold validateDocumentData. run_step. unfold tryCatch.
  rewrite Himg. change (negb true) with false. cbv iota.
  match goal with
  | |- context [mbind (recognize file) _ ?w0] =>
      destruct (recognize_run file w0) as (v & Hv)
  end.
  rewrite Hocr in Hv. simpl trace in Hv.
  unfold mbind at 1. rewrite Hv. run_step. reflexivity.
Qed.

Lemma validateDocumentData_date_throws data file w result e :
  startsWith (fileType file) (js "image/") = true ->
  recognized file = Ok result ->
  isAadhaar (isAadhaarDocument (orElse result [])) = true ->
  findDate (dateOfBirth data) (orElse result []) = Throw e ->
  validateDocumentData findDate data file w
  = (Ok tt,
     World processingError
           (Toast "Processing Error" :: Called FindDateInText
              :: Called FindAadhaarInText :: Called FindNameInText
              :: Called IsAadhaarDocument :: Called Recognize :: trace w)).
Proof.
  intros Himg Hocr Hcls Hdob.
  unfold validateDocumentData. run_step. unfold tryCatch.
  rewrite Himg. change (negb true) with false. cbv iota.
  match goal with
  | |- context [mbind (recognize file) _ ?w0] =>
      destruct (recognize_run file w0) as (v & Hv)
  end.
  rewrite Hocr in Hv. simpl trace in Hv. erewrite bind_run by exact Hv.
  do 2 run_step. rewrite Hcls. change (negb true) with false. cbv iota.
  do 2 run_step.
  unfold mbind at 1. unfold call at 1. rewrite Hdob.
  run_step. reflexivity.
Qed.

Lemma validateDocumentData_compared data file w result dobResult :
  startsWith (fileType file) (js "image/") = true ->
  recognized file = Ok result ->
  isAadhaar (isAadhaarDocument (orElse result [])) = true ->
  findDate (dateOfBirth data) (orElse result []) = Ok dobResult ->
  let rawText := orElse result [] in
  let nameResult := findNameInText (name data) rawText defaultThreshold in
  let aadhaarResult := findAadhaarInText (idNumber data) rawText in
  let phoneResult := findPhoneInText (emergencyContact data) rawText in
  let results := fieldValidations nameResult aadhaarResult dobResult phoneResult in
  validateDocumentData findDate data file w
  = (Ok tt,
     World (Validation (overallStatus results)
              (Some (Extracted (extracted nameResult) (extracted aadhaarResult)
                               (extracted dobResult) (extracted phoneResult)))
              (Some results) (Some rawText) None)
           (Toast (match overallStatus results with
                   | valid => "Document Verified Successfully"
                   | warning => "Document Verified with Warnings"
                   | _ => "Document Validation Failed"
                   end)
              :: Called FindPhoneInText :: Called FindDateInText
              :: Called FindAadhaarInText :: Called FindNameInText
              :: Called IsAadhaarDocument :: Called Recognize :: trace w)).
Proof.
  intros Himg Hocr Hcls Hdob. cbv zeta.
  unfold validateDocumentData. run_step. unfold tryCatch.
  rewrite Himg. change (negb true) with false. cbv iota.
  match goal with
  | |- context [mbind (recognize file) _ ?w0] =>
      destruct (recognize_run file w0) as (v & Hv)
  end.
  rewrite Hocr in Hv. simpl trace in Hv. erewrite bind_run by exact Hv.
  do 2 run_step. rewrite Hcls. change (negb true) with false. cbv iota.
  do 2 run_step.
  erewrite bind_run by (unfold call; rewrite Hdob; reflexivity).
  do 2 run_step. reflexivity.
Qed.

End Runs.

Lemma overallStatus_settled results :
  In (overallStatus results) [valid; warning; invalid].
Proof.
  unfold overallStatus.
  destruct (existsb _ criticalFields); [simpl; tauto|].
  destruct (existsb _ (map snd results)); simpl; tauto.
Qed.

(** The run of [validateDocumentData] on a file, from any state. *)
Lemma validateDocumentData_run {host : Host}
        (findDate : str -> str -> outcome MatchResult)
        (data : FormData) (file : File) :
  exists v title calls,
    In (status v) [valid; warning; invalid]
    /\ progress v = None
    /\ length calls <= 6
    /\ forall w,
         validateDocumentData findDate data file w
         = (Ok tt, World v (Toast title :: map Called calls ++ trace w)).
Proof.
  destruct (startsWith (fileType file) (js "image/")) eqn:Himg.
  2: { eexists _, _, []. split; [|split; [|split]].
       4: intros w; exact (validateDocumentData_not_image findDate data _ w Himg).
       all: simpl; first [lia | reflexivity | do 2 right; left; reflexivity]. }
  destruct (recognized file) as [result|e] eqn:Hocr.
  2: { eexists _, _, [_]. split; [|split; [|split]].
       4: intros w; exact (validateDocumentData_unreadable findDate data _ w Himg Hocr).
       all: simpl; first [lia | reflexivity | do 2 right; left; reflexivity]. }
  destruct (isAadhaar (isAadhaarDocument (orElse result []))) eqn:Hcls.
  2: { eexists _, _, [_; _]. split; [|split; [|split]].
       4: intros w; exact (validateDocumentData_rejected findDate data _ w Himg Hocr Hcls).
       all: simpl; first [lia | reflexivity | do 2 right; left; reflexivity]. }
  destruct (findDate (dateOfBirth data) (orElse result [])) as [dobResult|e] eqn:Hdob.
  - eexists _, _, [_; _; _; _; _; _]. split; [|split; [|split]].
    4: intros w; exact (validateDocumentData_compared findDate data _ w Himg Hocr Hcls Hdob).
    all: first [apply overallStatus_settled | simpl; lia | reflexivity].
  - eexists _, _, [_; _; _; _; _]. split; [|split; [|split]].
    4: intros w; exact (validateDocumentData_date_throws findDate data _ w Himg Hocr Hcls Hdob).
    all: simpl; first [lia | reflexivity | do 2 right; left; reflexivity].
Qed.

(** X8. Whatever the file, the form data and the date matcher,
    [validateDocumentData] ends without an exception, in a state that does
    not depend on the state before it: the status is [valid], [warning] or
    [invalid], never [validating], and no progress is left.  It shows
    exactly one toast, as its last act, after at most six calls. *)
Theorem validateDocumentData_settles {host : Host}
        (findDate : str -> str -> outcome MatchResult)
        (data : FormData) (file : File) :
  exists v title calls,
    In (status v) [valid; warning; invalid]
    /\ progress v = None
    /\ length calls <= 6
    /\ forall w,
         validateDocumentData findDate data file w
         = (Ok tt, World v (Toast title :: map Called calls ++ trace w)).
Proof. exact (validateDocumentData_run findDate data file). Qed.

(** X9. An exception, of Tesseract or of the date matcher, never leaves
    [validateDocumentData]: the run ends with the status [invalid], the
    single entry [ocr] and the toast "Processing Error".  When it is the
    date matcher that throws, the name and the ID number have been looked
    for and their results are dropped; the phone is not looked for. *)
Theorem exception_ends_in_processing_error {host : Host}
        (findDate : str -> str -> outcome MatchResult)
        (data : FormData) (file : File) (w : world) :
  startsWith (fileType file) (js "image/") = true ->
  (forall e, recognized file = Throw e ->
     validateDocumentData findDate data file w
     = (Ok tt, World processingError
                     (Toast "Processing Error" :: Called Recognize :: trace w)))
  /\ (forall result e,
        recognized file = Ok result ->
        isAadhaar (isAadhaarDocument (orElse result [])) = true ->
        findDate (dateOfBirth data) (orElse result []) = Throw e ->
        validateDocumentData findDate data file w
        = (Ok tt, World processingError
                        (Toast "Processing Error" :: Called FindDateInText
                           :: Called FindAadhaarInText :: Called FindNameInText
                           :: Called IsAadhaarDocument :: Called Recognize
                           :: trace w))).
Proof.
  intros Himg. split.
  - intros e Hocr. now apply validateDocumentData_unreadable with (e := e).
  - intros result e Hocr Hcls Hdob.
    now apply validateDocumentData_date_throws with (result := result) (e := e).
Qed.

Lemma exception_ends_in_processing_error_witness :
  validateDocumentData byDigits sampleData unreadableFile initially
  = (Ok tt, World processingError [Toast "Processing Error"; Called Recognize]).
Proof.
  apply (proj1 (exception_ends_in_processing_error byDigits sampleData
                  unreadableFile initially eq_refl) RecognitionFailed).
  reflexivity.
Defined.

(** X10. A file that is no image is not read: [validateDocumentData] ends
    with the status [invalid] and the single entry [fileType], shows the
    toast "Invalid File Type" and calls neither Tesseract nor any function
    of [textMatching]. *)
Theorem non_image_is_not_read {host : Host}
        (findDate : str -> str -> outcome MatchResult)
        (data : FormData) (file : File) (w : world) :
  startsWith (fileType file) (js "image/") = false ->
  let w' := snd (validateDocumentData findDate data file w) in
  fst (validateDocumentData findDate data file w) = Ok tt
  /\ documentValidation w'
     = Validation invalid None
         (Some [(js "fileType",
                 Field false 0 (Text "Document must be an image (JPG, PNG, etc.)") err)])
         None None
  /\ trace w' = Toast "Invalid File Type" :: trace w.
Proof.
  intros Himg. cbv zeta.
  rewrite (validateDocumentData_not_image findDate data _ w Himg).
  repeat split.
Qed.

Lemma non_image_is_not_read_witness :
  trace (snd (validateDocumentData byDigits sampleData pdfFile initially))
  = [Toast "Invalid File Type"].
Proof.
  apply (non_image_is_not_read byDigits sampleData pdfFile initially).
  reflexivity.
Defined.

Lemma overallStatus_critical nameResult aadhaarResult dobResult phoneResult :
  overallStatus (fieldValidations nameResult aadhaarResult dobResult phoneResult)
  <> invalid ->
  found nameResult = true /\ found aadhaarResult = true.
Proof.
  unfold overallStatus, fieldValidations.
  destruct (found nameResult); [|simpl; congruence].
  destruct (found aadhaarResult); [auto|].
  intros H. exfalso. apply H. clear H.
  cbn [criticalFields existsb]. 
  change (lookup (js "name") _) with
    (Some (Field true (confidence nameResult)
                 (FoundWith "Name found" (confidence nameResult))
                 (if geq (confidence nameResult) (8 # 10) then success else warn))).
  change (lookup (js "idNumber") _) with
    (Some (Field false (confidence aadhaarResult)
                 (Text "Aadhaar number not found. Please check if the document is clear and complete.")
                 err)).
  cbn [fieldStatus Severity_eqb].
  now destruct (geq (confidence nameResult) (8 # 10)).
Qed.

(** A run that ends with the status [valid] or [warning] has read an
    image, accepted its text and found the name and the ID number. *)
Lemma verified_run {host : Host}
      (findDate : str -> str -> outcome MatchResult)
      (data : FormData) (file : File) (w : world) :
  Status_eqb (status (documentValidation (snd (validateDocumentData findDate data file w))))
             valid
  || Status_eqb (status (documentValidation (snd (validateDocumentData findDate data file w))))
                warning = true ->
  startsWith (fileType file) (js "image/") = true
  /\ exists result dobResult,
       recognized file = Ok result
       /\ isAadhaar (isAadhaarDocument (orElse result [])) = true
       /\ findDate (dateOfBirth data) (orElse result []) = Ok dobResult
       /\ found (findNameInText (name data) (orElse result []) defaultThreshold) = true
       /\ found (findAadhaarInText (idNumber data) (orElse result [])) = true
       /\ (9 # 10 <= confidence (findAadhaarInText (idNumber data) (orElse result [])))%Q.
Proof.
  intros St.
  destruct (startsWith (fileType file) (js "image/")) eqn:Himg.
  2: { now rewrite (validateDocumentData_not_image _ data _ w Himg) in St. }
  split; [reflexivity|].
  destruct (recognized file) as [result|e] eqn:Hocr.
  2: { now rewrite (validateDocumentData_unreadable _ data _ w Himg Hocr) in St. }
  destruct (isAadhaar (isAadhaarDocument (orElse result []))) eqn:Hcls.
  2: { now rewrite (validateDocumentData_rejected _ data _ w Himg Hocr Hcls) in St. }
  destruct (findDate (dateOfBirth data) (orElse result [])) as [dobResult|e] eqn:Hdob.
  2: { now rewrite (validateDocumentData_date_throws _ data _ w Himg Hocr Hcls Hdob) in St. }
  rewrite (validateDocumentData_compared _ data _ w Himg Hocr Hcls Hdob) in St.
  cbn [snd documentValidation status] in St.
  exists result, dobResult. do 3 (split; [reflexivity || assumption|]).
  match type of St with
  | context [overallStatus ?r] =>
      assert (N : overallStatus r <> invalid)
        by (intros E; rewrite E in St; discriminate)
  end.
  apply overallStatus_critical in N. destruct N as (N1 & N2).
  split; [exact N1|]. split; [exact N2|].
  destruct (findAadhaarInText_cases (idNumber data) (orElse result []))
    as [[_ C]|E]; [exact C|].
  rewrite E in N2. discriminate.
Qed.

(** X12. The button Continue is enabled after a run of
    [validateDocumentData] only if a photo and an ID document are present,
    the file was an image that Tesseract read, the classifier accepted its
    text, the date matcher returned, and both the declared name and the
    declared ID number were found in the text, the ID number with a
    confidence of at least 0.9. *)
Theorem proceed_requires {host : Host}
        (findDate : str -> str -> outcome MatchResult)
        (data : FormData) (file : File) (w : world) (photo idDocument : option File) :
  canProceed photo idDocument
    (documentValidation (snd (validateDocumentData findDate data file w))) = true ->
  photo <> None /\ idDocument <> None
  /\ startsWith (fileType file) (js "image/") = true
  /\ exists result dobResult,
       recognized file = Ok result
       /\ isAadhaar (isAadhaarDocument (orElse result [])) = true
       /\ findDate (dateOfBirth data) (orElse result []) = Ok dobResult
       /\ found (findNameInText (name data) (orElse result []) defaultThreshold) = true
       /\ found (findAadhaarInText (idNumber data) (orElse result [])) = true
       /\ (9 # 10 <= confidence (findAadhaarInText (idNumber data) (orElse result [])))%Q.
Proof.
  unfold canProceed. intros H.
  apply andb_true_iff in H. destruct H as (H & St).
  apply andb_true_iff in H. destruct H as (Hp & Hd).
  split; [now destruct photo|]. split; [now destruct idDocument|].
  exact (verified_run _ _ _ _ St).
Qed.

Lemma proceed_requires_witness :
  canProceed (Some sampleFile) (Some sampleFile)
    (documentValidation
       (snd (validateDocumentData (host := unitHost) byDigits sampleData
               sampleFile initially))) = true
  /\ found (findAadhaarInText (host := unitHost) (idNumber sampleData) sampleText)
     = true.
Proof.
  assert (P : canProceed (Some sampleFile) (Some sampleFile)
                (documentValidation
                   (snd (validateDocumentData (host := unitHost) byDigits
                           sampleData sampleFile initially))) = true)
    by (vm_compute; reflexivity).
  split; [exact P|].
  destruct (proceed_requires _ _ _ _ _ _ P)
    as (_ & _ & _ & result & dobResult & E & _ & _ & _ & F & _).
  injection E as <-. exact F.
Defined.

(** X13. [validateDocumentData] never reports the ID number with a
    warning: the entry [idNumber] of its results, when there is one, is
    either an error, or a success with a confidence of at least 0.9. *)
Theorem id_number_never_warns {host : Host}
        (findDate : str -> str -> outcome MatchResult)
        (data : FormData) (file : File) (w : world)
        (results : list (str * FieldValidation)) (v : FieldValidation) :
  validationResults
    (documentValidation (snd (validateDocumentData findDate data file w)))
  = Some results ->
  lookup (js "idNumber") results = Some v ->
  (fieldFound v = false /\ fieldStatus v = err)
  \/ (fieldFound v = true /\ fieldStatus v = success
      /\ (9 # 10 <= fieldConfidence v)%Q).
Proof.
  destruct (startsWith (fileType file) (js "image/")) eqn:Himg.
  2: { rewrite (validateDocumentData_not_image _ data _ w Himg).
       intros [= <-]. discriminate. }
  destruct (recognized file) as [result|e] eqn:Hocr.
  2: { rewrite (validateDocumentData_unreadable _ data _ w Himg Hocr).
       intros [= <-]. discriminate. }
  destruct (isAadhaar (isAadhaarDocument (orElse result []))) eqn:Hcls.
  2: { rewrite (validateDocumentData_rejected _ data _ w Himg Hocr Hcls).
       intros [= <-]. discriminate. }
  destruct (findDate (dateOfBirth data) (orElse result [])) as [dobResult|e] eqn:Hdob.
  2: { rewrite (validateDocumentData_date_throws _ data _ w Himg Hocr Hcls Hdob).
       intros [= <-]. discriminate. }
  rewrite (validateDocumentData_compared _ data _ w Himg Hocr Hcls Hdob).
  cbn [snd documentValidation validationResults]. intros [= <-].
  unfold fieldValidations.
  match goal with
  | |- lookup _ (_ :: (_, ?f) :: _) = _ -> _ =>
      change (Some f = Some v -> (fieldFound v = false /\ fieldStatus v = err)
              \/ (fieldFound v = true /\ fieldStatus v = success
                  /\ (9 # 10 <= fieldConfidence v)%Q))
  end.
  intros [= <-]. cbn [fieldFound fieldStatus fieldConfidence].
  destruct (findAadhaarInText_cases (idNumber data) (orElse result []))
    as [[F C]|E].
  - right. rewrite F. apply geq_iff in C. rewrite C. apply geq_iff in C. auto.
  - left. rewrite E. auto.
Qed.

Lemma id_number_never_warns_witness :
  exists v,
    lookup (js "idNumber")
      (fieldValidations
         (findNameInText (host := unitHost) (name sampleData) sampleText defaultThreshold)
         (findAadhaarInText (idNumber sampleData) sampleText)
         (findDateInText (dateOfBirth sampleData) sampleText)
         (findPhoneInText (emergencyContact sampleData) sampleText)) = Some v
    /\ ((fieldFound v = false /\ fieldStatus v = err)
        \/ (fieldFound v = true /\ fieldStatus v = success
            /\ (9 # 10 <= fieldConfidence v)%Q)).
Proof.
  eexists. split; [reflexivity|].
  eapply (@id_number_never_warns unitHost byDigits sampleData sampleFile initially).
  - vm_compute. reflexivity.
  - vm_compute. reflexivity.
Defined.

(** A run depends on the file through its type and through what
    Tesseract returns: not on the progress reported, nor on the state in
    which it starts. *)
Lemma validateDocumentData_reading {host : Host}
      (findDate : str -> str -> outcome MatchResult)
      (data : FormData) (first again : File) :
  fileType again = fileType first ->
  recognized again = recognized first ->
  exists v events,
    forall w,
      validateDocumentData findDate data first w = (Ok tt, World v (events ++ trace w))
      /\ validateDocumentData findDate data again w
         = (Ok tt, World v (events ++ trace w)).
Proof.
  intros T R.
  destruct (startsWith (fileType first) (js "image/")) eqn:Himg.
  2: { eexists _, [_]. intros w.
       rewrite !validateDocumentData_not_image by congruence.
       split; reflexivity. }
  assert (Himg' : startsWith (fileType again) (js "image/") = true) by congruence.
  destruct (recognized first) as [result|e] eqn:Hocr.
  2: { eexists _, [_; _]. intros w.
       rewrite (validateDocumentData_unreadable _ data _ w Himg Hocr),
         (validateDocumentData_unreadable _ data _ w Himg' R).
       split; reflexivity. }
  destruct (isAadhaar (isAadhaarDocument (orElse result []))) eqn:Hcls.
  2: { eexists _, [_; _; _]. intros w.
       rewrite (validateDocumentData_rejected _ data _ w Himg Hocr Hcls),
         (validateDocumentData_rejected _ data _ w Himg' R Hcls).
       split; reflexivity. }
  destruct (findDate (dateOfBirth data) (orElse result [])) as [dobResult|e] eqn:Hdob.
  - eexists _, [_; _; _; _; _; _; _]. intros w.
    rewrite (validateDocumentData_compared _ data _ w Himg Hocr Hcls Hdob),
      (validateDocumentData_compared _ data _ w Himg' R Hcls Hdob).
    split; reflexivity.
  - eexists _, [_; _; _; _; _; _]. intros w.
    rewrite (validateDocumentData_date_throws _ data _ w Himg Hocr Hcls Hdob),
      (validateDocumentData_date_throws _ data _ w Himg' R Hcls Hdob).
    split; reflexivity.
Qed.

(** X14. Retrying without an ID document does nothing.  A retry calls
    Tesseract anew: [first] is the file as the first run read it, [again]
    the same file as the retry reads it.  If Tesseract returns for the
    retry what it returned for the first run, whatever progress it reports,
    the retry ends in the state in which the first run ended, with the same
    toast and the same calls once more: nothing of the state or of the
    progress of the first run has a part in it. *)
Theorem retry_repeats_the_run {host : Host}
        (findDate : str -> str -> outcome MatchResult)
        (data : FormData) (first again : File) (w : world) :
  fileType again = fileType first ->
  recognized again = recognized first ->
  retryValidation findDate data None w = (Ok tt, w)
  /\ let ended := snd (validateDocumentData findDate data first w) in
     let retried := snd (retryValidation findDate data (Some again) ended) in
     documentValidation retried = documentValidation ended
     /\ exists events,
          trace ended = events ++ trace w
          /\ trace retried = events ++ events ++ trace w.
Proof.
  intros T R. split; [reflexivity|]. cbv zeta. unfold retryValidation.
  destruct (validateDocumentData_reading findDate data first again T R)
    as (v & events & Run).
  rewrite (proj1 (Run w)). cbn [snd]. rewrite (proj2 (Run _)).
  cbn [snd documentValidation trace].
  split; [reflexivity|]. exists events. split; reflexivity.
Qed.

Lemma retry_repeats_the_run_witness :
  documentValidation
    (snd (retryValidation (host := unitHost) byDigits sampleData
            (Some (Upload (js "image/jpeg") [12; 99]%Z (Ok (Some sampleText))))
            (snd (validateDocumentData byDigits sampleData sampleFile initially))))
  = documentValidation
      (snd (validateDocumentData (host := unitHost) byDigits sampleData sampleFile
              initially)).
Proof.
  exact (proj1 (proj2 (@retry_repeats_the_run unitHost byDigits sampleData sampleFile
                         (Upload (js "image/jpeg") [12; 99]%Z (Ok (Some sampleText)))
                         initially eq_refl eq_refl))).
Defined.

(** ** The matcher matches what the pattern describes *)

Section Semantics.
Variable R : Type.

Lemma iterate_follows (P : str -> caps -> caps -> Prop)
      (step : cursor -> caps -> cont R -> option R) :
  follows P step ->
  forall fuel lo hi,
    follows (fun s cs cs' => exists n, within lo hi n /\ rep P n s cs cs')
            (fun p cs k => iterate step k fuel lo hi p cs).
Proof.
  intros Hstep.
  assert (Stop : forall lo hi p cs (k : cont R) x,
             (if Nat.eqb lo 0 then k p cs else None) = Some x ->
             match hi with Some h => 0 <= h | None => True end ->
             exists s q cs',
               after p = s ++ after q /\ before q = rev s ++ before p
               /\ (exists n, within lo hi n /\ rep P n s cs cs')
               /\ k q cs' = Some x).
  { intros lo hi p cs k x H B. destruct (Nat.eqb_spec lo 0) as [->|]; [|discriminate].
    exists [], p, cs. repeat split; [|exact H].
    exists 0. repeat split; [lia | exact B]. }
  assert (B0 : forall hi, match hi with Some h => 0 <= h | None => True end).
  { intros [h|]; [lia | exact I]. }
  induction fuel as [|fuel IH]; intros lo hi p cs k x H.
  - destruct hi as [[|h]|]; exact (Stop _ _ _ _ _ _ H (B0 _)).
  - cbn [iterate] in H.
    assert (Go : hi <> Some 0 ->
                 match step p cs (fun q cs' =>
                     if Nat.ltb 0 lo || advanced p q
                     then iterate step k fuel (pred lo) (predOpt hi) q cs'
                     else None) with
                 | Some x => Some x
                 | None => if Nat.eqb lo 0 then k p cs else None
                 end = Some x ->
                 exists s q cs',
                   after p = s ++ after q /\ before q = rev s ++ before p
                   /\ (exists n, within lo hi n /\ rep P n s cs cs')
                   /\ k q cs' = Some x).
    { clear H. intros Hhi.
      destruct (step p cs _) as [z|] eqn:E;
        [|intros H; exact (Stop _ _ _ _ _ _ H (B0 _))].
      intros [= ->]. destruct (Hstep _ _ _ _ E) as (s1 & q & cs1 & A1 & B1 & P1 & Hk).
      destruct (Nat.ltb 0 lo || advanced p q); [|discriminate].
      destruct (IH _ _ _ _ _ _ Hk) as (s2 & q' & cs' & A2 & B2 & (n & W & Rn) & Hk').
      exists (s1 ++ s2), q', cs'.
      split; [rewrite A1, A2; apply app_assoc|].
      split; [rewrite B2, B1, rev_app_distr; now rewrite app_assoc|].
      split; [|exact Hk'].
      exists (S n). split.
      - destruct W as (W1 & W2). split; [lia|].
        destruct hi as [[|h]|]; simpl in *; [congruence | lia | exact I].
      - exists s1, s2, cs1. auto. }
    destruct hi as [[|h]|];
      [exact (Stop _ _ _ _ _ _ H (B0 _)) | apply Go; [discriminate | exact H]
       | apply Go; [discriminate | exact H]].
Qed.

Lemma run_follows (r : regex) : follows (sem r) (@run R r).
Proof.
  induction r as [|f|items|a IHa b IHb|a IHa b IHb|a IHa lo hi|n a IHa| | |];
    intros p cs k x H; cbn [run] in H.
  - exists [], p, cs. now repeat split.
  - destruct (after p) as [|c rest] eqn:E; [discriminate|].
    destruct (f c) eqn:F; [|discriminate].
    exists [c], (Cursor (c :: before p) rest), cs.
    repeat split; [|exact H]. now exists c.
  - destruct (after p) as [|c rest] eqn:E; [discriminate|].
    destruct (existsb _ items) eqn:F; [|discriminate].
    exists [c], (Cursor (c :: before p) rest), cs.
    repeat split; [|exact H]. now exists c.
  - destruct (IHa _ _ _ _ H) as (s1 & q & cs1 & A1 & B1 & P1 & Hk).
    destruct (IHb _ _ _ _ Hk) as (s2 & q' & cs' & A2 & B2 & P2 & Hk').
    exists (s1 ++ s2), q', cs'.
    split; [rewrite A1, A2; apply app_assoc|].
    split; [rewrite B2, B1, rev_app_distr; now rewrite app_assoc|].
    split; [|exact Hk']. exists s1, s2, cs1. auto.
  - destruct (run a p cs k) as [z|] eqn:E.
    + injection H as ->.
      destruct (IHa _ _ _ _ E) as (s & q & cs' & A & B & P & Hk).
      exists s, q, cs'. cbn [sem]. auto.
    + destruct (IHb _ _ _ _ H) as (s & q & cs' & A & B & P & Hk).
      exists s, q, cs'. cbn [sem]. auto.
  - exact (iterate_follows IHa _ _ _ _ _ _ H).
  - destruct (IHa _ _ _ _ H) as (s & q & cs' & A & B & P & Hk).
    exists s, q, ((n, s) :: cs').
    split; [exact A|]. split; [exact B|]. split; [now exists cs'|].
    replace s with (consumed p q) at 1; [exact Hk|].
    unfold consumed. rewrite A. apply firstn_consumed.
  - destruct (xorb _ _); [|discriminate]. exists [], p, cs. now repeat split.
  - destruct (before p) eqn:E; [|discriminate]. exists [], p, cs.
    rewrite E. now repeat split.
  - destruct (after p) eqn:E; [|discriminate]. exists [], p, cs.
    rewrite E. now repeat split.
Qed.
End Semantics.

Lemma matchAt_sem r p m :
  matchAt r p = Some m -> sem r (whole m) [] (groups m).
Proof.
  intros H. destruct (@run_follows _ r p [] _ m H)
    as (s & q & cs' & A & B & P & [= <-]).
  cbn [whole groups]. unfold consumed. cbn [after]. rewrite A, firstn_consumed.
  exact P.
Qed.

Lemma searchFrom_sem r : forall aft bef m,
  searchFrom r bef aft = Some m -> sem r (whole m) [] (groups m).
Proof.
  induction aft as [|c aft IH]; intros bef m H; cbn [searchFrom] in H;
    destruct (matchAt r (Cursor bef _)) as [z|] eqn:E.
  - injection H as ->. exact (matchAt_sem _ _ E).
  - discriminate.
  - injection H as ->. exact (matchAt_sem _ _ E).
  - exact (IH _ _ H).
Qed.

Lemma scanFrom_sem r : forall fuel bef aft,
  Forall (fun m => sem r (whole m) [] (groups m)) (scanFrom fuel r bef aft).
Proof.
  induction fuel as [|fuel IH]; intros bef aft; cbn [scanFrom]; [constructor|].
  destruct (searchFrom r bef aft) as [m|] eqn:E; [|constructor].
  constructor; [exact (searchFrom_sem _ _ _ E)|].
  destruct (whole m); [destruct (after (rest m)); [constructor|]|]; apply IH.
Qed.

Lemma matchAll_sem r text m :
  In m (matchAll r text) -> sem r (whole m) [] (groups m).
Proof.
  intros H. pose proof (scanFrom_sem r (S (length text)) [] text) as F.
  rewrite Forall_forall in F. exact (F m H).
Qed.

Lemma matchG_sem r text s :
  In s (matchG r text) -> exists cs, sem r s [] cs.
Proof.
  unfold matchG. rewrite in_map_iff. intros (m & <- & H).
  exists (groups m). exact (matchAll_sem _ _ _ H).
Qed.

(** ** The shape of the candidates *)

Lemma rep_single Q P : single Q P ->
  forall n s cs cs', rep P n s cs cs' -> Forall Q s /\ length s = n /\ cs' = cs.
Proof.
  intros HP. induction n as [|n IH]; intros s cs cs' H; cbn [rep] in H.
  - destruct H as (-> & ->). repeat split. constructor.
  - destruct H as (s1 & s2 & cs1 & -> & H1 & H2).
    destruct (HP _ _ _ H1) as ((c & -> & Hc) & ->).
    destruct (IH _ _ _ H2) as (F & L & ->).
    repeat split; [now constructor | simpl; now rewrite L].
Qed.

Lemma single_Class f : single (fun c => f c = true) (sem (Class f)).
Proof. intros s cs cs' H. exact H. Qed.

Lemma single_Bracket items :
  single (fun c => existsb (inItem c) items = true) (sem (Bracket items)).
Proof. intros s cs cs' H. exact H. Qed.

Lemma sem_Quant_Class f lo hi s cs cs' :
  sem (Quant (Class f) lo hi) s cs cs' ->
  Forall (fun c => f c = true) s /\ within lo hi (length s) /\ cs' = cs.
Proof.
  intros (n & W & H). destruct (@rep_single _ _ (@single_Class f) _ _ _ _ H) as (F & <- & E).
  auto.
Qed.

Lemma sem_Quant_Bracket items lo hi s cs cs' :
  sem (Quant (Bracket items) lo hi) s cs cs' ->
  Forall (fun c => existsb (inItem c) items = true) s
  /\ within lo hi (length s) /\ cs' = cs.
Proof.
  intros (n & W & H).
  destruct (@rep_single _ _ (@single_Bracket items) _ _ _ _ H) as (F & <- & E). auto.
Qed.

Lemma sem_Seq a b s cs cs' :
  sem (Seq a b) s cs cs' ->
  exists s1 s2 cs1, s = s1 ++ s2 /\ sem a s1 cs cs1 /\ sem b s2 cs1 cs'.
Proof. intros H. exact H. Qed.

Lemma sem_Group n a s cs cs' :
  sem (Group n a) s cs cs' -> exists cs1, sem a s cs cs1 /\ cs' = (n, s) :: cs1.
Proof. intros H. exact H. Qed.

Lemma sem_bnd s cs cs' : sem bnd s cs cs' -> s = [] /\ cs' = cs.
Proof. intros H. exact H. Qed.

Lemma sem_Class f s cs cs' :
  sem (Class f) s cs cs' -> (exists c, s = [c] /\ f c = true) /\ cs' = cs.
Proof. intros H. exact H. Qed.

Lemma sem_Bracket items s cs cs' :
  sem (Bracket items) s cs cs' ->
  (exists c, s = [c] /\ existsb (inItem c) items = true) /\ cs' = cs.
Proof. intros H. exact H. Qed.

Lemma digitCount_app s t : digitCount (s ++ t) = digitCount s + digitCount t.
Proof. unfold digitCount. now rewrite filter_app, length_app. Qed.

Lemma digitCount_digits s : digits s -> digitCount s = length s.
Proof.
  intros H. unfold digitCount. fold (extractDigits s).
  now rewrite (extractDigits_digits H).
Qed.

Lemma digitCount_none (f : char -> bool) s :
  (forall c, f c = true -> isDigit c = false) ->
  Forall (fun c => f c = true) s -> digitCount s = 0.
Proof.
  intros Hf. unfold digitCount. induction 1 as [|c s Hc _ IH]; [reflexivity|].
  simpl. now rewrite (Hf _ Hc).
Qed.

Lemma digitCount_spaces s :
  Forall (fun c => isSpace c = true) s -> digitCount s = 0.
Proof. apply digitCount_none. exact isSpace_not_digit. Qed.

(** Takes a description of a match apart, down to its quantifiers. *)
Ltac sem_inv :=
  repeat match goal with
         | H : sem (Seq _ _) _ _ _ |- _ =>
             apply sem_Seq in H;
             let s1 := fresh "s" in let s2 := fresh "s" in
             let cs1 := fresh "cs" in
             destruct H as (s1 & s2 & cs1 & -> & ? & ?)
         | H : sem bnd _ _ _ |- _ => apply sem_bnd in H; destruct H as (-> & ->)
         | H : sem (Quant (Class _) _ _) _ _ _ |- _ =>
             apply sem_Quant_Class in H; destruct H as (? & (? & ?) & ->)
         | H : sem (Quant (Bracket _) _ _) _ _ _ |- _ =>
             apply sem_Quant_Bracket in H; destruct H as (? & (? & ?) & ->)
         | H : sem (Group _ _) _ _ _ |- _ =>
             apply sem_Group in H; let cs1 := fresh "cs" in
             destruct H as (cs1 & H & ->)
         | H : sem (Class _) _ _ _ |- _ =>
             apply sem_Class in H; let c := fresh "c" in
             destruct H as ((c & -> & ?) & ->)
         | H : sem (Bracket _) _ _ _ |- _ =>
             apply sem_Bracket in H; let c := fresh "c" in
             destruct H as ((c & -> & ?) & ->)
         end.

(** Counts the digits of a text taken apart by [sem_inv]. *)
Ltac count_digits :=
  rewrite ?digitCount_app, ?length_app;
  change (digitCount []) with 0;
  repeat match goal with
         | H : Forall (fun c => isDigit c = true) ?s |- context [digitCount ?s] =>
             rewrite (@digitCount_digits s H)
         | H : Forall (fun c => isSpace c = true) ?s |- context [digitCount ?s] =>
             rewrite (@digitCount_spaces s H)
         end.

Lemma digits_digitOrSpace s : digits s -> Forall digitOrSpace s.
Proof. apply Forall_impl. intros c H. now left. Qed.

Lemma spaces_digitOrSpace s :
  Forall (fun c => isSpace c = true) s -> Forall digitOrSpace s.
Proof. apply Forall_impl. intros c H. now right. Qed.

Lemma aadhaarCandidates_shape documentText m :
  In m (aadhaarCandidates documentText) ->
  digitCount m = 12 /\ length m <= 14 /\ Forall digitOrSpace m.
Proof.
  unfold aadhaarCandidates, aadhaarPatterns, groupedPattern.
  cbn [flat_map]. rewrite app_nil_r, in_app_iff.
  intros [H|H]; apply matchG_sem in H; destruct H as (cs & H);
    cbn [conc] in H; unfold times, opt, dig, spc in H; sem_inv.
  - count_digits. simpl. split; [lia|]. split; [lia|].
    repeat (apply Forall_app; split);
      auto using digits_digitOrSpace, spaces_digitOrSpace.
  - count_digits. simpl. split; [lia|]. split; [lia|].
    repeat (apply Forall_app; split); auto using digits_digitOrSpace.
Qed.

Lemma rep_groupless (P : str -> caps -> caps -> Prop) :
  (forall s cs cs', P s cs cs' -> cs' = cs) ->
  forall n s cs cs', rep P n s cs cs' -> cs' = cs.
Proof.
  intros HP. induction n as [|n IH]; intros s cs cs' H; cbn [rep] in H.
  - now destruct H.
  - destruct H as (s1 & s2 & cs1 & _ & H1 & H2).
    rewrite (IH _ _ _ H2). exact (HP _ _ _ H1).
Qed.

Lemma sem_groupless r : groupless r = true ->
  forall s cs cs', sem r s cs cs' -> cs' = cs.
Proof.
  induction r as [|f|items|a IHa b IHb|a IHa b IHb|a IHa lo hi|n a IHa| | |];
    cbn [groupless sem]; intros G s cs cs' H;
    try (now destruct H); try discriminate.
  - apply andb_true_iff in G. destruct G as (Ga & Gb).
    destruct H as (s1 & s2 & cs1 & _ & H1 & H2).
    rewrite (IHb Gb _ _ _ H2). exact (IHa Ga _ _ _ H1).
  - apply andb_true_iff in G. destruct G as (Ga & Gb).
    destruct H as [H|H]; [exact (IHa Ga _ _ _ H) | exact (IHb Gb _ _ _ H)].
  - destruct H as (n & _ & H). exact (@rep_groupless _ (IHa G) _ _ _ _ H).
Qed.

Lemma sem_alts rs s cs cs' :
  sem (alts rs) s cs cs' -> exists r, In r rs /\ sem r s cs cs'.
Proof.
  induction rs as [|r rs IH]; cbn [alts].
  - intros ((c & _ & H) & _). discriminate.
  - destruct rs as [|r' rs].
    + intros H. exists r. split; [now left | exact H].
    + intros [H|H].
      * exists r. split; [now left | exact H].
      * destruct (IH H) as (r0 & Hin & H0). exists r0. split; [now right | exact H0].
Qed.

Lemma folded_not_digit c x :
  (foldCase c =? foldCase x)%N = true -> isLower x = true -> isDigit c = false.
Proof.
  unfold foldCase. intros H L. rewrite L in H.
  destruct (isLower c) eqn:E; classes.
Qed.

Lemma sem_monthName s cs cs' :
  sem monthName s cs cs' ->
  cs' = cs /\ length s = 3 /\ digitCount s = 0.
Proof.
  intros H. apply sem_alts in H. destruct H as (r & Hin & H).
  unfold monthName in Hin. simpl in Hin.
  repeat (destruct Hin as [<-|Hin];
          [simpl in H;
           destruct H as (s1 & s2 & cs1 & -> & ((c1 & -> & E1) & ->)
                          & s3 & s4 & cs2 & -> & ((c2 & -> & E2) & ->)
                          & (c3 & -> & E3) & ->);
           repeat split; unfold digitCount; simpl;
           rewrite (folded_not_digit c1 _ E1 eq_refl),
             (folded_not_digit c2 _ E2 eq_refl),
             (folded_not_digit c3 _ E3 eq_refl); reflexivity|]).
  destruct Hin.
Qed.

Lemma spaceOrDash_not_digit c :
  existsb (inItem c) [Esc isSpace; One (chr "-")] = true -> isDigit c = false.
Proof.
  cbn [existsb inItem]. change (chr "-") with 45%N. intros H.
  destruct (isSpace c) eqn:E; [exact (isSpace_not_digit _ E)|].
  simpl in H. classes.
Qed.

Lemma dateSeparator_not_digit c :
  existsb (inItem c) [One (chr "/"); One (chr "-"); One (chr ".")] = true ->
  isDigit c = false.
Proof.
  cbn [existsb inItem].
  change (chr "/") with 47%N. change (chr "-") with 45%N. change (chr ".") with 46%N.
  intros H. classes.
Qed.

Lemma digitCount_separators items s :
  (forall c, existsb (inItem c) items = true -> isDigit c = false) ->
  Forall (fun c => existsb (inItem c) items = true) s -> digitCount s = 0.
Proof. intros H. exact (digitCount_none (fun c => existsb (inItem c) items) H). Qed.

Ltac count_separators :=
  repeat match goal with
         | H : Forall (fun c => existsb (inItem c) ?items = true) ?s
           |- context [digitCount ?s] =>
             rewrite (@digitCount_separators items s
                        ltac:(first [exact spaceOrDash_not_digit
                                    | exact dateSeparator_not_digit]) H)
         end.

Lemma digitCount_one c : isDigit c = true -> digitCount [c] = 1.
Proof. intros H. unfold digitCount. simpl. now rewrite H. Qed.

Lemma digitCount_other c : isDigit c = false -> digitCount [c] = 0.
Proof. intros H. unfold digitCount. simpl. now rewrite H. Qed.

Lemma phoneCandidates_shape documentText m :
  In m (phoneCandidates documentText) -> digitCount m = 10 \/ digitCount m = 12.
Proof.
  unfold phoneCandidates, phonePatterns, mobilePattern.
  cbn [flat_map]. rewrite app_nil_r, !in_app_iff.
  intros [H|[H|[H|H]]]; apply matchG_sem in H; destruct H as (cs & H);
    cbn [conc] in H; unfold times, opt, dig, spaceOrDash in H.
  - sem_inv. count_digits.
    rewrite (digitCount_one c) by (apply mobileFirst_isDigit; unfold mobileFirst;
      match goal with E : existsb _ _ = true |- _ =>
        cbn [existsb inItem] in E; now rewrite orb_false_r in E end).
    left. lia.
  - sem_inv. count_digits. left. lia.
  - sem_inv. count_digits.
    count_separators.
    left. lia.
  - change (lit "+91") with
      (Seq (Class (N.eqb 43)) (Seq (Class (N.eqb 57)) (Class (N.eqb 49)))) in H.
    sem_inv. count_digits.
    count_separators.
    repeat match goal with
           | E : (_ =? ?c)%N = true |- _ => apply N.eqb_eq in E; subst c
           end.
    right. simpl. lia.
Qed.

Lemma groupOrWhole_group mt s cs :
  groups mt = (1, s) :: cs -> s <> [] -> groupOrWhole mt = s.
Proof.
  intros G N. unfold groupOrWhole, group. rewrite G. simpl.
  destruct s; [contradiction | reflexivity].
Qed.

Lemma groupOrWhole_whole mt : groups mt = [] -> groupOrWhole mt = whole mt.
Proof. intros G. unfold groupOrWhole, group. now rewrite G. Qed.

Lemma sem_numericDate s cs cs' :
  sem numericDate s cs cs' ->
  cs' = cs /\ 4 <= digitCount s <= 8 /\ s <> [].
Proof.
  unfold numericDate. cbn [conc]. unfold range, dig, dateSeparator.
  intros H. sem_inv. split; [reflexivity|].
  assert (D : forall c, existsb (inItem c)
                [One (chr "/"); One (chr "-"); One (chr ".")] = true ->
              digitCount [c] = 0).
  { intros x Hx. apply digitCount_other. now apply dateSeparator_not_digit. }
  split.
  - count_digits. rewrite !D by assumption. lia.
  - destruct s0; [simpl in *; lia | discriminate].
Qed.

(** Forgets the parts of a match that capture nothing. *)
Ltac sem_forget :=
  repeat match goal with
         | H : sem ?r _ ?cs ?cs' |- _ =>
             apply (@sem_groupless r eq_refl) in H; try subst cs'
         end.

(** The compared text of a match whose first group is known. *)
Ltac compared_group N :=
  match goal with
  | G : _ = groups ?m |- _ => rewrite (@groupOrWhole_group m _ _ (eq_sym G) N)
  | G : groups ?m = _ |- _ => rewrite (@groupOrWhole_group m _ _ G N)
  end.

(** The text that the date matcher compares, for a match of its second or
    third pattern, is the name of the month: three letters. *)
Lemma monthName_compared documentText mt :
  In mt (matchAll (nth 1 datePatterns Eps) documentText)
  \/ In mt (matchAll (nth 2 datePatterns Eps) documentText) ->
  length (groupOrWhole mt) = 3 /\ digitCount (groupOrWhole mt) = 0.
Proof.
  cbn [nth datePatterns].
  intros [H|H]; apply matchAll_sem in H;
    remember (whole mt) as w eqn:W; remember (groups mt) as g eqn:G;
    cbn [conc] in H; unfold range, plus, star, opt, dig, spc, wrd in H;
    sem_inv;
    match goal with
    | M : sem monthName ?s _ _ |- _ =>
        apply sem_monthName in M; destruct M as (-> & L & D);
        sem_forget;
        assert (N : s <> []) by (intros E; rewrite E in L; discriminate L);
        compared_group N;
        now split
    end.
Qed.

Lemma dateTexts_shape documentText mt :
  In mt (flat_map (fun pattern => matchAll pattern documentText) datePatterns) ->
  digitCount (groupOrWhole mt) = 0 \/ 4 <= digitCount (groupOrWhole mt) <= 8.
Proof.
  unfold datePatterns. cbn [flat_map]. rewrite app_nil_r, !in_app_iff.
  intros [H|[H|[H|[H|H]]]].
  - apply matchAll_sem in H.
    remember (whole mt) as w eqn:W; remember (groups mt) as g eqn:G.
    cbn [conc] in H. sem_inv.
    match goal with
    | M : sem numericDate _ _ _ |- _ =>
        apply sem_numericDate in M; destruct M as (-> & D & _)
    end.
    rewrite (groupOrWhole_whole mt (eq_sym G)), <- W.
    right. revert D. count_digits. simpl. lia.
  - left. apply (monthName_compared documentText). now left.
  - left. apply (monthName_compared documentText). now right.
  - apply matchAll_sem in H.
    remember (whole mt) as w eqn:W; remember (groups mt) as g eqn:G.
    cbn [conc] in H. sem_inv.
    match goal with
    | M : sem numericDate ?s _ _ |- _ =>
        apply sem_numericDate in M; destruct M as (-> & D & N);
        sem_forget; compared_group N
    end.
    now right.
  - apply matchAll_sem in H.
    remember (whole mt) as w eqn:W; remember (groups mt) as g eqn:G.
    cbn [conc] in H. unfold times, dig in H. sem_inv. sem_forget.
    match goal with
    | M : Forall (fun c => isDigit c = true) ?s |- _ =>
        assert (N : s <> []) by (intros ->; simpl in *; lia);
        compared_group N;
        rewrite (digitCount_digits M)
    end.
    right. lia.
Qed.

(** ** The candidates of the phone matcher *)

Lemma phoneGap_opt s :
  Forall (fun c => existsb (inItem c) [Esc isSpace; One (chr "-")] = true) s ->
  within 0 (Some 1) (length s) -> phoneGap s.
Proof.
  intros F (_ & L). destruct s as [|x [|y s]]; [now left | right | simpl in L; lia].
  exists x. split; [reflexivity|]. now inversion F.
Qed.

Lemma phoneCandidates_form documentText m :
  In m (phoneCandidates documentText) -> phoneForm m.
Proof.
  unfold phoneCandidates, phonePatterns, mobilePattern.
  cbn [flat_map]. rewrite app_nil_r, !in_app_iff.
  intros [H|[H|[H|H]]]; apply matchG_sem in H; destruct H as (cs & H);
    cbn [conc] in H; unfold times, opt, dig, spaceOrDash in H.
  - sem_inv. left. cbn [app]. rewrite app_nil_r. split.
    + constructor; [|assumption]. apply mobileFirst_isDigit. unfold mobileFirst.
      match goal with E : existsb _ _ = true |- _ =>
        cbn [existsb inItem] in E; now rewrite orb_false_r in E end.
    + simpl. lia.
  - sem_inv. left. cbn [app]. rewrite app_nil_r. split; [assumption | lia].
  - sem_inv. right. left. cbn [app]. rewrite app_nil_r.
    do 5 eexists. split; [reflexivity|].
    repeat match goal with
           | |- _ /\ _ => split
           | |- phoneGap _ => now apply phoneGap_opt
           | |- digits _ => assumption
           | |- length _ = _ => lia
           end.
  - change (lit "+91") with
      (Seq (Class (N.eqb 43)) (Seq (Class (N.eqb 57)) (Class (N.eqb 49)))) in H.
    sem_inv. right. right.
    repeat match goal with
           | E : (_ =? ?c)%N = true |- _ => apply N.eqb_eq in E; subst c
           end.
    cbn [app]. rewrite app_nil_r.
    do 2 eexists. split; [reflexivity|].
    repeat match goal with
           | |- _ /\ _ => split
           | |- phoneGap _ => now apply phoneGap_opt
           | |- digits _ => assumption
           | |- length _ = _ => lia
           end.
Qed.

Lemma occursIn_digitCount m text : occursIn m text -> digitCount m <= digitCount text.
Proof. intros (p & q & ->). rewrite !digitCount_app. lia. Qed.

Lemma digitCount_noDigit s : digitCount s = 0 <-> noDigit s.
Proof.
  unfold digitCount, noDigit. induction s as [|c s IH]; simpl.
  - split; [constructor | reflexivity].
  - destruct (isDigit c) eqn:E; simpl.
    + split; [discriminate | intros H; inversion H; congruence].
    + rewrite IH. split; [now constructor | intros H; now inversion H].
Qed.

(** The first digit of a text is where it is. *)
Lemma first_digit p1 : forall p2 c1 r1 c2 r2,
  noDigit p1 -> noDigit p2 -> isDigit c1 = true -> isDigit c2 = true ->
  p1 ++ c1 :: r1 = p2 ++ c2 :: r2 -> c1 :: r1 = c2 :: r2.
Proof.
  induction p1 as [|x p1 IH]; intros [|y p2] c1 r1 c2 r2 N1 N2 D1 D2 E;
    simpl in E.
  - exact E.
  - injection E as -> _. inversion N2; congruence.
  - injection E as -> _. inversion N1; congruence.
  - injection E as _ E. inversion N1; inversion N2; subst. eauto.
Qed.

Lemma digitCount_phoneGap g : phoneGap g -> digitCount g = 0.
Proof.
  intros [->|(y & -> & Hy)]; [reflexivity|].
  apply digitCount_other. exact (spaceOrDash_not_digit _ Hy).
Qed.

Ltac digits_inv :=
  repeat match goal with
         | H : digits (_ :: _) |- _ => apply Forall_cons_iff in H; destruct H
         | H : Forall _ (_ :: _) |- _ => apply Forall_cons_iff in H; destruct H
         end.

(** A number in two groups of five is no candidate. *)
Lemma phoneCandidates_five_five pre a x b post :
  digits a -> length a = 5 -> isDigit x = false ->
  digits b -> length b = 5 -> noDigit pre -> noDigit post ->
  phoneCandidates (pre ++ a ++ x :: b ++ post) = [].
Proof.
  intros Da La Hx Db Lb Npre Npost.
  destruct (phoneCandidates _) as [|m l] eqn:E; [reflexivity|]. exfalso.
  assert (Hin : In m (phoneCandidates (pre ++ a ++ x :: b ++ post)))
    by (rewrite E; now left).
  clear E l.
  pose proof (candidates_occur _ _ _ Hin) as O.
  pose proof (phoneCandidates_form _ _ Hin) as F.
  assert (T : digitCount (pre ++ a ++ x :: b ++ post) = 10).
  { change (x :: b ++ post) with ([x] ++ b ++ post).
    rewrite !digitCount_app, (digitCount_digits Da), (digitCount_digits Db),
      (digitCount_other _ Hx), (proj2 (digitCount_noDigit _) Npre),
      (proj2 (digitCount_noDigit _) Npost). lia. }
  pose proof (occursIn_digitCount O) as Le. rewrite T in Le.
  destruct O as (p & q & O).
  assert (Aligned : forall d m', m = d :: m' -> isDigit d = true ->
                                 digitCount m = 10 ->
                                 a ++ x :: b ++ post = m ++ q).
  { intros d m' -> Dd C.
    assert (Np : noDigit p).
    { apply digitCount_noDigit. rewrite O, !digitCount_app in T. lia. }
    destruct a as [|a1 a]; [discriminate|]. digits_inv.
    simpl app in O |- *.
    exact (@first_digit pre p a1 _ d _ Npre Np ltac:(assumption) Dd O). }
  destruct F as [(Dm & Lm)|[(a' & g1 & b' & g2 & c' & -> & Da' & La' & G1 & Db' & Lb' & G2 & Dc' & Lc')
                           |(g & d & -> & G & Dd & Ld)]].
  - destruct m as [|m1 m]; [discriminate|].
    assert (C : digitCount (m1 :: m) = 10) by (now rewrite (digitCount_digits Dm)).
    pose proof Dm as Dm'. apply Forall_cons_iff in Dm'. destruct Dm' as (D1 & _).
    specialize (Aligned _ _ eq_refl D1 C).
    do 5 (destruct a as [|? a]; [discriminate|]).
    destruct a; [|discriminate].
    do 9 (destruct m as [|? m]; [discriminate|]).
    destruct m; [|discriminate].
    simpl in Aligned. injection Aligned as -> -> -> -> -> -> _.
    digits_inv. congruence.
  - destruct a' as [|p1 a']; [discriminate|].
    assert (C : digitCount ((p1 :: a') ++ g1 ++ b' ++ g2 ++ c') = 10).
    { rewrite !digitCount_app, (digitCount_digits Da'), (digitCount_digits Db'),
        (digitCount_digits Dc'), (digitCount_phoneGap G1),
        (digitCount_phoneGap G2). lia. }
    pose proof Da' as Da''. apply Forall_cons_iff in Da''. destruct Da'' as (D1 & _).
    specialize (Aligned _ _ eq_refl D1 C).
    do 5 (destruct a as [|? a]; [discriminate|]).
    destruct a; [|discriminate].
    do 2 (destruct a' as [|? a']; [discriminate|]).
    destruct a'; [|discriminate].
    do 3 (destruct b' as [|? b']; [discriminate|]).
    destruct b'; [|discriminate].
    destruct G1 as [->|(y & -> & Hy)]; simpl in Aligned.
    + injection Aligned as -> -> -> -> -> -> _. digits_inv. congruence.
    + injection Aligned as -> -> -> -> _.
      apply spaceOrDash_not_digit in Hy. digits_inv. congruence.
  - assert (C : digitCount (js "+91" ++ g ++ d) = 12).
    { rewrite !digitCount_app, (digitCount_digits Dd).
      rewrite (digitCount_phoneGap G).
      change (digitCount (js "+91")) with 2. lia. }
    lia.
Qed.

(** C6, as the code has it.  Exact equality of the two last-10-digit
    windows yields [found = true] with confidence 1.0 for the first
    candidate of the scan that is not rejected: a mobile number of ten
    digits that opens the digits of the text, or any candidate before which
    every candidate is rejected.  A candidate is a piece of the text of
    one of three forms: ten digits; three, three and four digits with at
    most one white space or hyphen after the first and after the second
    group; "+91", at most one white space or hyphen, and ten digits.  A
    number in two groups of five is none of them: on a text whose only
    digits are two groups of five with one other character between them
    the matcher returns [found = false] with confidence 0, whatever the
    declared phone.  So, for the declared phone "9876543210", the text
    "987-654-3210" gives [found = true] with confidence 1.0 and the text
    "98765-43210" gives [found = false] with confidence 0. *)
Theorem phone_exact_match {host : Host} :
  (forall phoneInput pre x tl post,
     slice_last 10 (extractDigits phoneInput) = x :: tl ->
     mobileFirst x = true -> digits tl -> length tl = 9 ->
     noDigit pre -> notWordFirst (rev pre) -> notWordFirst post ->
     findPhoneInText phoneInput (pre ++ (x :: tl) ++ post)
     = Result true 1 (Some (x :: tl)))
  /\ (forall phoneInput documentText pre c post,
        phoneCandidates documentText = pre ++ c :: post ->
        slice_last 10 (extractDigits c) = slice_last 10 (extractDigits phoneInput) ->
        (forall e, In e pre ->
           slice_last 10 (extractDigits e) <> slice_last 10 (extractDigits phoneInput)
           /\ (getSimilarity (slice_last 10 (extractDigits phoneInput))
                             (slice_last 10 (extractDigits e)) < 8 # 10)%Q) ->
        findPhoneInText phoneInput documentText = Result true 1 (Some c))
  /\ (forall documentText m,
        In m (phoneCandidates documentText) ->
        occursIn m documentText /\ phoneForm m)
  /\ (forall phoneInput pre a x b post,
        digits a -> length a = 5 -> isDigit x = false ->
        digits b -> length b = 5 -> noDigit pre -> noDigit post ->
        findPhoneInText phoneInput (pre ++ a ++ x :: b ++ post) = notFound)
  /\ findPhoneInText (js "9876543210") (js "987-654-3210")
     = Result true 1 (Some (js "987-654-3210"))
  /\ findPhoneInText (js "9876543210") (js "98765-43210") = notFound.
Proof.
  split; [|split; [|split; [|split; [|split]]]].
  - intros. now apply findPhoneInText_mobile.
  - intros. now apply findPhoneInText_exact with (pre := pre) (post := post).
  - intros documentText m H.
    split; [exact (candidates_occur _ _ _ H) | exact (phoneCandidates_form _ _ H)].
  - intros. rewrite findPhoneInText_candidates, phoneCandidates_five_five
      by assumption. reflexivity.
  - reflexivity.
  - reflexivity.
Qed.

Lemma phone_exact_match_witness :
  findPhoneInText (js "+91 98765 43210") (js "Mobile: 9876543210")
  = Result true 1 (Some (js "9876543210")).
Proof.
  apply (proj1 phone_exact_match (js "+91 98765 43210") (js "Mobile: ")
               57%N (js "876543210") []);
    match goal with
    | |- digits _ => repeat constructor
    | |- noDigit _ => repeat constructor
    | |- notWordFirst _ => reflexivity || exact I
    | |- _ => reflexivity
    end.
Defined.

(** The declared number written in two groups of five: no pattern of the
    scan matches it. *)
Lemma phone_exact_match_counterexample :
  includes (js "98765-43210") (js "98765-43210") = true
  /\ findPhoneInText (js "9876543210") (js "98765-43210") = notFound.
Proof. vm_compute. split; reflexivity. Qed.

(** ** What the matchers extract *)

(** X3. The phone matcher returns either [found = false] with confidence 0
    and no text, or [found = true] with a confidence of at least 0.8 and,
    as the extracted phone, a piece of the document as it stands that
    holds ten digits, or twelve with the country code. *)
Theorem findPhoneInText_results {host : Host} (phoneInput documentText : str) :
  let r := findPhoneInText phoneInput documentText in
  r = notFound
  \/ (found r = true /\ (8 # 10 <= confidence r)%Q
      /\ exists m, extracted r = Some m /\ occursIn m documentText
                   /\ (digitCount m = 10 \/ digitCount m = 12)).
Proof.
  intros r. subst r. rewrite findPhoneInText_candidates.
  destruct (firstReturn _ _) as [r|] eqn:E; simpl; [right | now left].
  apply firstReturn_Some in E. destruct E as (c & Hin & Hc).
  destruct (phoneCandidate_returns _ _ Hc) as (F & C & X).
  split; [exact F|]. split; [exact C|]. exists c. split; [exact X|].
  split; [exact (candidates_occur _ _ _ Hin) | exact (phoneCandidates_shape _ _ Hin)].
Qed.

(** X4. The ID matcher returns either [found = false] and no text, or
    [found = true] and, as the extracted number, a piece of the document
    as it stands: exactly twelve digits, with white space only between
    them, in at most fourteen code units. *)
Theorem findAadhaarInText_extracted {host : Host} (aadhaarInput documentText : str) :
  let r := findAadhaarInText aadhaarInput documentText in
  (found r = false /\ extracted r = None)
  \/ (found r = true
      /\ exists m, extracted r = Some m /\ occursIn m documentText
                   /\ digitCount m = 12 /\ length m <= 14
                   /\ Forall digitOrSpace m).
Proof.
  intros r. subst r. rewrite findAadhaarInText_candidates.
  destruct (firstReturn _ _) as [r|] eqn:E; simpl; [right | now left].
  apply firstReturn_Some in E. destruct E as (c & Hin & Hc).
  split; [exact (proj1 (aadhaarCandidate_returns _ _ Hc))|].
  exists c. split; [exact (aadhaarCandidate_extracted _ _ Hc)|].
  split; [exact (candidates_occur _ _ _ Hin) | exact (aadhaarCandidates_shape _ _ Hin)].
Qed.

(** X5. The date matcher that compares digits returns either
    [found = false] with confidence 0 and no text, or [found = true] with a
    confidence of at least 0.6 and, as the extracted date, a piece of the
    document as it stands, which holds no digit at all or four to eight
    digits. *)
Theorem findDateInText_results {host : Host} (dateInput documentText : str) :
  let r := findDateInText dateInput documentText in
  r = notFound
  \/ (found r = true /\ (6 # 10 <= confidence r)%Q
      /\ exists t, extracted r = Some t /\ occursIn t documentText
                   /\ (digitCount t = 0 \/ 4 <= digitCount t <= 8)).
Proof.
  intros r. subst r. unfold findDateInText. rewrite firstReturn_flat_map.
  destruct (firstReturn _ _) as [r|] eqn:E; simpl; [right | now left].
  apply firstReturn_Some in E. destruct E as (mt & Hin & Hc).
  destruct (dateCandidate_returns _ _ Hc) as (F & C & X).
  split; [exact F|]. split; [exact C|]. exists (groupOrWhole mt).
  split; [exact X|]. split; [|exact (dateTexts_shape _ _ Hin)].
  apply in_flat_map in Hin. destruct Hin as (pattern & _ & Hin).
  exact (groupOrWhole_sound _ _ _ Hin).
Qed.

(** ** Dates written with the name of the month *)

Lemma firstReturn_none {A B : Type} (f : A -> option B) l :
  (forall x, In x l -> f x = None) -> firstReturn f l = None.
Proof.
  induction l as [|x l IH]; intros H; [reflexivity|].
  simpl. rewrite (H x (or_introl eq_refl)). apply IH.
  intros z Hz. apply H. now right.
Qed.

Lemma digitCount_zero s : digitCount s = 0 -> extractDigits s = [].
Proof. unfold digitCount, extractDigits. now destruct (filter isDigit s). Qed.

(** X15. For a match of one of the two patterns with the name of a month,
    whatever the document, the date matcher compares the name of the month
    alone: three letters, no digit.  So, for a declared date with a digit
    in it, and a similarity to the empty string below 0.6, these two
    patterns contribute nothing: the function returns what it returns
    without them. *)
Theorem month_name_patterns_compare_no_digit {host : Host} (documentText : str) :
  (forall mt,
     In mt (matchAll (nth 1 datePatterns Eps) documentText)
     \/ In mt (matchAll (nth 2 datePatterns Eps) documentText) ->
     length (groupOrWhole mt) = 3 /\ extractDigits (groupOrWhole mt) = [])
  /\ forall dateInput,
       extractDigits dateInput <> [] ->
       (getSimilarity (extractDigits dateInput) [] < 6 # 10)%Q ->
       findDateInText dateInput documentText
       = orElse
           (firstReturn
              (fun pattern =>
                 firstReturn (dateCandidate (extractDigits dateInput))
                             (matchAll pattern documentText))
              numericPatterns)
           notFound.
Proof.
  assert (S : forall mt,
             In mt (matchAll (nth 1 datePatterns Eps) documentText)
             \/ In mt (matchAll (nth 2 datePatterns Eps) documentText) ->
             length (groupOrWhole mt) = 3 /\ extractDigits (groupOrWhole mt) = []).
  { intros mt H. destruct (monthName_compared _ _ H) as (L & D).
    split; [exact L | exact (digitCount_zero _ D)]. }
  split; [exact S|].
  intros dateInput Hne Hsim.
  assert (N : forall mt,
             In mt (matchAll (nth 1 datePatterns Eps) documentText)
             \/ In mt (matchAll (nth 2 datePatterns Eps) documentText) ->
             dateCandidate (extractDigits dateInput) mt = None).
  { intros mt H. destruct (S mt H) as (_ & E). unfold dateCandidate.
    rewrite E. cbn [length Nat.eqb andb].
    destruct (str_eqb [] (extractDigits dateInput)) eqn:Q.
    - apply str_eqb_eq in Q. congruence.
    - apply geq_false_iff in Hsim. now rewrite Hsim. }
  unfold findDateInText, numericPatterns, datePatterns.
  unfold datePatterns in N. cbn [nth] in N.
  cbn [firstReturn nth].
  destruct (firstReturn _ (matchAll _ documentText)) as [r|]; [reflexivity|].
  rewrite (firstReturn_none _ _ (fun mt H => N mt (or_introl H))).
  rewrite (firstReturn_none _ _ (fun mt H => N mt (or_intror H))).
  reflexivity.
Qed.

Lemma month_name_patterns_compare_no_digit_witness :
  findDateInText (host := unitHost) (js "1995-07-14") (js "Born 14 Jul 1995, DOB: 14/07/95")
  = orElse
      (firstReturn
         (fun pattern =>
            firstReturn (dateCandidate (extractDigits (js "1995-07-14")))
                        (matchAll pattern (js "Born 14 Jul 1995, DOB: 14/07/95")))
         numericPatterns)
      notFound.
Proof.
  apply (proj2 (month_name_patterns_compare_no_digit (host := unitHost)
                  (js "Born 14 Jul 1995, DOB: 14/07/95"))).
  - discriminate.
  - reflexivity.
Defined.

(** * Properties of the other components

    ** Patterns anchored at both ends *)

Lemma searchFrom_Bol r : forall aft bef,
  bef <> [] -> searchFrom (Seq Bol r) bef aft = None.
Proof.
  induction aft as [|c aft IH]; intros bef H; cbn [searchFrom];
    destruct bef as [|b bef]; try contradiction; cbn.
  - reflexivity.
  - apply IH. discriminate.
Qed.

Lemma run_Bol (R : Type) (k : cont R) r aft cs :
  run (Seq Bol r) (Cursor [] aft) cs k = run r (Cursor [] aft) cs k.
Proof. reflexivity. Qed.

Lemma run_to_the_end (R : Type) (k : cont R) r s cs x :
  run (Seq r Eol) (Cursor [] s) cs k = Some x -> exists cs', sem r s cs cs'.
Proof.
  rewrite run_Seq. intros A.
  destruct (run_follows _ _ _ _ A) as (s1 & q & cs' & A1 & _ & P & K).
  cbn [run] in K. destruct (after q) eqn:Q; [|discriminate].
  cbn [after] in A1. rewrite app_nil_r in A1. subst s1. now exists cs'.
Qed.

Lemma test_Bol r s :
  test (Seq Bol r) s = true -> exists m, matchAt r (Cursor [] s) = Some m.
Proof.
  unfold test. destruct (searchFrom _ [] s) as [m|] eqn:E; [intros _|discriminate].
  rewrite searchFrom_eq in E.
  change (matchAt (Seq Bol r) (Cursor [] s)) with (matchAt r (Cursor [] s)) in E.
  destruct (matchAt r (Cursor [] s)) as [m'|] eqn:A.
  - now exists m'.
  - destruct s as [|c s]; [discriminate|].
    rewrite searchFrom_Bol in E; [discriminate | discriminate].
Qed.

Lemma matchAt_test r s m :
  matchAt r (Cursor [] s) = Some m -> test r s = true.
Proof. intros H. unfold test. rewrite searchFrom_eq, H. reflexivity. Qed.

Lemma test_twelveDigits s :
  test PersonalInfoForm.twelveDigits s = true <-> digits s /\ length s = 12.
Proof.
  unfold PersonalInfoForm.twelveDigits. cbn [conc]. split.
  - intros H. apply test_Bol in H. destruct H as (m & H).
    apply run_to_the_end in H. destruct H as (cs & H).
    unfold times, dig in H. sem_inv. split; [assumption | lia].
  - intros (D & L). eapply matchAt_test. unfold matchAt.
    rewrite run_Bol, run_Seq.
    rewrite <- (app_nil_r s) at 1. rewrite run_digits by assumption.
    reflexivity.
Qed.

Lemma test_mobileNumber s :
  test PersonalInfoForm.mobileNumber s = true
  <-> exists c ds, s = c :: ds /\ mobileFirst c = true /\ digits ds /\ length ds = 9.
Proof.
  unfold PersonalInfoForm.mobileNumber. cbn [conc]. split.
  - intros H. apply test_Bol in H. destruct H as (m & H). unfold matchAt in H.
    change (@run rmatch (Seq (Bracket [Span (chr "6") (chr "9")])
                             (Seq (times 9 dig) Eol)))
      with (@run rmatch (Seq (Seq (Bracket [Span (chr "6") (chr "9")])
                                  (times 9 dig)) Eol)) in H.
    apply run_to_the_end in H. destruct H as (cs & H).
    unfold times, dig in H. sem_inv.
    match goal with
    | E : existsb _ _ = true |- _ =>
        cbn [existsb inItem] in E; rewrite orb_false_r in E
    end.
    eexists _, _. split; [reflexivity|]. split; [assumption|].
    split; [assumption | lia].
  - intros (c & ds & -> & M & D & L). eapply matchAt_test. unfold matchAt.
    rewrite run_Bol, run_Seq, run_Bracket.
    cbn [existsb inItem]. unfold mobileFirst in M. rewrite M. cbn [orb].
    rewrite run_Seq.
    rewrite <- (app_nil_r ds) at 1. rewrite run_digits by assumption.
    reflexivity.
Qed.

(** ** [PersonalInfoForm] *)

Lemma trimEnd_nil t : trimEnd t = [] -> blank t.
Proof.
  induction t as [|c t IH]; intros H; [constructor|].
  simpl in H. destruct (trimEnd t) eqn:E; [|discriminate].
  destruct (isSpace c) eqn:S; [|discriminate].
  constructor; [exact S | now apply IH].
Qed.

Lemma trimStart_blank s : blank (trimStart s) -> blank s.
Proof.
  induction s as [|c s IH]; intros H; [constructor|].
  simpl in H. destruct (isSpace c) eqn:S.
  - constructor; [exact S | now apply IH].
  - exact H.
Qed.

Lemma blank_trim s : blank s -> trim s = [].
Proof.
  unfold trim. induction 1 as [|c s Hc _ IH]; [reflexivity|].
  simpl. now rewrite Hc.
Qed.

Lemma trim_nil_iff s : trim s = [] <-> blank s.
Proof.
  split; [|apply blank_trim].
  intros H. apply trimStart_blank, trimEnd_nil, H.
Qed.

Lemma blank_removeSpaces s : blank s -> removeSpaces s = [].
Proof.
  unfold removeSpaces. induction 1 as [|c s Hc _ IH]; [reflexivity|].
  simpl. now rewrite Hc.
Qed.

Lemma nonEmpty_iff s : PersonalInfoForm.nonEmpty s = true <-> s <> [].
Proof. destruct s; simpl; split; congruence. Qed.

Lemma nonEmpty_false_iff s : PersonalInfoForm.nonEmpty s = false <-> s = [].
Proof. destruct s; simpl; split; congruence. Qed.

Lemma isValid_iff l : PersonalInfoForm.isValid l = true <-> l = [].
Proof.
  unfold PersonalInfoForm.isValid.
  destruct l; simpl; split; (discriminate || reflexivity).
Qed.

Lemma app_nil_iff {A : Type} (l m : list A) : l ++ m = [] <-> l = [] /\ m = [].
Proof.
  split; [apply app_eq_nil|]. intros (-> & ->). reflexivity.
Qed.

Section FormLemmas.
Import PersonalInfoForm.
Variable dateTime : str -> option Z.
Variable fullYear : Z -> Z.
Variable today : Z.

Lemma validateForm_nil_iff formData :
  validateForm dateTime fullYear today formData = [] <->
  2 <= length (trim (name formData))
  /\ dateOfBirth formData <> []
  /\ (forall dob, dateTime (dateOfBirth formData) = Some dob ->
        (18 <= fullYear today - fullYear dob <= 100)%Z)
  /\ aadhaarNumber (removeSpaces (idNumber formData))
  /\ mobile (removeSpaces (emergencyContact formData))
  /\ ~ blank (location (tripDetails formData))
  /\ startDate (tripDetails formData) <> []
  /\ endDate (tripDetails formData) <> []
  /\ (forall e s,
        dateTime (endDate (tripDetails formData)) = Some e ->
        dateTime (startDate (tripDetails formData)) = Some s -> (s < e)%Z).
Proof.
  unfold validateForm, entry, Errors.
  rewrite !app_nil_iff.
  assert (B1 : (if negb (nonEmpty (trim (name formData)))
                then [(js "name", js "Full name is required")]
                else if Nat.ltb (length (trim (name formData))) 2
                then [(js "name", js "Name must be at least 2 characters")]
                else []) = [] <-> 2 <= length (trim (name formData))).
  { destruct (trim (name formData)) as [|c t]; simpl; [split; [discriminate | lia]|].
    destruct t; simpl; split; try discriminate; try lia; reflexivity. }
  assert (B2 : (if negb (nonEmpty (dateOfBirth formData))
                then [(js "dateOfBirth", js "Date of birth is required")]
                else match dateTime (dateOfBirth formData) with
                     | Some dob =>
                         let age := (fullYear today - fullYear dob)%Z in
                         if (age <? 18)%Z || (100 <? age)%Z
                         then [(js "dateOfBirth", js "Age must be between 18 and 100 years")]
                         else []
                     | None => []
                     end) = [] <->
               dateOfBirth formData <> []
               /\ (forall dob, dateTime (dateOfBirth formData) = Some dob ->
                     (18 <= fullYear today - fullYear dob <= 100)%Z)).
  { destruct (dateOfBirth formData) as [|c t] eqn:E; simpl.
    - split; [discriminate | intros (N & _); congruence].
    - destruct (dateTime (c :: t)) as [dob|]; cbv zeta.
      + destruct (Z.ltb_spec (fullYear today - fullYear dob) 18);
          destruct (Z.ltb_spec 100 (fullYear today - fullYear dob)); simpl;
            (split;
             [first [discriminate
                    | intros _; split; [discriminate|]; intros ? [= <-]; lia]
             |first [intros (_ & A); specialize (A dob eq_refl); lia
                    | reflexivity]]).
      + split; [|reflexivity]. intros _. split; discriminate. }
  assert (B3 : (if negb (nonEmpty (trim (idNumber formData)))
                then [(js "idNumber", js "Aadhaar number is required")]
                else if negb (test twelveDigits (removeSpaces (idNumber formData)))
                then [(js "idNumber", js "Aadhaar number must be 12 digits")]
                else []) = [] <-> aadhaarNumber (removeSpaces (idNumber formData))).
  { unfold aadhaarNumber. rewrite <- test_twelveDigits.
    destruct (nonEmpty (trim (idNumber formData))) eqn:N; simpl.
    - destruct (test twelveDigits _); simpl; split; congruence.
    - apply nonEmpty_false_iff, trim_nil_iff, blank_removeSpaces in N.
      rewrite N. split; discriminate. }
  assert (B4 : (if negb (nonEmpty (trim (emergencyContact formData)))
                then [(js "emergencyContact", js "Emergency contact is required")]
                else if negb (test mobileNumber (removeSpaces (emergencyContact formData)))
                then [(js "emergencyContact", js "Please enter a valid 10-digit mobile number")]
                else []) = [] <-> mobile (removeSpaces (emergencyContact formData))).
  { unfold mobile. rewrite <- test_mobileNumber.
    destruct (nonEmpty (trim (emergencyContact formData))) eqn:N; simpl.
    - destruct (test mobileNumber _); simpl; split; congruence.
    - apply nonEmpty_false_iff, trim_nil_iff, blank_removeSpaces in N.
      rewrite N. split; discriminate. }
  assert (B5 : (if negb (nonEmpty (trim (location (tripDetails formData))))
                then [(js "location", js "Travel destination is required")]
                else []) = [] <-> ~ blank (location (tripDetails formData))).
  { rewrite <- trim_nil_iff.
    destruct (trim (location (tripDetails formData))); simpl; split;
      congruence. }
  assert (B6 : (if negb (nonEmpty (startDate (tripDetails formData)))
                then [(js "startDate", js "Travel start date is required")]
                else []) = [] <-> startDate (tripDetails formData) <> []).
  { destruct (startDate (tripDetails formData)); simpl; split; congruence. }
  assert (B7 : (if negb (nonEmpty (endDate (tripDetails formData)))
                then [(js "endDate", js "Travel end date is required")]
                else match dateTime (endDate (tripDetails formData)),
                           dateTime (startDate (tripDetails formData)) with
                     | Some e, Some s =>
                         if (e <=? s)%Z
                         then [(js "endDate", js "End date must be after start date")]
                         else []
                     | _, _ => []
                     end) = [] <->
               endDate (tripDetails formData) <> []
               /\ (forall e s,
                     dateTime (endDate (tripDetails formData)) = Some e ->
                     dateTime (startDate (tripDetails formData)) = Some s ->
                     (s < e)%Z)).
  { destruct (endDate (tripDetails formData)) as [|c t] eqn:E; simpl.
    - split; [discriminate | intros (N & _); congruence].
    - destruct (dateTime (c :: t)) as [e|];
        [destruct (dateTime (startDate (tripDetails formData))) as [s|]|].
      + destruct (Z.leb_spec e s); split.
        * discriminate.
        * intros (_ & A). specialize (A e s eq_refl eq_refl). lia.
        * intros _. split; [discriminate|]. intros ? ? [= <-] [= <-]. lia.
        * reflexivity.
      + split; [|reflexivity]. intros _. split; discriminate.
      + split; [|reflexivity]. intros _. split; discriminate. }
  rewrite B1, B2, B3, B4, B5, B6, B7. tauto.
Qed.

End FormLemmas.

(** X16. [validateForm] accepts a form exactly when: the name has two
    characters or more once trimmed; the date of birth is not empty and,
    if [Date] can read it, the difference of the calendar years is between
    18 and 100; the ID number without its white space is twelve digits; the
    emergency contact without its white space is ten digits, the first of
    them from 6 to 9; the destination is not blank; the start date is not
    empty; the end date is not empty and, if [Date] can read both dates,
    later than the start date.  A date that [Date] cannot read passes. *)
Theorem validateForm_accepts_iff (dateTime : str -> option Z)
        (fullYear : Z -> Z) (today : Z) (formData : PersonalInfoForm.Fields) :
  PersonalInfoForm.isValid
    (PersonalInfoForm.validateForm dateTime fullYear today formData) = true
  <->
  2 <= length (trim (PersonalInfoForm.name formData))
  /\ PersonalInfoForm.dateOfBirth formData <> []
  /\ (forall dob, dateTime (PersonalInfoForm.dateOfBirth formData) = Some dob ->
        (18 <= fullYear today - fullYear dob <= 100)%Z)
  /\ aadhaarNumber (removeSpaces (PersonalInfoForm.idNumber formData))
  /\ mobile (removeSpaces (PersonalInfoForm.emergencyContact formData))
  /\ ~ blank (PersonalInfoForm.location (PersonalInfoForm.tripDetails formData))
  /\ PersonalInfoForm.startDate (PersonalInfoForm.tripDetails formData) <> []
  /\ PersonalInfoForm.endDate (PersonalInfoForm.tripDetails formData) <> []
  /\ (forall e s,
        dateTime (PersonalInfoForm.endDate (PersonalInfoForm.tripDetails formData))
        = Some e ->
        dateTime (PersonalInfoForm.startDate (PersonalInfoForm.tripDetails formData))
        = Some s ->
        (s < e)%Z).
Proof. rewrite isValid_iff. apply validateForm_nil_iff. Qed.

(** X17. [handleSubmit] hands data to [onUpdate], and moves on with
    [onNext], only for a form that [validateForm] accepts, and then stores
    no error; the ID number it hands over is exactly twelve digits and the
    emergency contact exactly ten, the first from 6 to 9, whatever white
    space was typed; the other fields are handed over as typed.  For any
    other form it stores at least one error and shows "Validation Error"
    only. *)
Theorem handleSubmit_saves_checked_data (dateTime : str -> option Z)
        (fullYear : Z -> Z) (today : Z) (formData : PersonalInfoForm.Fields) :
  let '(errors, actions) :=
    PersonalInfoForm.handleSubmit dateTime fullYear today formData in
  (errors = []
   /\ exists data,
        actions = [OnUpdate data; OnNext; ShowToast "Information Saved"]
        /\ aadhaarNumber (PersonalInfoForm.idNumber data)
        /\ mobile (PersonalInfoForm.emergencyContact data)
        /\ PersonalInfoForm.name data = PersonalInfoForm.name formData
        /\ PersonalInfoForm.dateOfBirth data = PersonalInfoForm.dateOfBirth formData
        /\ PersonalInfoForm.tripDetails data = PersonalInfoForm.tripDetails formData)
  \/ (errors <> [] /\ actions = [ShowToast "Validation Error"]).
Proof.
  unfold PersonalInfoForm.handleSubmit.
  destruct (PersonalInfoForm.isValid _) eqn:V.
  - left. apply isValid_iff in V. split; [exact V|].
    apply validateForm_nil_iff in V.
    destruct V as (_ & _ & _ & A & M & _).
    eexists. split; [reflexivity|]. simpl. auto.
  - right. split; [|reflexivity]. intros E. apply isValid_iff in E. congruence.
Qed.

Lemma get_absent key (o : PersonalInfoForm.Errors) :
  (forall k v, In (k, v) o -> k <> key) -> PersonalInfoForm.get key o = None.
Proof.
  induction o as [|[k v] o IH]; intros H; [reflexivity|].
  simpl. destruct (str_eqb k key) eqn:E.
  - apply str_eqb_eq in E. exfalso. exact (H k v (or_introl eq_refl) E).
  - apply IH. intros k' v' Hin. apply (H k' v'). now right.
Qed.

Lemma validateForm_keys dateTime fullYear today formData k v :
  In (k, v) (PersonalInfoForm.validateForm dateTime fullYear today formData) ->
  In k errorKeys.
Proof.
  unfold PersonalInfoForm.validateForm, PersonalInfoForm.entry, errorKeys.
  rewrite !in_app_iff.
  intros [H|[H|[H|[H|[H|[H|H]]]]]];
    repeat match type of H with
           | In _ (if ?c then _ else _) => destruct c
           | In _ (match ?c with Some _ => _ | None => _ end) => destruct c
           end;
    simpl in H; try contradiction;
    destruct H as [E | []]; injection E as <- _; simpl; tauto.
Qed.

Lemma get_set_same key v (o : PersonalInfoForm.Errors) :
  PersonalInfoForm.get key (PersonalInfoForm.set key v o) = Some v.
Proof.
  induction o as [|[k x] o IH]; simpl.
  - now rewrite str_eqb_refl.
  - destruct (str_eqb k key) eqn:E; simpl; rewrite E; [reflexivity | exact IH].
Qed.

Lemma get_set_other key other v (o : PersonalInfoForm.Errors) :
  other <> key ->
  PersonalInfoForm.get other (PersonalInfoForm.set key v o)
  = PersonalInfoForm.get other o.
Proof.
  intros N. induction o as [|[k x] o IH]; simpl.
  - destruct (str_eqb key other) eqn:E; [|reflexivity].
    apply str_eqb_eq in E. congruence.
  - destruct (str_eqb k key) eqn:E; simpl.
    + apply str_eqb_eq in E. subst k.
      destruct (str_eqb key other) eqn:E'; [|reflexivity].
      apply str_eqb_eq in E'. congruence.
    + now rewrite IH.
Qed.

(** X18. Typing in a field of the trip never clears the error shown for
    it: [validateForm] stores the errors of the trip under [location],
    [startDate] and [endDate], and [handleChange] looks for them under
    [tripDetails.location], [tripDetails.startDate] and
    [tripDetails.endDate].  Typing in any field leaves the errors of the
    other fields as they are, and for the four fields that are not of the
    trip it clears the error of the field. *)
Theorem trip_errors_are_never_cleared (dateTime : str -> option Z)
        (fullYear : Z -> Z) (today : Z)
        (checked formData : PersonalInfoForm.Fields)
        (field : PersonalInfoForm.FieldName) (value : str) :
  let errors := PersonalInfoForm.validateForm dateTime fullYear today checked in
  let errors' := snd (PersonalInfoForm.handleChange field value (formData, errors)) in
  (tripField field -> errors' = errors)
  /\ (~ tripField field ->
      PersonalInfoForm.get (PersonalInfoForm.fieldKey field) errors' = None
      \/ PersonalInfoForm.get (PersonalInfoForm.fieldKey field) errors' = Some [])
  /\ forall key,
       key <> PersonalInfoForm.fieldKey field ->
       PersonalInfoForm.get key errors' = PersonalInfoForm.get key errors.
Proof.
  cbv zeta. unfold PersonalInfoForm.handleChange. cbn [snd].
  set (errors := PersonalInfoForm.validateForm dateTime fullYear today checked).
  split; [|split].
  - intros T. subst errors.
    rewrite get_absent; [reflexivity|].
    intros k v Hin E. apply validateForm_keys in Hin. subst k.
    destruct T as [-> | [-> | ->]]; unfold errorKeys in Hin; simpl in Hin;
      repeat (destruct Hin as [Hin|Hin]; [discriminate Hin|]); exact Hin.
  - intros _.
    destruct (PersonalInfoForm.get (PersonalInfoForm.fieldKey field) errors)
      as [[|c m]|] eqn:G; auto.
    right. apply get_set_same.
  - intros key N.
    destruct (PersonalInfoForm.get (PersonalInfoForm.fieldKey field) errors)
      as [[|c m]|]; try reflexivity.
    now apply get_set_other.
Qed.

Lemma trip_errors_are_never_cleared_witness :
  let blankTrip :=
    PersonalInfoForm.FieldsOf (js "Asha Verma") (js "1995-07-14")
      (js "1234 5678 9012") (js "9876543210")
      (PersonalInfoForm.Trip [] [] []) in
  let errors :=
    PersonalInfoForm.validateForm sampleDateTime sampleFullYear 754000 blankTrip in
  PersonalInfoForm.get (js "location") errors
  = Some (js "Travel destination is required")
  /\ snd (PersonalInfoForm.handleChange PersonalInfoForm.TripLocation (js "Goa")
            (blankTrip, errors)) = errors.
Proof.
  cbv zeta. split; [reflexivity|].
  apply (proj1 (trip_errors_are_never_cleared sampleDateTime sampleFullYear 754000
                  _ _ PersonalInfoForm.TripLocation (js "Goa"))).
  left. reflexivity.
Defined.

(** ** The formatters of the form *)

Lemma digits_extractDigits s : digits (extractDigits s).
Proof.
  unfold digits, extractDigits. induction s as [|c s IH]; simpl; [constructor|].
  destruct (isDigit c) eqn:E; [constructor; assumption | exact IH].
Qed.

Lemma digits_firstn n s : digits s -> digits (firstn n s).
Proof.
  unfold digits. intros H. revert n.
  induction H as [|c s Hc _ IH]; intros [|n]; simpl; constructor; auto.
Qed.

Lemma digits_removeSpaces s : digits s -> removeSpaces s = s.
Proof.
  unfold removeSpaces. induction 1 as [|c s Hc _ IH]; [reflexivity|].
  simpl. destruct (isSpace c) eqn:E.
  - apply isSpace_not_digit in E. congruence.
  - simpl. now rewrite IH.
Qed.

(** X19. What [formatPhoneNumber] returns, and what the input of the
    emergency contact stores, is the first ten digits of what was typed:
    digits only, ten at most, and formatting it again or taking white space
    out of it changes nothing. *)
Theorem formatPhoneNumber_first_ten_digits (value : str)
        (state : PersonalInfoForm.Fields * PersonalInfoForm.Errors) :
  let phone := PersonalInfoForm.formatPhoneNumber value in
  phone = firstn 10 (extractDigits value)
  /\ digits phone /\ length phone <= 10
  /\ PersonalInfoForm.formatPhoneNumber phone = phone
  /\ removeSpaces phone = phone
  /\ PersonalInfoForm.emergencyContact
       (fst (PersonalInfoForm.typeEmergencyContact value state)) = phone.
Proof.
  assert (E : forall v, PersonalInfoForm.formatPhoneNumber v
                        = firstn 10 (extractDigits v)).
  { intros v. unfold PersonalInfoForm.formatPhoneNumber.
    destruct (Nat.leb_spec (length (extractDigits v)) 10) as [L|L].
    - symmetry. now apply firstn_all2.
    - reflexivity. }
  cbv zeta. rewrite !E.
  assert (D : digits (firstn 10 (extractDigits value)))
    by apply digits_firstn, digits_extractDigits.
  split; [reflexivity|]. split; [exact D|].
  split; [apply firstn_le_length|].
  split; [|split; [exact (digits_removeSpaces D)|]].
  - rewrite (extractDigits_digits D). apply firstn_all2.
    apply firstn_le_length.
  - destruct state as [formData errors].
    unfold PersonalInfoForm.typeEmergencyContact. cbn. apply E.
Qed.

(** ** [replace] with three groups of four digits *)

Lemma run_Group (R : Type) (k : cont R) n a p cs :
  run (Group n a) p cs k = run a p cs (fun q cs' => k q ((n, consumed p q) :: cs')).
Proof. reflexivity. Qed.

Lemma consumed_digits ds bef aft :
  consumed (Cursor bef (ds ++ aft)) (Cursor (rev ds ++ bef) aft) = ds.
Proof. unfold consumed. cbn [after]. apply firstn_consumed. Qed.

Lemma matchAt_threeGroups a b c aft :
  digits a -> length a = 4 -> digits b -> length b = 4 ->
  digits c -> length c = 4 ->
  matchAt threeGroups (Cursor [] (a ++ b ++ c ++ aft))
  = Some (RMatch (a ++ b ++ c) [(3, c); (2, b); (1, a)]
                 (Cursor (rev c ++ rev b ++ rev a ++ []) aft)).
Proof.
  intros Da La Db Lb Dc Lc. unfold matchAt, threeGroups. cbn [conc].
  rewrite run_Seq, run_Group, run_digits by assumption.
  rewrite run_Seq, run_Group, run_digits by assumption.
  rewrite run_Group, run_digits by assumption.
  rewrite !consumed_digits. f_equal. f_equal.
  unfold consumed. cbn [after].
  replace (a ++ b ++ c ++ aft) with ((a ++ b ++ c) ++ aft)
    by (now rewrite <- !app_assoc).
  apply firstn_consumed.
Qed.

Lemma occursIn_length s text : occursIn s text -> length s <= length text.
Proof. intros (pre & post & ->). rewrite !length_app. lia. Qed.

Lemma threeGroups_needs_twelve s :
  length s < 12 -> match1 threeGroups s = None.
Proof.
  intros L. unfold match1. destruct (searchFrom threeGroups [] s) as [m|] eqn:E;
    [exfalso | reflexivity].
  pose proof (searchFrom_sem _ _ _ E) as S.
  destruct (searchFrom_sound _ _ _ E) as (O & _). apply occursIn_length in O.
  simpl in O.
  remember (whole m) as w. remember (groups m) as g.
  unfold threeGroups in S. cbn [conc] in S. unfold times, dig in S. sem_inv.
  rewrite !length_app in O. lia.
Qed.

Lemma trimStart_kept c s : isSpace c = false -> trimStart (c :: s) = c :: s.
Proof. intros H. simpl. now rewrite H. Qed.

Lemma trimEnd_kept s : forall c, isSpace c = false -> trimEnd (s ++ [c]) = s ++ [c].
Proof.
  induction s as [|x s IH]; intros c H; simpl.
  - now rewrite H.
  - rewrite (IH c H). destruct (s ++ [c]) eqn:E; [|reflexivity].
    destruct s; discriminate.
Qed.

Lemma trim_digits s : digits s -> trim s = s.
Proof.
  intros D. destruct s as [|c s]; [reflexivity|].
  inversion D as [|? ? Hc Hs]; subst.
  assert (Sc : isSpace c = false).
  { destruct (isSpace c) eqn:E; [|reflexivity].
    apply isSpace_not_digit in E. congruence. }
  unfold trim. rewrite (@trimStart_kept _ _ Sc).
  destruct (exists_last (l := c :: s)) as (t & z & E); [discriminate|].
  rewrite E. apply trimEnd_kept.
  assert (Hz : In z (c :: s)) by (rewrite E; apply in_or_app; right; now left).
  unfold digits in D. rewrite Forall_forall in D. specialize (D z Hz).
  destruct (isSpace z) eqn:Ez; [|reflexivity].
  apply isSpace_not_digit in Ez. congruence.
Qed.

Lemma split_twelve (s : str) :
  12 <= length s ->
  exists a b c aft,
    s = a ++ b ++ c ++ aft /\ length a = 4 /\ length b = 4 /\ length c = 4.
Proof.
  intros L.
  exists (firstn 4 s), (firstn 4 (skipn 4 s)), (firstn 4 (skipn 8 s)), (skipn 12 s).
  repeat split.
  - rewrite <- (firstn_skipn 4 s) at 1. f_equal.
    rewrite <- (firstn_skipn 4 (skipn 4 s)) at 1. f_equal.
    rewrite skipn_skipn. simpl.
    rewrite <- (firstn_skipn 4 (skipn 8 s)) at 1. f_equal.
    now rewrite skipn_skipn.
  - rewrite length_firstn. lia.
  - rewrite length_firstn, length_skipn. lia.
  - rewrite length_firstn, length_skipn. lia.
Qed.

Lemma digits_app_iff s t : digits (s ++ t) <-> digits s /\ digits t.
Proof. apply Forall_app. Qed.

Lemma replaceFirst_threeGroups a b c aft :
  digits a -> length a = 4 -> digits b -> length b = 4 ->
  digits c -> length c = 4 ->
  replaceFirst threeGroups spacedGroups (a ++ b ++ c ++ aft)
  = a ++ [space] ++ b ++ [space] ++ c ++ aft.
Proof.
  intros Da La Db Lb Dc Lc. unfold replaceFirst, match1.
  rewrite searchFrom_eq, (matchAt_threeGroups aft Da La Db Lb Dc Lc).
  cbn [rest whole after]. unfold expand, spacedGroups, group.
  cbn [flat_map groups capture Nat.eqb].
  replace (length (a ++ b ++ c ++ aft) - length aft - length (a ++ b ++ c))
    with 0 by (rewrite !length_app; lia).
  cbn [firstn app]. rewrite app_nil_r.
  simpl; rewrite <- !app_assoc; simpl; now rewrite <- !app_assoc.
Qed.

Lemma not_space_digit c : isDigit c = true -> isSpace c = false.
Proof.
  intros H. destruct (isSpace c) eqn:E; [|reflexivity].
  apply isSpace_not_digit in E. congruence.
Qed.

(** What the ID input shows for the digits [a ++ b ++ c ++ aft]. *)
Lemma formatAadhaarNumber_grouped value a b c aft :
  extractDigits value = a ++ b ++ c ++ aft ->
  length a = 4 -> length b = 4 -> length c = 4 ->
  PersonalInfoForm.formatAadhaarNumber value
  = a ++ [space] ++ b ++ [space] ++ c ++ aft.
Proof.
  intros E La Lb Lc. unfold PersonalInfoForm.formatAadhaarNumber.
  pose proof (digits_extractDigits value) as D. rewrite E in D.
  apply digits_app_iff in D. destruct D as (Da & D).
  apply digits_app_iff in D. destruct D as (Db & D).
  apply digits_app_iff in D. destruct D as (Dc & Daft).
  rewrite E, (replaceFirst_threeGroups aft Da La Db Lb Dc Lc).
  destruct a as [|x a]; [discriminate|].
  inversion Da as [|? ? Hx _]; subst.
  unfold trim. cbn [app]. rewrite (@trimStart_kept _ _ (not_space_digit _ Hx)).
  assert (Last : exists t z, c ++ aft = t ++ [z] /\ isSpace z = false).
  { destruct (exists_last (l := c ++ aft)) as (t & z & Et);
      [destruct c; discriminate|].
    exists t, z. split; [exact Et|].
    assert (Dz : digits (c ++ aft)) by (apply digits_app_iff; now split).
    unfold digits in Dz. rewrite Forall_forall in Dz.
    apply not_space_digit, Dz. rewrite Et. apply in_or_app. right. now left. }
  destruct Last as (t & z & Et & Sz). rewrite Et.
  replace (x :: a ++ space :: b ++ space :: t ++ [z])
    with ((x :: a ++ space :: b ++ space :: t) ++ [z])
    by (simpl; rewrite <- !app_assoc; simpl; now rewrite <- !app_assoc).
  now apply trimEnd_kept.
Qed.

Lemma removeSpaces_app s t : removeSpaces (s ++ t) = removeSpaces s ++ removeSpaces t.
Proof. apply filter_app. Qed.

(** X20. The ID input shows the digits typed, the first twelve of them in
    three groups of four parted by a space, and what it shows, with the
    white space taken out as the input does on a change, is the digits
    typed again.  Fewer than twelve digits are shown as they are; twelve
    digits are shown in fourteen characters, the length that the input
    allows.  So a change of the input that leaves the text shown as it is
    stores the digits. *)
Theorem formatAadhaarNumber_shows_the_digits (value : str)
        (state : PersonalInfoForm.Fields * PersonalInfoForm.Errors) :
  removeSpaces (PersonalInfoForm.formatAadhaarNumber value) = extractDigits value
  /\ PersonalInfoForm.idNumber
       (fst (PersonalInfoForm.typeIdNumber
               (PersonalInfoForm.formatAadhaarNumber value) state))
     = extractDigits value
  /\ (length (extractDigits value) < 12 ->
      PersonalInfoForm.formatAadhaarNumber value = extractDigits value)
  /\ (forall a b c aft,
        extractDigits value = a ++ b ++ c ++ aft ->
        length a = 4 -> length b = 4 -> length c = 4 ->
        PersonalInfoForm.formatAadhaarNumber value
        = a ++ [space] ++ b ++ [space] ++ c ++ aft)
  /\ (length (extractDigits value) = 12 ->
      length (PersonalInfoForm.formatAadhaarNumber value) = 14).
Proof.
  pose proof (digits_extractDigits value) as D.
  assert (Short : length (extractDigits value) < 12 ->
                  PersonalInfoForm.formatAadhaarNumber value = extractDigits value).
  { intros L. unfold PersonalInfoForm.formatAadhaarNumber, replaceFirst.
    rewrite (threeGroups_needs_twelve _ L). now apply trim_digits. }
  assert (Round : removeSpaces (PersonalInfoForm.formatAadhaarNumber value)
                  = extractDigits value).
  { destruct (Nat.lt_ge_cases (length (extractDigits value)) 12) as [L|L].
    - rewrite (Short L). now apply digits_removeSpaces.
    - destruct (split_twelve _ L) as (a & b & c & aft & E & La & Lb & Lc).
      rewrite (formatAadhaarNumber_grouped value a b c aft E La Lb Lc), E.
      rewrite E in D.
      apply digits_app_iff in D. destruct D as (Da & D).
      apply digits_app_iff in D. destruct D as (Db & D).
      apply digits_app_iff in D. destruct D as (Dc & Daft).
      rewrite !removeSpaces_app.
      rewrite (digits_removeSpaces Da), (digits_removeSpaces Db),
        (digits_removeSpaces Dc), (digits_removeSpaces Daft).
      reflexivity. }
  split; [exact Round|].
  split; [destruct state as [formData errors]; cbn; exact Round|].
  split; [exact Short|].
  split; [intros a b c aft; apply formatAadhaarNumber_grouped|].
  intros L.
  destruct (split_twelve (extractDigits value)) as (a & b & c & aft & E & La & Lb & Lc);
    [lia|].
  rewrite (formatAadhaarNumber_grouped value a b c aft E La Lb Lc).
  rewrite E, !length_app in L. rewrite !length_app. simpl. lia.
Qed.

Lemma formatAadhaarNumber_shows_the_digits_witness :
  PersonalInfoForm.formatAadhaarNumber (js "1234-5678-9012")
  = js "1234 5678 9012".
Proof.
  apply (proj1 (proj2 (proj2 (proj2 (formatAadhaarNumber_shows_the_digits
                                (js "1234-5678-9012") (sampleFields, [])))))
           (js "1234") (js "5678") (js "9012") []); reflexivity.
Defined.

(** ** From the form to the review and to the matcher *)

Lemma firstn_exact {A : Type} n (a r : list A) :
  length a = n -> firstn n (a ++ r) = a.
Proof. intros <-. induction a; simpl; congruence. Qed.

Lemma skipn_exact {A : Type} n (a r : list A) :
  length a = n -> skipn n (a ++ r) = r.
Proof. intros <-. induction a; simpl; congruence. Qed.

Lemma aadhaarNumber_groups d :
  aadhaarNumber d ->
  exists a b c,
    d = a ++ b ++ c /\ digits a /\ length a = 4 /\ digits b /\ length b = 4
    /\ digits c /\ length c = 4
    /\ a = firstn 4 d /\ b = firstn 4 (skipn 4 d) /\ c = skipn 8 d.
Proof.
  intros (D & L).
  destruct (split_twelve d) as (a & b & c & aft & E & La & Lb & Lc); [lia|].
  assert (aft = []).
  { destruct aft; [reflexivity|]. rewrite E, !length_app in L. simpl in L. lia. }
  subst aft. rewrite app_nil_r in E. exists a, b, c.
  pose proof D as D'. rewrite E in D'.
  apply digits_app_iff in D'. destruct D' as (Da & D').
  apply digits_app_iff in D'. destruct D' as (Db & Dc).
  repeat (split; [assumption|]).
  rewrite E. repeat split.
  - now rewrite (@firstn_exact _ _ _ (b ++ c) La).
  - now rewrite (@skipn_exact _ _ _ (b ++ c) La), (@firstn_exact _ _ _ c Lb).
  - rewrite app_assoc. apply eq_sym, skipn_exact. rewrite length_app. lia.
Qed.

(** X21. The ID number that the form saves, twelve digits, is written in
    the same way by the form, by the review and by the digital ID card:
    three groups of four digits parted by a space.  Written so in a
    document, between texts without digits, it is found by the ID matcher
    with confidence 1. *)
Theorem saved_id_number_is_shown_and_found {host : Host} (d : str) :
  aadhaarNumber d ->
  let shown := firstn 4 d ++ [space] ++ firstn 4 (skipn 4 d) ++ [space] ++ skipn 8 d in
  PersonalInfoForm.formatAadhaarNumber d = shown
  /\ ReviewSubmission.formatAadhaarNumber d = shown
  /\ DigitalIDCard.formatAadhaarNumber d = shown
  /\ forall pre post,
       noDigit pre -> notWordFirst (rev pre) -> notWordFirst post ->
       findAadhaarInText d (pre ++ shown ++ post) = Result true 1 (Some shown).
Proof.
  intros A. pose proof A as (D & L).
  destruct (aadhaarNumber_groups A)
    as (a & b & c & E & Da & La & Db & Lb & Dc & Lc & <- & <- & <-).
  cbv zeta.
  assert (R : replaceFirst threeGroups spacedGroups d
              = a ++ [space] ++ b ++ [space] ++ c).
  { rewrite E. rewrite <- (app_nil_r c) at 1.
    rewrite (replaceFirst_threeGroups [] Da La Db Lb Dc Lc).
    now rewrite app_nil_r. }
  split; [|split; [|split]].
  - rewrite (formatAadhaarNumber_grouped d a b c []);
      rewrite ?app_nil_r, ?extractDigits_digits; auto.
  - unfold ReviewSubmission.formatAadhaarNumber.
    destruct d; [discriminate L | exact R].
  - exact R.
  - intros pre post Hpre Hrev Hpost.
    replace (pre ++ (a ++ [space] ++ b ++ [space] ++ c) ++ post)
      with (pre ++ a ++ [space] ++ b ++ [space] ++ c ++ post)
      by (now rewrite <- !app_assoc).
    apply findAadhaarInText_grouped; auto.
    + now rewrite (extractDigits_digits D).
    + right. exists space. split; reflexivity.
    + right. exists space. split; reflexivity.
Qed.

Lemma saved_id_number_is_shown_and_found_witness :
  findAadhaarInText (host := unitHost) (js "123456789012")
                    (js "ID: 1234 5678 9012 (verified)")
  = Result true 1 (Some (js "1234 5678 9012")).
Proof.
  assert (A : aadhaarNumber (js "123456789012"))
    by (split; [repeat constructor | reflexivity]).
  exact (proj2 (proj2 (proj2
           (@saved_id_number_is_shown_and_found unitHost (js "123456789012") A)))
           (js "ID: ") (js " (verified)")
           ltac:(repeat constructor) eq_refl eq_refl).
Defined.

Lemma matchAt_twoGroups a b aft :
  digits a -> length a = 5 -> digits b -> length b = 5 ->
  matchAt twoGroups (Cursor [] (a ++ b ++ aft))
  = Some (RMatch (a ++ b) [(2, b); (1, a)] (Cursor (rev b ++ rev a ++ []) aft)).
Proof.
  intros Da La Db Lb. unfold matchAt, twoGroups. cbn [conc].
  rewrite run_Seq, run_Group, run_digits by assumption.
  rewrite run_Group, run_digits by assumption.
  rewrite !consumed_digits. f_equal. f_equal.
  unfold consumed. cbn [after].
  replace (a ++ b ++ aft) with ((a ++ b) ++ aft) by (now rewrite <- !app_assoc).
  apply firstn_consumed.
Qed.

Lemma replaceFirst_twoGroups a b aft :
  digits a -> length a = 5 -> digits b -> length b = 5 ->
  replaceFirst twoGroups spacedHalves (a ++ b ++ aft) = a ++ [space] ++ b ++ aft.
Proof.
  intros Da La Db Lb. unfold replaceFirst, match1.
  rewrite searchFrom_eq, (matchAt_twoGroups aft Da La Db Lb).
  cbn [rest whole after]. unfold expand, spacedHalves, group.
  cbn [flat_map groups capture Nat.eqb].
  replace (length (a ++ b ++ aft) - length aft - length (a ++ b))
    with 0 by (rewrite !length_app; lia).
  cbn [firstn app]. rewrite app_nil_r.
  simpl; rewrite <- !app_assoc; simpl; now rewrite <- ?app_assoc.
Qed.

Lemma mobile_digits p : mobile p -> digits p /\ length p = 10.
Proof.
  intros (c & ds & -> & M & D & L). split.
  - constructor; [now apply mobileFirst_isDigit | exact D].
  - simpl. now rewrite L.
Qed.

(** X22. The emergency contact that the form saves, ten digits, is written
    by the review in two groups of five digits parted by a space. *)
Theorem saved_phone_is_shown_in_halves (p : str) :
  mobile p ->
  ReviewSubmission.formatPhoneNumber p = firstn 5 p ++ [space] ++ skipn 5 p
  /\ length (ReviewSubmission.formatPhoneNumber p) = 11.
Proof.
  intros M. destruct (mobile_digits M) as (D & L).
  assert (E : ReviewSubmission.formatPhoneNumber p
              = firstn 5 p ++ [space] ++ skipn 5 p).
  { unfold ReviewSubmission.formatPhoneNumber.
    destruct p as [|c p]; [discriminate L|]. cbn [PersonalInfoForm.nonEmpty negb].
    rewrite <- (firstn_skipn 5 (c :: p)) at 1.
    rewrite <- (firstn_skipn 5 (c :: p)) in D.
    apply digits_app_iff in D. destruct D as (Da & Db).
    rewrite <- (app_nil_r (skipn 5 (c :: p))) at 1.
    rewrite replaceFirst_twoGroups; auto.
    - now rewrite app_nil_r.
    - rewrite length_firstn. simpl length in *. lia.
    - rewrite length_skipn. simpl length in *. lia. }
  split; [exact E|].
  rewrite E, !length_app, length_firstn, length_skipn, L. reflexivity.
Qed.

Lemma saved_phone_is_shown_in_halves_witness :
  ReviewSubmission.formatPhoneNumber (js "9876543210") = js "98765 43210".
Proof.
  apply (saved_phone_is_shown_in_halves (p := js "9876543210")).
  exists (chr "9"), (js "876543210").
  split; [reflexivity|]. split; [reflexivity|].
  split; [repeat constructor | reflexivity].
Defined.

(** ** [ReviewSubmission] *)

(** X23. [handleSubmit] of the review goes on exactly when the name, the
    date of birth, the ID number, the emergency contact, the photo and the
    ID document are present, and shows "Missing Information" otherwise.
    The button that calls it is enabled only when [isComplete] holds, which
    asks for the three details of the trip as well: from the button,
    [handleSubmit] always goes on. *)
Theorem review_goes_on_when_complete (data : KYCVerification.KYCData) :
  (ReviewSubmission.handleSubmit data
   = [ShowToast "Submitting Application"; OnNext]
   <-> KYCVerification.name data <> []
       /\ KYCVerification.dateOfBirth data <> []
       /\ KYCVerification.idNumber data <> []
       /\ KYCVerification.emergencyContact data <> []
       /\ KYCVerification.photo data <> None
       /\ KYCVerification.idDocument data <> None)
  /\ (ReviewSubmission.handleSubmit data
      <> [ShowToast "Submitting Application"; OnNext] ->
      ReviewSubmission.handleSubmit data = [ShowToast "Missing Information"])
  /\ (ReviewSubmission.isComplete data = true ->
      ReviewSubmission.handleSubmit data
      = [ShowToast "Submitting Application"; OnNext]
      /\ exists trip,
           KYCVerification.tripDetails data = Some trip
           /\ PersonalInfoForm.location trip <> []
           /\ PersonalInfoForm.startDate trip <> []
           /\ PersonalInfoForm.endDate trip <> []).
Proof.
  destruct data as [n dob i e ph doc trip].
  unfold ReviewSubmission.handleSubmit, ReviewSubmission.missingFields,
    ReviewSubmission.requiredFields, ReviewSubmission.isComplete,
    ReviewSubmission.tripField.
  cbn [KYCVerification.name KYCVerification.dateOfBirth KYCVerification.idNumber
       KYCVerification.emergencyContact KYCVerification.photo
       KYCVerification.idDocument KYCVerification.tripDetails].
  split; [|split].
  - destruct n, dob, i, e, ph, doc; simpl; split;
      try discriminate; try (intros; repeat split; discriminate);
      try reflexivity; intros (? & ? & ? & ? & ? & ?); congruence.
  - destruct n, dob, i, e, ph, doc; simpl; congruence.
  - intros C. rewrite !andb_true_iff in C.
    destruct C as ((((((((N & B) & I) & E) & P) & D) & T1) & T2) & T3).
    split.
    + destruct n, dob, i, e, ph, doc; try discriminate. reflexivity.
    + destruct trip as [trip|]; [|discriminate]. exists trip.
      split; [reflexivity|].
      now rewrite <- !nonEmpty_iff.
Qed.

(** ** [KYCVerification] *)

Lemma reactAll_app st es e :
  KYCVerification.reactAll st (es ++ [e])
  = match KYCVerification.reactAll st es with
    | Some st' => KYCVerification.react st' e
    | None => None
    end.
Proof.
  revert st. induction es as [|x es IH]; intros st; simpl.
  - now destruct (KYCVerification.react st e).
  - destruct (KYCVerification.react st x); [apply IH | reflexivity].
Qed.

(** X24. Whatever the steps do with the callbacks they are given, the
    component shows the last step, "Digital ID Issued", only with a
    digital ID, the one set by the timer that the submission of the review
    started, and nothing can happen after; it shows "Processing" only
    right after that submission, with one timer set and nothing else to
    happen but the timer; on the first three steps no digital ID is set
    and no timer runs. *)
Theorem digital_id_is_issued_by_the_timer
        (es : list KYCVerification.event) (st : KYCVerification.State) :
  KYCVerification.reactAll KYCVerification.initial es = Some st ->
  match KYCVerification.currentStep st with
  | KYCVerification.complete =>
      KYCVerification.timers st = 0
      /\ (exists es' mockDigitalId,
            es = es' ++ [KYCVerification.Next; KYCVerification.Timeout mockDigitalId]
            /\ KYCVerification.digitalId st = Some mockDigitalId)
      /\ forall e, KYCVerification.react st e = None
  | KYCVerification.processing =>
      KYCVerification.timers st = 1
      /\ KYCVerification.digitalId st = None
      /\ (exists es', es = es' ++ [KYCVerification.Next])
      /\ forall e st', KYCVerification.react st e = Some st' ->
                       exists mockDigitalId, e = KYCVerification.Timeout mockDigitalId
  | _ =>
      KYCVerification.timers st = 0 /\ KYCVerification.digitalId st = None
  end.
Proof.
  revert st. induction es as [|e es IH] using rev_ind; intros st H.
  - injection H as <-. simpl. auto.
  - rewrite reactAll_app in H.
    destruct (KYCVerification.reactAll KYCVerification.initial es) as [st0|];
      [|discriminate].
    specialize (IH st0 eq_refl).
    destruct st0 as [step data id t].
    cbn [KYCVerification.currentStep KYCVerification.timers
         KYCVerification.digitalId] in IH.
    destruct step.
    + destruct IH as (-> & ->).
      destruct e; simpl in H; try discriminate; injection H as <-; simpl; auto.
    + destruct IH as (-> & ->).
      destruct e; simpl in H; try discriminate; injection H as <-; simpl; auto.
    + destruct IH as (-> & ->).
      destruct e; simpl in H; try discriminate; injection H as <-; simpl; auto.
      split; [reflexivity|]. split; [reflexivity|]. split; [now exists es|].
      intros e st' R. destruct e; simpl in R; try discriminate. eauto.
    + destruct IH as (-> & -> & (es' & ->) & _).
      destruct e; simpl in H; try discriminate. injection H as <-. simpl.
      split; [reflexivity|]. split.
      * exists es', mockDigitalId. split; [|reflexivity].
        now rewrite <- app_assoc.
      * intros e. now destruct e.
    + destruct IH as (-> & _ & N). rewrite N in H. discriminate.
Qed.

Lemma digital_id_is_issued_by_the_timer_witness :
  KYCVerification.react
    (KYCVerification.timeout sampleId
       (KYCVerification.handleNext
          (KYCVerification.handleNext
             (KYCVerification.handleNext KYCVerification.initial))))
    KYCVerification.Back
  = None.
Proof.
  pose proof (@digital_id_is_issued_by_the_timer
                [KYCVerification.Next; KYCVerification.Next; KYCVerification.Next;
                 KYCVerification.Timeout sampleId] _ eq_refl) as H.
  simpl in H. destruct H as (_ & _ & F). exact (F KYCVerification.Back).
Defined.

(** X25. [handleNext] and [handleBack] leave the data and the digital ID
    as they are.  On the first two steps Back undoes Next, and on the
    second and third steps Next undoes Back; Next does nothing on the last
    step and Back nothing on the first.  The progress shown is 20, 40, 60,
    80 and 100 percent on the five steps. *)
Theorem navigation_round_trip (st : KYCVerification.State) :
  KYCVerification.kycData (KYCVerification.handleNext st) = KYCVerification.kycData st
  /\ KYCVerification.kycData (KYCVerification.handleBack st) = KYCVerification.kycData st
  /\ KYCVerification.digitalId (KYCVerification.handleNext st)
     = KYCVerification.digitalId st
  /\ (In (KYCVerification.currentStep st)
         [KYCVerification.personal; KYCVerification.documents] ->
      KYCVerification.handleBack (KYCVerification.handleNext st) = st)
  /\ (In (KYCVerification.currentStep st)
         [KYCVerification.documents; KYCVerification.review] ->
      KYCVerification.handleNext (KYCVerification.handleBack st) = st)
  /\ (KYCVerification.currentStep st = KYCVerification.complete ->
      KYCVerification.handleNext st = st)
  /\ (KYCVerification.currentStep st = KYCVerification.personal ->
      KYCVerification.handleBack st = st)
  /\ (KYCVerification.progress st
      == inject_Z (20 * (KYCVerification.indexOf (KYCVerification.currentStep st)
                           KYCVerification.stepOrder + 1)))%Q.
Proof.
  destruct st as [step data id t].
  repeat split; destruct step; try reflexivity;
    try (intros [E|[E|[]]]; try discriminate E; reflexivity);
    try (intros E; discriminate E).
Qed.

Lemma navigation_round_trip_witness :
  KYCVerification.handleBack (KYCVerification.handleNext KYCVerification.initial)
  = KYCVerification.initial.
Proof.
  destruct (navigation_round_trip KYCVerification.initial) as (_ & _ & _ & H & _).
  apply H. left. reflexivity.
Defined.

(** X26. From the first step, the submission of the form moves the
    component to the step of the documents exactly when [validateForm]
    accepts the form, and then the data of the component hold the name,
    the date of birth and the trip as typed, the ID number as twelve
    digits and the emergency contact as ten; otherwise the component
    stays as it is. *)
Theorem accepted_form_moves_on (dateTime : str -> option Z) (fullYear : Z -> Z)
        (today : Z) (formData : PersonalInfoForm.Fields)
        (st : KYCVerification.State) :
  KYCVerification.currentStep st = KYCVerification.personal ->
  let '(errors, actions) :=
    PersonalInfoForm.handleSubmit dateTime fullYear today formData in
  exists st',
    KYCVerification.reactAll st (Session.calls KYCVerification.ofForm actions) = Some st'
    /\ ((errors <> [] /\ st' = st)
        \/ (errors = []
            /\ KYCVerification.currentStep st' = KYCVerification.documents
            /\ KYCVerification.name (KYCVerification.kycData st')
               = PersonalInfoForm.name formData
            /\ KYCVerification.dateOfBirth (KYCVerification.kycData st')
               = PersonalInfoForm.dateOfBirth formData
            /\ aadhaarNumber (KYCVerification.idNumber (KYCVerification.kycData st'))
            /\ mobile (KYCVerification.emergencyContact (KYCVerification.kycData st'))
            /\ KYCVerification.tripDetails (KYCVerification.kycData st')
               = Some (PersonalInfoForm.tripDetails formData)
            /\ KYCVerification.photo (KYCVerification.kycData st')
               = KYCVerification.photo (KYCVerification.kycData st)
            /\ KYCVerification.idDocument (KYCVerification.kycData st')
               = KYCVerification.idDocument (KYCVerification.kycData st))).
Proof.
  intros P. unfold PersonalInfoForm.handleSubmit.
  destruct (PersonalInfoForm.isValid _) eqn:V.
  - apply isValid_iff in V. pose proof V as (_ & _ & _ & A & M & _)%validateForm_nil_iff.
    destruct st as [step data id t]. simpl in P. subst step.
    eexists. split; [reflexivity|]. right. simpl. auto 10.
  - exists st. split; [reflexivity|]. left. split; [|reflexivity].
    intros E. apply isValid_iff in E. congruence.
Qed.

Lemma accepted_form_moves_on_witness :
  exists st',
    KYCVerification.reactAll KYCVerification.initial
      (Session.calls KYCVerification.ofForm
         (snd (PersonalInfoForm.handleSubmit sampleDateTime sampleFullYear 754000
                 sampleFields))) = Some st'
    /\ KYCVerification.currentStep st' = KYCVerification.documents.
Proof.
  pose proof (accepted_form_moves_on sampleDateTime sampleFullYear 754000
                sampleFields KYCVerification.initial eq_refl) as H.
  destruct (PersonalInfoForm.handleSubmit _ _ _ sampleFields) as [errors actions] eqn:E.
  destruct H as (st' & R & [(N & _)|(_ & S & _)]).
  - exfalso. apply N. vm_compute in E. now injection E as <- _.
  - exists st'. split; [exact R | exact S].
Defined.

(** ** The session *)

Lemma live_settled (l : list Session.Run) : forall i r,
  nth_error l i = Some r ->
  filter Session.mounted l
  = filter Session.mounted (firstn i l)
    ++ (if Session.mounted r then [r] else [])
    ++ filter Session.mounted (skipn (S i) l).
Proof.
  induction l as [|x l IH]; intros [|i] r H; try discriminate.
  - injection H as ->. cbn [firstn skipn filter app].
    destruct (Session.mounted r); reflexivity.
  - cbn [nth_error] in H.
    change (skipn (S (S i)) (x :: l)) with (skipn (S i) l).
    cbn [firstn filter].
    destruct (Session.mounted x); rewrite (IH _ _ H) at 1; reflexivity.
Qed.

(** The runs on screen when a run has settled: the others. *)
Lemma live_without (l : list Session.Run) i r :
  nth_error l i = Some r ->
  (filter Session.mounted l = [] ->
   filter Session.mounted (Session.without i l) = [])
  /\ (forall P : Session.Run -> Prop,
        Forall P (filter Session.mounted l) ->
        Forall P (filter Session.mounted (Session.without i l))
        /\ (Session.mounted r = true -> P r))
  /\ (Session.mounted r = true -> length (filter Session.mounted l) <= 1 ->
      filter Session.mounted l = [r]
      /\ filter Session.mounted (Session.without i l) = [])
  /\ (Session.mounted r = false ->
      filter Session.mounted (Session.without i l) = filter Session.mounted l).
Proof.
  intros Nth. pose proof (live_settled _ _ Nth) as L.
  unfold Session.without. rewrite filter_app.
  set (A := filter Session.mounted (firstn i l)) in *.
  set (B := filter Session.mounted (skipn (S i) l)) in *.
  rewrite L. clearbody A B. clear L Nth.
  destruct (Session.mounted r); cbn [app].
  - split; [intros E; destruct A; discriminate E|].
    split; [intros P F; apply Forall_app in F; destruct F as (FA & F);
            apply Forall_cons_iff in F; destruct F as (Pr & FB);
            split; [apply Forall_app; split; assumption | intros _; exact Pr]|].
    split; [|discriminate].
    intros _ Le. destruct A as [|a A]; [destruct B as [|b B]|].
    + split; reflexivity.
    + simpl in Le. lia.
    + simpl in Le. rewrite length_app in Le. simpl in Le. lia.
  - split; [intros E; exact E|].
    split; [intros P F; split; [exact F | discriminate]|].
    split; [discriminate | reflexivity].
Qed.

Lemma without_In {A : Type} (i : nat) : forall (l : list A) x,
  In x (Session.without i l) -> In x l.
Proof.
  unfold Session.without.
  induction i as [|i IH]; intros [|a l] x H; cbn in H; try contradiction.
  - now right.
  - destruct H as [H|H]; [now left | right; exact (IH _ _ H)].
Qed.

Lemma live_unmounted (l : list Session.Run) :
  filter Session.mounted (map Session.unmount l) = [].
Proof. induction l as [|x l IH]; [reflexivity | exact IH]. Qed.

Lemma isComplete_goes_on data :
  ReviewSubmission.isComplete data = true ->
  ReviewSubmission.handleSubmit data = [ShowToast "Submitting Application"; OnNext]
  /\ KYCVerification.photo data <> None.
Proof.
  destruct data as [n dob i e ph doc trip].
  unfold ReviewSubmission.handleSubmit, ReviewSubmission.missingFields,
    ReviewSubmission.requiredFields, ReviewSubmission.isComplete.
  cbn [KYCVerification.name KYCVerification.dateOfBirth KYCVerification.idNumber
       KYCVerification.emergencyContact KYCVerification.photo
       KYCVerification.idDocument].
  intros C. rewrite !andb_true_iff in C.
  destruct C as ((((((((N & B) & I) & E) & P) & D) & _) & _) & _).
  destruct n, dob, i, e, ph, doc; try discriminate. split; [reflexivity | discriminate].
Qed.

Section SessionLemmas.
Context {host : Host}.
Variable findDate : str -> str -> outcome MatchResult.
Variable dateTime : str -> option Z.
Variable fullYear : Z -> Z.
Variable today : Z.

Lemma performAll_app s gs g :
  Session.performAll findDate dateTime fullYear today s (gs ++ [g])
  = match Session.performAll findDate dateTime fullYear today s gs with
    | Some s' => Session.perform findDate dateTime fullYear today s' g
    | None => None
    end.
Proof.
  revert s. induction gs as [|x gs IH]; intros s; simpl.
  - now destruct (Session.perform _ _ _ _ s g).
  - destruct (Session.perform _ _ _ _ s x); [apply IH | reflexivity].
Qed.

Lemma oneAtATime_app gs : forall s g,
  Session.oneAtATime findDate dateTime fullYear today s (gs ++ [g]) = true ->
  Session.oneAtATime findDate dateTime fullYear today s gs = true
  /\ forall s0 s',
       Session.performAll findDate dateTime fullYear today s gs = Some s0 ->
       Session.perform findDate dateTime fullYear today s0 g = Some s' ->
       length (Session.live s0) <= 1 /\ length (Session.live s') <= 1.
Proof.
  induction gs as [|x gs IH]; intros s g H; cbn [app Session.oneAtATime] in H |- *;
    apply andb_true_iff in H; destruct H as (Q & H); rewrite Q; cbn [andb].
  - split; [reflexivity|]. intros s0 s' [= <-] P. rewrite P in H.
    cbn [Session.oneAtATime] in H. apply andb_true_iff in H. destruct H as (Q' & _).
    split; now apply Nat.leb_le.
  - cbn [Session.performAll].
    destruct (Session.perform _ _ _ _ s x) as [s1|]; [|split; [reflexivity | discriminate]].
    exact (IH _ _ H).
Qed.

(** The state at the end of a run does not depend on the state in which
    the run is replayed. *)
Lemma validated_replayed data file before before' :
  Session.validated findDate data file before
  = Session.validated findDate data file before'.
Proof.
  unfold Session.validated.
  destruct (validateDocumentData_run findDate (Session.toFormData data) file)
    as (v & title & calls & _ & _ & _ & Run).
  now rewrite !Run.
Qed.

Lemma validated_verified data file before :
  accepted (Session.validated findDate data file before) ->
  isImage file
  /\ exists result, recognized file = Ok result /\ passes data result.
Proof.
  unfold accepted, Session.validated. intros A.
  destruct (verified_run _ _ _ _ A) as (I & result & dob & R & C & _ & N & D & _).
  split; [exact I|]. exists result. split; [exact R|]. exact (conj C (conj N D)).
Qed.

Lemma passes_sameForm data r result :
  sameForm data r -> passes (Session.props r) result -> passes data result.
Proof. unfold passes. intros (-> & ->) H. exact H. Qed.

Lemma readPasses_later data s s' file :
  incl (Session.reads s) (Session.reads s') ->
  readPasses data s file -> readPasses data s' file.
Proof.
  intros I (Img & result & Hin & P). split; [exact Img|].
  exists result. split; [exact (I _ Hin) | exact P].
Qed.

End SessionLemmas.

Section SessionSteps.
Context {host : Host}.
Variable findDate : str -> str -> outcome MatchResult.
Variable dateTime : str -> option Z.
Variable fullYear : Z -> Z.
Variable today : Z.

Ltac screen_cbn :=
  unfold Session.live in *;
  cbn [Session.kyc Session.validation Session.running Session.reads
       KYCVerification.kycData KYCVerification.currentStep KYCVerification.timers
       KYCVerification.digitalId] in *.

Lemma guarded_step s g s' :
  guarded s ->
  Session.perform findDate dateTime fullYear today s g = Some s' ->
  guarded s'.
Proof.
  destruct s as [[step data id t] dv rs log]. unfold guarded.
  screen_cbn. intros I H.
  destruct g as [formData|type files| | | | |mock|run p|run result];
    unfold Session.perform, Session.onStep in H; screen_cbn.
  - (* the form is submitted *)
    destruct step; cbn [KYCVerification.KYCStep_eqb] in H; try discriminate.
    destruct I as (-> & -> & L).
    unfold PersonalInfoForm.handleSubmit in H.
    destruct (PersonalInfoForm.isValid _) eqn:V; cbn in H; injection H as <-; cbn.
    + apply isValid_iff, validateForm_nil_iff in V.
      destruct V as (N & B & _ & A & M & _).
      split; [reflexivity|]. split; [reflexivity|].
      rewrite live_unmounted. split; [constructor|].
      split; [exact (conj N (conj B (conj A M)))|]. intros Acc. discriminate Acc.
    + auto.
  - (* a file is chosen *)
    destruct step; cbn [KYCVerification.KYCStep_eqb] in H; try discriminate.
    destruct I as (-> & -> & F & Ch & Ve).
    unfold Session.handleFileUpload in H.
    destruct files as [file|]; [|injection H as <-; cbn; auto].
    destruct (startsWith (fileType file) (js "image/")) eqn:Img; cbn in H;
      [|injection H as <-; cbn; auto].
    injection H as <-. destruct type.
    + screen_cbn. split; [reflexivity|]. split; [reflexivity|].
      split; [exact F|]. split; [exact Ch | exact Ve].
    + unfold Session.begins. rewrite Img. cbn [negb]. screen_cbn.
      split; [reflexivity|]. split; [reflexivity|].
      unfold Session.live. screen_cbn. rewrite filter_app. cbn [filter Session.mounted].
      split; [apply Forall_app; split; [exact F | repeat constructor]|].
      split; [exact Ch|]. intros Acc. discriminate Acc.
  - (* Retry *)
    destruct step; cbn [KYCVerification.KYCStep_eqb andb] in H; try discriminate.
    destruct I as (-> & -> & F & Ch & Ve).
    destruct (truthy (validationResults dv) && Status_eqb (status dv) invalid) eqn:G;
      [|discriminate].
    cbv iota in H. injection H as <-.
    apply andb_true_iff in G. destruct G as (_ & G).
    assert (NA : ~ accepted dv) by (unfold accepted; destruct (status dv); discriminate).
    destruct (KYCVerification.idDocument data) as [file|] eqn:Doc.
    + unfold Session.begins.
      destruct (startsWith (fileType file) (js "image/")) eqn:Img; cbn [negb]; screen_cbn.
      * split; [reflexivity|]. split; [reflexivity|].
        unfold Session.live. screen_cbn. rewrite filter_app. cbn [filter Session.mounted].
        split; [apply Forall_app; split; [exact F | repeat constructor]|].
        split; [exact Ch|]. intros Acc. discriminate Acc.
      * split; [reflexivity|]. split; [reflexivity|]. split; [exact F|].
        split; [exact Ch|]. intros Acc.
        destruct (validated_verified _ _ _ _ Acc) as (I & _).
        unfold isImage in I. congruence.
    + screen_cbn. split; [reflexivity|]. split; [reflexivity|]. split; [exact F|].
      split; [exact Ch|]. intros Acc. contradiction.
  - (* Continue *)
    destruct step; cbn [KYCVerification.KYCStep_eqb andb] in H; try discriminate.
    destruct I as (-> & -> & F & Ch & Ve).
    destruct (canProceed _ _ dv) eqn:G; [|discriminate].
    cbn in H. injection H as <-. cbn.
    unfold canProceed in G. apply andb_true_iff in G. destruct G as (G & Acc).
    apply andb_true_iff in G. destruct G as (P & Dc).
    split; [reflexivity|]. split; [reflexivity|].
    split; [apply live_unmounted|]. split; [exact Ch|].
    split; [now destruct (KYCVerification.photo data)|].
    split; [now destruct (KYCVerification.idDocument data)|].
    destruct (Ve Acc) as (file & R). exists file.
    exact (@readPasses_later _ _ _ (Session.ScreenOf _ _ _ _) _ (incl_refl _) R).
  - (* Back *)
    destruct step; cbn [KYCVerification.KYCStep_eqb orb] in H; try discriminate;
      cbn in H; injection H as <-; cbn.
    + destruct I as (-> & -> & _). split; [reflexivity|]. split; [reflexivity|].
      apply live_unmounted.
    + destruct I as (-> & -> & _ & Ch & _). split; [reflexivity|].
      split; [reflexivity|]. rewrite live_unmounted. split; [constructor|].
      split; [exact Ch|]. intros Acc. discriminate Acc.
  - (* the review is submitted *)
    destruct step; cbn [KYCVerification.KYCStep_eqb andb] in H; try discriminate.
    destruct I as (-> & -> & L & Ch & P & Dc & Ve).
    destruct (ReviewSubmission.isComplete data) eqn:G; [|discriminate].
    rewrite (proj1 (isComplete_goes_on _ G)) in H.
    cbn in H. injection H as <-. cbn.
    split; [reflexivity|]. split; [reflexivity|].
    split; [apply live_unmounted|]. split; [exact Ch|]. split; [exact P|].
    split; [exact Dc|].
    destruct Ve as (file & R). exists file.
    exact (@readPasses_later _ _ _ (Session.ScreenOf _ _ _ _) _ (incl_refl _) R).
  - (* the timer fires *)
    unfold Session.after in H. cbn [KYCVerification.reactAll KYCVerification.react
      Session.kyc KYCVerification.timers] in H.
    destruct step.
    + destruct I as (-> & _). discriminate.
    + destruct I as (-> & _). discriminate.
    + destruct I as (-> & _). discriminate.
    + destruct I as (-> & -> & L & Ch & P & Dc & Ve). cbn in H. injection H as <-. cbn.
      split; [reflexivity|]. split; [apply live_unmounted|]. split; [exact Ch|].
      split; [exact P|]. split; [exact Dc|]. destruct Ve as (file & R). exists file.
      exact (@readPasses_later _ _ _ (Session.ScreenOf _ _ _ _) _ (incl_refl _) R).
    + destruct I as (-> & _). discriminate.
  - (* the logger of a run *)
    unfold Session.reports in H. screen_cbn.
    destruct (nth_error rs run) as [r|]; [|discriminate]. injection H as <-.
    screen_cbn.
    assert (A : accepted (if Session.mounted r then withProgress p dv else dv)
                <-> accepted dv) by (destruct (Session.mounted r); reflexivity).
    destruct step; try exact I.
    destruct I as (T & D & F & Ch & Ve). repeat (split; [assumption|]).
    intros Acc. apply A in Acc. destruct (Ve Acc) as (file & R). exists file.
    exact (@readPasses_later _ _ _ (Session.ScreenOf _ _ _ _) _ (incl_refl _) R).
  - (* Tesseract settles *)
    unfold Session.settles in H. screen_cbn.
    destruct (nth_error rs run) as [r|] eqn:Nth; [|discriminate]. injection H as <-.
    screen_cbn. unfold Session.live in *.
    cbn [Session.kyc Session.validation Session.running Session.reads
         KYCVerification.kycData KYCVerification.currentStep KYCVerification.timers
         KYCVerification.digitalId] in *.
    destruct (live_without _ _ Nth) as (Empty & Gone & _ & Same).
    assert (Later : forall st v rs' file,
               readPasses data (Session.ScreenOf st dv rs log) file ->
               readPasses data
                 (Session.ScreenOf st v rs' ((Session.document r, result) :: log))
                 file).
    { intros st v rs' file. apply readPasses_later. cbn. intros x Hx. now right. }
    assert (Unseen : filter Session.mounted rs = [] -> Session.mounted r = false).
    { intros E. destruct (Session.mounted r) eqn:M; [|reflexivity].
      destruct (Gone (fun _ => False)) as (_ & Abs); [rewrite E; constructor|].
      destruct (Abs eq_refl). }
    destruct step.
    + destruct I as (T & D & E). auto.
    + destruct I as (T & D & F & Ch & Ve). split; [exact T|]. split; [exact D|].
      destruct (Gone _ F) as (F' & Fr).
      split; [exact F'|]. split; [exact Ch|].
      destruct (Session.mounted r) eqn:M.
      * intros Acc. destruct (validated_verified _ _ _ _ Acc) as (Img & res & R & P).
        cbn in R. subst result. exists (Session.document r). split; [exact Img|].
        exists res. split; [now left|].
        apply passes_sameForm with (r := r); [exact (Fr eq_refl) | exact P].
      * intros Acc. destruct (Ve Acc) as (file & R). exists file. exact (Later _ _ _ _ R).
    + destruct I as (T & D & E & Ch & P & Dc & file & R).
      rewrite (Empty E), (Unseen E). repeat (split; [assumption|]).
      split; [reflexivity|]. split; [exact Ch|]. split; [exact P|].
      split; [exact Dc|]. exists file. exact (Later _ _ _ _ R).
    + destruct I as (T & D & E & Ch & P & Dc & file & R).
      rewrite (Empty E), (Unseen E). repeat (split; [assumption|]).
      split; [reflexivity|]. split; [exact Ch|]. split; [exact P|].
      split; [exact Dc|]. exists file. exact (Later _ _ _ _ R).
    + destruct I as (T & E & Ch & P & Dc & file & R).
      rewrite (Empty E), (Unseen E). split; [exact T|].
      split; [reflexivity|]. split; [exact Ch|]. split; [exact P|].
      split; [exact Dc|]. exists file. exact (Later _ _ _ _ R).
Qed.


Lemma attested_step s g s' :
  guarded s -> attested s ->
  length (Session.live s) <= 1 ->
  Session.perform findDate dateTime fullYear today s g = Some s' ->
  length (Session.live s') <= 1 ->
  attested s'.
Proof.
  destruct s as [[step data id t] dv rs log]. unfold guarded, attested.
  screen_cbn. intros I A Q H Q'.
  destruct g as [formData|type files| | | | |mock|run p|run result];
    unfold Session.perform, Session.onStep in H; screen_cbn.
  - (* the form is submitted *)
    destruct step; cbn [KYCVerification.KYCStep_eqb] in H; try discriminate.
    unfold PersonalInfoForm.handleSubmit in H.
    destruct (PersonalInfoForm.isValid _) eqn:V; cbn in H; injection H as <-; cbn;
      [|exact A].
    rewrite live_unmounted. intros Acc. discriminate Acc.
  - (* a file is chosen *)
    destruct step; cbn [KYCVerification.KYCStep_eqb] in H; try discriminate.
    unfold Session.handleFileUpload in H.
    destruct files as [file|]; [|injection H as <-; exact A].
    destruct (startsWith (fileType file) (js "image/")) eqn:Img; cbn in H;
      [|injection H as <-; exact A].
    injection H as <-. destruct type.
    + screen_cbn. exact A.
    + unfold Session.begins in *. rewrite Img in *. cbn [negb] in *. screen_cbn.
      unfold Session.live in *. screen_cbn. rewrite filter_app in *.
      cbn [filter Session.mounted] in *. rewrite length_app in Q'. cbn in Q'.
      destruct (filter Session.mounted rs); [|simpl in Q'; lia].
      cbn. split; [reflexivity|]. intros Acc. discriminate Acc.
  - (* Retry *)
    destruct step; cbn [KYCVerification.KYCStep_eqb andb] in H; try discriminate.
    destruct (truthy (validationResults dv) && Status_eqb (status dv) invalid) eqn:G;
      [|discriminate].
    cbv iota in H. injection H as <-.
    apply andb_true_iff in G. destruct G as (_ & G).
    assert (NA : ~ accepted dv) by (unfold accepted; destruct (status dv); discriminate).
    destruct (KYCVerification.idDocument data) as [file|] eqn:Doc;
      [|screen_cbn; rewrite ?Doc; exact A].
    unfold Session.begins in *.
    destruct (startsWith (fileType file) (js "image/")) eqn:Img; cbn [negb] in *;
      screen_cbn.
    + unfold Session.live in *. screen_cbn. rewrite filter_app in *.
      cbn [filter Session.mounted] in *. rewrite length_app in Q'. cbn in Q'.
      destruct (filter Session.mounted rs); [|simpl in Q'; lia].
      cbn. split; [exact Doc|]. intros Acc. discriminate Acc.
    + assert (NA' : ~ accepted (Session.validated findDate data file dv)).
      { intros Acc. destruct (validated_verified _ _ _ _ Acc) as (I' & _).
        unfold isImage in I'. congruence. }
      unfold Session.live in *. screen_cbn.
      destruct (filter Session.mounted rs) as [|r l].
      * intros Acc. contradiction.
      * destruct A as (D & _). split; [congruence | exact NA'].
  - (* Continue *)
    destruct step; cbn [KYCVerification.KYCStep_eqb andb] in H; try discriminate.
    destruct (canProceed _ _ dv) eqn:G; [|discriminate].
    cbn in H. injection H as <-. cbn.
    unfold canProceed in G. apply andb_true_iff in G. destruct G as (_ & Acc).
    unfold Session.live in A. screen_cbn.
    destruct (filter Session.mounted rs) as [|r l].
    + destruct (A Acc) as (file & D & R). exists file. split; [exact D|].
      exact (@readPasses_later _ _ _ (Session.ScreenOf _ _ _ _) _ (incl_refl _) R).
    + destruct A as (_ & NA). contradiction.
  - (* Back *)
    destruct step; cbn [KYCVerification.KYCStep_eqb orb] in H; try discriminate;
      cbn in H; injection H as <-; cbn; [exact Logic.I|].
    rewrite live_unmounted. intros Acc. discriminate Acc.
  - (* the review is submitted *)
    destruct step; cbn [KYCVerification.KYCStep_eqb andb] in H; try discriminate.
    destruct (ReviewSubmission.isComplete data) eqn:G; [|discriminate].
    rewrite (proj1 (isComplete_goes_on _ G)) in H.
    cbn in H. injection H as <-. cbn.
    destruct A as (file & D & R). exists file. split; [exact D|].
    exact (@readPasses_later _ _ _ (Session.ScreenOf _ _ _ _) _ (incl_refl _) R).
  - (* the timer fires *)
    unfold Session.after in H. cbn [KYCVerification.reactAll KYCVerification.react
      Session.kyc KYCVerification.timers] in H.
    destruct step.
    + destruct I as (-> & _). discriminate.
    + destruct I as (-> & _). discriminate.
    + destruct I as (-> & _). discriminate.
    + destruct I as (-> & _). cbn in H. injection H as <-. cbn.
      destruct A as (file & D & R). exists file. split; [exact D|].
      exact (@readPasses_later _ _ _ (Session.ScreenOf _ _ _ _) _ (incl_refl _) R).
    + destruct I as (-> & _). discriminate.
  - (* the logger of a run *)
    unfold Session.reports in H. screen_cbn.
    destruct (nth_error rs run) as [r|]; [|discriminate]. injection H as <-.
    screen_cbn.
    assert (Ac : accepted (if Session.mounted r then withProgress p dv else dv)
                 <-> accepted dv) by (destruct (Session.mounted r); reflexivity).
    destruct step; try exact A;
      try (destruct A as (file & D & R); exists file; split; [exact D|];
           exact (@readPasses_later _ _ _ (Session.ScreenOf _ _ _ _) _ (incl_refl _) R)).
    unfold Session.live in *. screen_cbn.
    destruct (filter Session.mounted rs) as [|r0 l].
    + intros Acc. apply Ac in Acc. destruct (A Acc) as (file & D & R).
      exists file. split; [exact D|].
      exact (@readPasses_later _ _ _ (Session.ScreenOf _ _ _ _) _ (incl_refl _) R).
    + destruct A as (D & NA). split; [exact D|]. intros Acc. apply Ac in Acc.
      contradiction.
  - (* Tesseract settles *)
    unfold Session.settles in H. screen_cbn.
    destruct (nth_error rs run) as [r|] eqn:Nth; [|discriminate]. injection H as <-.
    screen_cbn. unfold Session.live in *.
    cbn [Session.kyc Session.validation Session.running Session.reads
         KYCVerification.kycData KYCVerification.currentStep KYCVerification.timers
         KYCVerification.digitalId] in *.
    destruct (live_without _ _ Nth) as (Empty & Gone & One & Same).
    assert (Later : forall st v rs' file,
               readPasses data (Session.ScreenOf st dv rs log) file ->
               readPasses data
                 (Session.ScreenOf st v rs' ((Session.document r, result) :: log))
                 file).
    { intros st v rs' file. apply readPasses_later. cbn. intros x Hx. now right. }
    destruct step; try exact Logic.I;
      try (destruct A as (file & D & R); exists file; split; [exact D|];
           exact (Later _ _ _ _ R)).
    destruct I as (_ & _ & F & _).
    destruct (Session.mounted r) eqn:M.
    + destruct (One eq_refl Q) as (E1 & E2). rewrite E1 in A. rewrite E2.
      destruct A as (D & _). intros Acc.
      destruct (validated_verified _ _ _ _ Acc) as (Img & res & R & P).
      cbn in R. subst result. exists (Session.document r). split; [exact D|].
      split; [exact Img|]. exists res. split; [now left|].
      apply passes_sameForm with (r := r); [|exact P].
      exact (proj2 (Gone _ F) eq_refl).
    + rewrite (Same eq_refl).
      destruct (filter Session.mounted rs) as [|r0 l].
      * intros Acc. destruct (A Acc) as (file & D & R). exists file.
        split; [exact D | exact (Later _ _ _ _ R)].
      * exact A.
Qed.

End SessionSteps.

Section SessionInvariants.
Context {host : Host}.
Variable findDate : str -> str -> outcome MatchResult.
Variable dateTime : str -> option Z.
Variable fullYear : Z -> Z.
Variable today : Z.

Lemma guarded_session gs : forall s,
  Session.performAll findDate dateTime fullYear today Session.start gs = Some s ->
  guarded s.
Proof.
  induction gs as [|g gs IH] using rev_ind; intros s H.
  - injection H as <-. repeat split.
  - rewrite performAll_app in H.
    destruct (Session.performAll _ _ _ _ Session.start gs) as [s0|]; [|discriminate].
    exact (guarded_step _ _ _ _ _ _ (IH s0 eq_refl) H).
Qed.

Lemma attested_session gs : forall s,
  Session.performAll findDate dateTime fullYear today Session.start gs = Some s ->
  Session.oneAtATime findDate dateTime fullYear today Session.start gs = true ->
  attested s.
Proof.
  induction gs as [|g gs IH] using rev_ind; intros s H Q.
  - injection H as <-. exact I.
  - destruct (oneAtATime_app _ _ _ _ _ _ _ Q) as (Q0 & Q1).
    rewrite performAll_app in H.
    destruct (Session.performAll _ _ _ _ Session.start gs) as [s0|] eqn:E;
      [|discriminate].
    destruct (Q1 _ _ eq_refl H) as (L0 & L1).
    exact (attested_step _ _ _ _ _ _ (guarded_session _ E) (IH s0 eq_refl Q0) L0 H L1).
Qed.

Lemma validated_image data file before :
  isImage file -> noFileTypeEntry (Session.validated findDate data file before).
Proof.
  unfold isImage, noFileTypeEntry, Session.validated. intros Himg results.
  destruct (recognized file) as [result|e] eqn:Hocr.
  2: { rewrite (validateDocumentData_unreadable _ _ _ _ Himg Hocr).
       now intros [= <-]. }
  destruct (isAadhaar (isAadhaarDocument (orElse result []))) eqn:Hcls.
  2: { rewrite (validateDocumentData_rejected _ _ _ _ Himg Hocr Hcls).
       now intros [= <-]. }
  destruct (findDate (dateOfBirth (Session.toFormData data)) (orElse result []))
    as [dobResult|e] eqn:Hdob.
  - rewrite (validateDocumentData_compared _ _ _ _ Himg Hocr Hcls Hdob).
    now intros [= <-].
  - rewrite (validateDocumentData_date_throws _ _ _ _ Himg Hocr Hcls Hdob).
    now intros [= <-].
Qed.

Lemma images_only_step s g s' :
  images_only s ->
  Session.perform findDate dateTime fullYear today s g = Some s' ->
  images_only s'.
Proof.
  destruct s as [[step data id t] dv rs log]. unfold images_only.
  cbn [Session.kyc Session.validation Session.running KYCVerification.kycData].
  intros (P & D & V & R) H.
  assert (Pending : noFileTypeEntry (onlyStatus pending))
    by (intros results E; discriminate E).
  assert (Unmounted : Forall (fun r => isImage (Session.document r))
                             (map Session.unmount rs)).
  { rewrite Forall_map. exact R. }
  destruct g as [formData|type files| | | | |mock|run p|run result];
    unfold Session.perform, Session.onStep in H;
    cbn [Session.kyc Session.validation Session.running KYCVerification.kycData
         KYCVerification.currentStep] in H.
  - destruct step; cbn [KYCVerification.KYCStep_eqb] in H; try discriminate.
    unfold PersonalInfoForm.handleSubmit in H.
    destruct (PersonalInfoForm.isValid _); cbn in H; injection H as <-; cbn; auto.
  - destruct step; cbn [KYCVerification.KYCStep_eqb] in H; try discriminate.
    unfold Session.handleFileUpload in H.
    destruct files as [file|]; [|injection H as <-; cbn; auto].
    destruct (startsWith (fileType file) (js "image/")) eqn:Img; cbn in H;
      injection H as <-; [|cbn; auto].
    destruct type; cbn.
    + split; [|auto]. intros f [= <-]. exact Img.
    + unfold Session.begins. rewrite Img. cbn.
      split; [exact P|]. split; [intros f [= <-]; exact Img|].
      split; [intros results E; discriminate E|].
      apply Forall_app. split; [exact R | repeat constructor; exact Img].
  - destruct step; cbn [KYCVerification.KYCStep_eqb andb] in H; try discriminate.
    destruct (truthy (validationResults dv) && Status_eqb (status dv) invalid);
      [|discriminate].
    cbv iota in H. injection H as <-.
    destruct (KYCVerification.idDocument data) as [file|] eqn:E;
      [|cbn; split; [exact P|]; split; [intros f Ef; congruence|];
        split; assumption].
    pose proof (D file eq_refl) as Img. unfold isImage in Img.
    unfold Session.begins. rewrite Img. cbn.
    split; [exact P|]. split; [intros f Ef; apply D; congruence|].
    split; [intros results E'; discriminate E'|].
    apply Forall_app. split; [exact R | repeat constructor; exact Img].
  - destruct step; cbn [KYCVerification.KYCStep_eqb andb] in H; try discriminate.
    destruct (canProceed _ _ dv); [|discriminate].
    cbn in H. injection H as <-. cbn. auto.
  - destruct step; cbn [KYCVerification.KYCStep_eqb orb] in H; try discriminate;
      cbn in H; injection H as <-; cbn; auto.
  - destruct step; cbn [KYCVerification.KYCStep_eqb andb] in H; try discriminate.
    destruct (ReviewSubmission.isComplete data) eqn:G; [|discriminate].
    rewrite (proj1 (isComplete_goes_on _ G)) in H.
    cbn in H. injection H as <-. cbn. auto.
  - unfold Session.after in H. cbn [KYCVerification.reactAll KYCVerification.react
      Session.kyc KYCVerification.timers] in H.
    destruct (Nat.ltb 0 t); [|discriminate].
    destruct step; cbn in H; injection H as <-; cbn; auto.
  - unfold Session.reports in H. cbn [Session.running] in H.
    destruct (nth_error rs run) as [r|]; [|discriminate]. injection H as <-. cbn.
    split; [exact P|]. split; [exact D|]. split; [|exact R].
    destruct (Session.mounted r); exact V.
  - unfold Session.settles in H. cbn [Session.running] in H.
    destruct (nth_error rs run) as [r|] eqn:Nth; [|discriminate]. injection H as <-.
    cbn. split; [exact P|]. split; [exact D|].
    assert (Img : isImage (Session.document r)).
    { rewrite Forall_forall in R. exact (R _ (nth_error_In _ _ Nth)). }
    split.
    + destruct (Session.mounted r); [|exact V]. now apply validated_image.
    + rewrite Forall_forall in *. intros x Hx. exact (R _ (without_In _ _ _ Hx)).
Qed.

End SessionInvariants.

(** X27. Along a session in which no two validations are in flight at the
    same moment, the steps after the upload are on screen, and a digital
    ID is issued, only for data that the form has checked (a name of two
    characters, a date of birth, an ID number of twelve digits, a mobile
    number of ten) and that hold a photo and an ID document that Tesseract
    has read: an image, read as a text that the classifier accepts and in
    which the name and the ID number of the data are found. *)
Theorem digital_id_only_for_verified_data {host : Host}
        (findDate : str -> str -> outcome MatchResult)
        (dateTime : str -> option Z) (fullYear : Z -> Z) (today : Z)
        (gs : list Session.gesture) (s : Session.Screen) :
  Session.performAll findDate dateTime fullYear today Session.start gs = Some s ->
  Session.oneAtATime findDate dateTime fullYear today Session.start gs = true ->
  In (KYCVerification.currentStep (Session.kyc s))
     [KYCVerification.review; KYCVerification.processing; KYCVerification.complete]
  \/ KYCVerification.digitalId (Session.kyc s) <> None ->
  checked (KYCVerification.kycData (Session.kyc s))
  /\ KYCVerification.photo (KYCVerification.kycData (Session.kyc s)) <> None
  /\ exists file,
       KYCVerification.idDocument (KYCVerification.kycData (Session.kyc s))
       = Some file
       /\ readPasses (KYCVerification.kycData (Session.kyc s)) s file.
Proof.
  intros H Q W.
  pose proof (guarded_session _ _ _ _ _ H) as G.
  pose proof (attested_session _ _ _ _ _ H Q) as A.
  unfold guarded in G. unfold attested in A.
  destruct (KYCVerification.currentStep (Session.kyc s)).
  - destruct G as (_ & D & _). destruct W as [[E|[E|[E|[]]]]|N]; try discriminate E.
    contradiction.
  - destruct G as (_ & D & _). destruct W as [[E|[E|[E|[]]]]|N]; try discriminate E.
    contradiction.
  - destruct G as (_ & _ & _ & Ch & P & _). auto.
  - destruct G as (_ & _ & _ & Ch & P & _). auto.
  - destruct G as (_ & _ & Ch & P & _). auto.
Qed.

Lemma digital_id_only_for_verified_data_witness :
  exists s,
    Session.performAll (host := unitHost) byDigits sampleDateTime sampleFullYear 754000
      Session.start
      [ Session.SubmitForm sampleFields;
        Session.ChooseFile Session.Photo (Some sampleFile);
        Session.ChooseFile Session.IdDocument (Some sampleFile);
        Session.Reports 0 50;
        Session.Settles 0 (Ok (Some sampleText));
        Session.Continue; Session.SubmitReview; Session.TimerFires sampleId ]
    = Some s
    /\ Session.oneAtATime (host := unitHost) byDigits sampleDateTime sampleFullYear
         754000 Session.start
         [ Session.SubmitForm sampleFields;
           Session.ChooseFile Session.Photo (Some sampleFile);
           Session.ChooseFile Session.IdDocument (Some sampleFile);
           Session.Reports 0 50;
           Session.Settles 0 (Ok (Some sampleText));
           Session.Continue; Session.SubmitReview; Session.TimerFires sampleId ]
       = true
    /\ KYCVerification.digitalId (Session.kyc s) = Some sampleId
    /\ exists file,
         KYCVerification.idDocument (KYCVerification.kycData (Session.kyc s))
         = Some file
         /\ readPasses (host := unitHost) (KYCVerification.kycData (Session.kyc s)) s
                       file.
Proof.
  eexists. split; [vm_compute; reflexivity|].
  split; [vm_compute; reflexivity|]. split; [reflexivity|].
  refine (proj2 (proj2
           (@digital_id_only_for_verified_data unitHost byDigits
              sampleDateTime sampleFullYear 754000
              [ Session.SubmitForm sampleFields;
                Session.ChooseFile Session.Photo (Some sampleFile);
                Session.ChooseFile Session.IdDocument (Some sampleFile);
                Session.Reports 0 50;
                Session.Settles 0 (Ok (Some sampleText));
                Session.Continue; Session.SubmitReview; Session.TimerFires sampleId ]
              _ _ _ _))).
  - vm_compute. reflexivity.
  - vm_compute. reflexivity.
  - right. discriminate.
Defined.

(** X30. Along every session, with validations in flight in whatever
    number and order, the steps after the upload are on screen, and a
    digital ID is issued, only for data that the form has checked and that
    hold a photo and an ID document, and only once Tesseract has read some
    image, in a run of the upload step, as a text that the classifier
    accepts and in which the name and the ID number of the data are
    found. *)
Theorem digital_id_requires_a_passing_read {host : Host}
        (findDate : str -> str -> outcome MatchResult)
        (dateTime : str -> option Z) (fullYear : Z -> Z) (today : Z)
        (gs : list Session.gesture) (s : Session.Screen) :
  Session.performAll findDate dateTime fullYear today Session.start gs = Some s ->
  In (KYCVerification.currentStep (Session.kyc s))
     [KYCVerification.review; KYCVerification.processing; KYCVerification.complete]
  \/ KYCVerification.digitalId (Session.kyc s) <> None ->
  checked (KYCVerification.kycData (Session.kyc s))
  /\ KYCVerification.photo (KYCVerification.kycData (Session.kyc s)) <> None
  /\ KYCVerification.idDocument (KYCVerification.kycData (Session.kyc s)) <> None
  /\ exists file, readPasses (KYCVerification.kycData (Session.kyc s)) s file.
Proof.
  intros H W.
  pose proof (guarded_session _ _ _ _ _ H) as G. unfold guarded in G.
  destruct (KYCVerification.currentStep (Session.kyc s)).
  - destruct G as (_ & D & _). destruct W as [[E|[E|[E|[]]]]|N]; try discriminate E.
    contradiction.
  - destruct G as (_ & D & _). destruct W as [[E|[E|[E|[]]]]|N]; try discriminate E.
    contradiction.
  - destruct G as (_ & _ & _ & G). exact G.
  - destruct G as (_ & _ & _ & G). exact G.
  - destruct G as (_ & _ & G). exact G.
Qed.

Lemma digital_id_requires_a_passing_read_witness :
  exists s,
    Session.performAll (host := unitHost) byDigits sampleDateTime sampleFullYear 754000
      Session.start
      [ Session.SubmitForm sampleFields;
        Session.ChooseFile Session.IdDocument (Some sampleFile);
        Session.ChooseFile Session.IdDocument (Some otherFile);
        Session.ChooseFile Session.Photo (Some sampleFile);
        Session.Settles 1 (Ok None);
        Session.Settles 0 (Ok (Some sampleText));
        Session.Continue ]
    = Some s
    /\ KYCVerification.currentStep (Session.kyc s) = KYCVerification.review
    /\ exists file,
         readPasses (host := unitHost) (KYCVerification.kycData (Session.kyc s)) s file.
Proof.
  eexists. split; [vm_compute; reflexivity|]. split; [reflexivity|].
  refine (proj2 (proj2 (proj2
           (@digital_id_requires_a_passing_read unitHost byDigits
              sampleDateTime sampleFullYear 754000
              [ Session.SubmitForm sampleFields;
                Session.ChooseFile Session.IdDocument (Some sampleFile);
                Session.ChooseFile Session.IdDocument (Some otherFile);
                Session.ChooseFile Session.Photo (Some sampleFile);
                Session.Settles 1 (Ok None);
                Session.Settles 0 (Ok (Some sampleText));
                Session.Continue ]
              _ _ _)))).
  - vm_compute. reflexivity.
  - left. left. reflexivity.
Defined.

(** X31. Validations in flight at the same moment defeat the check of the
    ID document: there is a session at the end of which a digital ID is
    issued for an ID document that Tesseract has never read.  The user
    chooses one image and then another before the first is read; the run
    of the first sets the status, the button Continue is enabled, and the
    run of the second has nothing left to set. *)
Theorem unread_document_gets_digital_id :
  exists gs s,
    Session.performAll (host := unitHost) byDigits sampleDateTime sampleFullYear 754000
      Session.start gs = Some s
    /\ KYCVerification.digitalId (Session.kyc s) <> None
    /\ KYCVerification.idDocument (KYCVerification.kycData (Session.kyc s))
       = Some otherFile
    /\ forall result, ~ In (otherFile, result) (Session.reads s).
Proof.
  exists [ Session.SubmitForm sampleFields;
           Session.ChooseFile Session.Photo (Some sampleFile);
           Session.ChooseFile Session.IdDocument (Some sampleFile);
           Session.ChooseFile Session.IdDocument (Some otherFile);
           Session.Settles 0 (Ok (Some sampleText));
           Session.Continue; Session.SubmitReview; Session.TimerFires sampleId ].
  eexists. split; [vm_compute; reflexivity|].
  split; [discriminate|]. split; [reflexivity|].
  intros result [E|[]]. discriminate E.
Qed.

(** X29. Along a session, the photo and the ID document of the data are
    always images: the upload refuses any other file before it is stored
    or read.  So [validateDocumentData] is only ever run on images, by the
    upload or by Retry, and its own check of the type of the file never
    fails: [documentValidation] never holds the entry [fileType]. *)
Theorem only_images_are_stored {host : Host}
        (findDate : str -> str -> outcome MatchResult)
        (dateTime : str -> option Z) (fullYear : Z -> Z) (today : Z)
        (gs : list Session.gesture) (s : Session.Screen) :
  Session.performAll findDate dateTime fullYear today Session.start gs = Some s ->
  (forall file,
     KYCVerification.photo (KYCVerification.kycData (Session.kyc s)) = Some file ->
     startsWith (fileType file) (js "image/") = true)
  /\ (forall file,
        KYCVerification.idDocument (KYCVerification.kycData (Session.kyc s))
        = Some file ->
        startsWith (fileType file) (js "image/") = true)
  /\ forall results,
       validationResults (Session.validation s) = Some results ->
       lookup (js "fileType") results = None.
Proof.
  assert (I : images_only s ->
              (forall file,
                 KYCVerification.photo (KYCVerification.kycData (Session.kyc s))
                 = Some file ->
                 startsWith (fileType file) (js "image/") = true)
              /\ (forall file,
                    KYCVerification.idDocument (KYCVerification.kycData (Session.kyc s))
                    = Some file ->
                    startsWith (fileType file) (js "image/") = true)
              /\ forall results,
                   validationResults (Session.validation s) = Some results ->
                   lookup (js "fileType") results = None).
  { intros (P & D & V & _). exact (conj P (conj D V)). }
  intros H. apply I. clear I. revert s H.
  induction gs as [|g gs IH] using rev_ind; intros s H.
  - injection H as <-. cbn. repeat split; try constructor; intros; discriminate.
  - rewrite performAll_app in H.
    destruct (Session.performAll _ _ _ _ Session.start gs) as [s0|]; [|discriminate].
    exact (@images_only_step _ _ _ _ _ _ _ _ (IH s0 eq_refl) H).
Qed.

Lemma only_images_are_stored_witness :
  exists s,
    Session.performAll (host := unitHost) byDigits sampleDateTime sampleFullYear 754000
      Session.start
      [ Session.SubmitForm sampleFields;
        Session.ChooseFile Session.IdDocument (Some pdfFile);
        Session.ChooseFile Session.Photo (Some sampleFile) ]
    = Some s
    /\ KYCVerification.idDocument (KYCVerification.kycData (Session.kyc s)) = None
    /\ forall file,
         KYCVerification.photo (KYCVerification.kycData (Session.kyc s)) = Some file ->
         startsWith (fileType file) (js "image/") = true.
Proof.
  eexists. split; [vm_compute; reflexivity|]. split; [reflexivity|].
  refine (proj1 (@only_images_are_stored unitHost byDigits
                   sampleDateTime sampleFullYear 754000
                   [ Session.SubmitForm sampleFields;
                     Session.ChooseFile Session.IdDocument (Some pdfFile);
                     Session.ChooseFile Session.Photo (Some sampleFile) ]
                   _ _)).
  vm_compute. reflexivity.
Defined.
